(** * Session lifecycle, pricing and kiosk control of the xtreme client app

    A shallow embedding of the session-management code of the kiosk
    client (SessionStateManager, SessionManager, DeviceTokenMonitor, the
    PocketBase client helpers, the useCollection hook and the kiosk
    handlers of App) together with the properties its specification
    states about them.

    Conventions of the embedding:
    - a JavaScript number is an element of a [JsNum] structure; the
      theorems about arithmetic are stated over exact rationals [Q], and
      the concrete pricing examples are also evaluated over IEEE-754
      binary64 ([float]), the number type the program runs on;
    - a [Date] is an instant in epoch milliseconds, or the invalid date;
      the local calendar (time zone, locale formatting) is a [Calendar]
      parameter of the code;
    - every asynchronous function is embedded as one uninterrupted run:
      a computation over the [World] (remote store, local storage, auth
      store, emitted effects, pending timers, component state) that
      finishes normally, returns early, or throws; the tick of
      SessionManager, whose runs overlap, is embedded a second time
      with its [await]s kept;
    - a React callback reads the component state of the render that
      created it: the snapshot is an explicit argument, and the setters
      update the state stored in the [World]. *)

From Stdlib Require Import ZArith QArith Floats String Ascii List Bool Lia.
From Stdlib Require Import DecimalString Lqa.
From stdpp Require Import base option list gmap strings.
Import ListNotations.

Open Scope string_scope.
Open Scope Z_scope.

(** ** JavaScript numbers *)

Class JsNum (num : Type) : Type := {
  ofZ : Z -> num;
  nmul : num -> num -> num;
  nsub : num -> num -> num;
  ndiv : num -> num -> num;
  nltb : num -> num -> bool;          (* a < b *)
  nleb : num -> num -> bool;          (* a <= b *)
  isNaN : num -> bool
}.

(** [x > 0] and the truthiness of a number ([x && ...], [x || 0]). *)
Definition gt0 {num} `{JsNum num} (x : num) : bool := nltb (ofZ 0) x.
Definition truthy {num} `{JsNum num} (x : num) : bool :=
  negb (isNaN x) && (nltb x (ofZ 0) || nltb (ofZ 0) x).
Definition orZero {num} `{JsNum num} (x : num) : num :=
  if truthy x then x else ofZ 0.

#[global] Instance Q_JsNum : JsNum Q := {
  ofZ := inject_Z;
  nmul := Qmult;
  nsub := Qminus;
  ndiv := Qdiv;
  nltb := fun a b => negb (Qle_bool b a);
  nleb := Qle_bool;
  isNaN := fun _ => false
}.

Definition float_ofZ (z : Z) : float :=
  if z <? 0 then PrimFloat.opp (PrimFloat.of_uint63 (Uint63.of_Z (- z)))
  else PrimFloat.of_uint63 (Uint63.of_Z z).

#[global] Instance float_JsNum : JsNum float := {
  ofZ := float_ofZ;
  nmul := PrimFloat.mul;
  nsub := PrimFloat.sub;
  ndiv := PrimFloat.div;
  nltb := PrimFloat.ltb;
  nleb := PrimFloat.leb;
  isNaN := fun x => negb (PrimFloat.eqb x x)
}.

(** ** Dates and the local calendar *)

Inductive Date : Type :=
| Instant (ms : Z)
| InvalidDate.

(** [new Date(x)] for a state variable holding a Date or null. *)
Definition newDate (d : option Date) : Date :=
  match d with
  | Some x => x
  | None => Instant 0
  end.

(** [date.getTime()], where [None] stands for NaN. *)
Definition getTime (d : Date) : option Z :=
  match d with
  | Instant ms => Some ms
  | InvalidDate => None
  end.

(** The accessors of Date that depend on the time zone and locale of the
    terminal: [getFullYear], [getMonth], [getDate],
    [toLocaleDateString('en-US', {weekday: 'long'})] and
    [toLocaleTimeString('en-US', {hour12: false, hour: '2-digit',
    minute: '2-digit'})]. *)
Record Calendar : Type := {
  getFullYear : Z -> Z;
  getMonth : Z -> Z;
  getDate : Z -> Z;
  weekdayLong : Z -> string;
  timeHHMM : Z -> string
}.

Definition msPerHour : Z := 60 * 60 * 1000.

(** ** Records of the remote store

    PocketBase returns the empty string for an unset text, relation or
    date field and 0 for an unset number field; both are falsy, which is
    what the code tests. Date fields are kept as parsed instants, with
    [None] for the empty string. *)

Record Device : Type := {
  dev_id : string;
  dev_group : string;
  dev_status : string;
  dev_token : string;
  dev_client_record : string
}.

Record Group (num : Type) : Type := {
  grp_id : string;
  grp_price : num
}.
Arguments grp_id {num} _.
Arguments grp_price {num} _.

Record HappyHour (num : Type) : Type := {
  hh_group : string;
  hh_status : string;
  hh_days : string;
  hh_start_time : string;
  hh_end_time : string;
  hh_discount_percentage : num;
  hh_fixed_rate : num
}.
Arguments hh_group {num} _.
Arguments hh_status {num} _.
Arguments hh_days {num} _.
Arguments hh_start_time {num} _.
Arguments hh_end_time {num} _.
Arguments hh_discount_percentage {num} _.
Arguments hh_fixed_rate {num} _.

Record Session (num : Type) : Type := {
  ses_id : string;
  ses_device : string;
  ses_in_time : option Z;
  ses_out_time : option Z;
  ses_duration : num;
  ses_status : string;
  ses_session_total : num;
  ses_total_amount : num;
  ses_amount_paid : num;
  ses_discount_amount : num;
  ses_discount_rate : num
}.
Arguments ses_id {num} _.
Arguments ses_device {num} _.
Arguments ses_in_time {num} _.
Arguments ses_out_time {num} _.
Arguments ses_duration {num} _.
Arguments ses_status {num} _.
Arguments ses_session_total {num} _.
Arguments ses_total_amount {num} _.
Arguments ses_amount_paid {num} _.
Arguments ses_discount_amount {num} _.
Arguments ses_discount_rate {num} _.

Record SessionLog (num : Type) : Type := {
  log_session_id : string;
  log_type : string;
  log_session_amount : num
}.
Arguments log_session_id {num} _.
Arguments log_type {num} _.
Arguments log_session_amount {num} _.

Record User : Type := {
  usr_id : string;
  usr_username : string;
  usr_email : string
}.

(** The object literal passed to [update] on a session: the fields that
    are present. A duration of [Some None] is a NaN duration. *)
Record SessionPatch (num : Type) : Type := {
  p_status : option string;
  p_out_time : option Z;
  p_duration : option (option num);
  p_session_total : option num;
  p_total_amount : option num;
  p_amount_paid : option num;
  p_discount_amount : option num;
  p_discount_rate : option num
}.
Arguments p_status {num} _.
Arguments p_out_time {num} _.
Arguments p_duration {num} _.
Arguments p_session_total {num} _.
Arguments p_total_amount {num} _.
Arguments p_amount_paid {num} _.
Arguments p_discount_amount {num} _.
Arguments p_discount_rate {num} _.

Record DevicePatch : Type := {
  dp_status : option string;
  dp_token : option string;
  dp_client_record : option string
}.

Record Store (num : Type) : Type := {
  devices : list Device;
  groups : list (Group num);
  happy_hours : list (HappyHour num);
  sessions : list (Session num);          (* in order of creation *)
  session_logs : list (SessionLog num);
  clients : list User;
  users : list User;
  failing : list string   (* collections whose requests are rejected *)
}.
Arguments devices {num} _.
Arguments groups {num} _.
Arguments happy_hours {num} _.
Arguments sessions {num} _.
Arguments session_logs {num} _.
Arguments clients {num} _.
Arguments users {num} _.
Arguments failing {num} _.

(** The write requests sent to the store, in the order they are sent. *)
Inductive Request (num : Type) : Type :=
| UpdateSession (id : string) (p : SessionPatch num)
| CreateSessionLog (e : SessionLog num)
| UpdateDevice (id : string) (p : DevicePatch).
Arguments UpdateSession {num} _ _.
Arguments CreateSessionLog {num} _.
Arguments UpdateDevice {num} _ _.

(** ** The browser side *)

(** An item of localStorage, seen through [JSON.parse]: an object with
    text fields, or a text that is not a JSON object. *)
Inductive Json : Type :=
| JText (s : string)
| JObject (fields : list (string * string)).

Record AuthStore : Type := {
  auth_token : string;
  auth_record : option string
}.

(** What the code shows or signals to its surroundings. *)
Inductive Effect : Type :=
| Notification (message : string) (isSystemNotification : bool)
| KioskEvent (reason : string) (force : bool)
| SetFullScreen
| SessionStateChange (isActive : bool) (session : option string)
| AutoLogin (userId username deviceId : string)
| Reload.

(** The functions handed to [setTimeout]. *)
Inductive Callback : Type :=
| AutoLogout
| ReloadPage.

(** The window as Neutralino configures it, and the key filter. *)
Record WindowConf : Type := {
  win_width : Z;
  win_height : Z;
  win_resizable : bool;
  win_borderless : bool;
  win_alwaysOnTop : bool;
  win_maximize : bool
}.

Record Desktop : Type := {
  screen_width : Z;
  screen_height : Z;
  window : WindowConf;
  fullScreen : bool;
  centered : bool;
  os_fails : bool;            (* the native window calls are rejected *)
  keyboardHandler : bool      (* the keydown filter is installed *)
}.

(** ** Component state *)

Record SMState (num : Type) : Type := {
  sessionId : option string;
  inTime : option Date;
  outTime : option Date;
  remainingTime : Z * Z * Z;
  isSessionActive : bool;
  loading : bool;
  error : option string;
  deviceInfo : option Device;
  groupInfo : option (Group num);
  sessionCost : num;
  notificationShown : bool
}.
Arguments sessionId {num} _.
Arguments inTime {num} _.
Arguments outTime {num} _.
Arguments remainingTime {num} _.
Arguments isSessionActive {num} _.
Arguments loading {num} _.
Arguments error {num} _.
Arguments deviceInfo {num} _.
Arguments groupInfo {num} _.
Arguments sessionCost {num} _.
Arguments notificationShown {num} _.

Record SSMState (num : Type) : Type := {
  isChecking : bool;
  sessionActive : bool;
  sessionData : option (Session num);
  isClientApp : bool
}.
Arguments isChecking {num} _.
Arguments sessionActive {num} _.
Arguments sessionData {num} _.
Arguments isClientApp {num} _.

Record AppState (num : Type) : Type := {
  isLoggedIn : bool;
  isKioskMode : bool;
  hasActiveSession : bool;
  activeSessionData : option (Session num)
}.
Arguments isLoggedIn {num} _.
Arguments isKioskMode {num} _.
Arguments hasActiveSession {num} _.
Arguments activeSessionData {num} _.

Record World (num : Type) : Type := {
  now : Z;                                   (* the clock: [new Date()] *)
  store : Store num;
  localStorage : gmap string Json;
  authStore : AuthStore;
  neutralino : bool;                         (* window.Neutralino.window *)
  desktop : Desktop;
  journal : list (Request num);
  effects : list Effect;
  timers : list (Z * Callback);
  sm : SMState num;
  ssm : SSMState num;
  lastCheckedToken : string;                 (* DeviceTokenMonitor *)
  app : AppState num
}.
Arguments now {num} _.
Arguments store {num} _.
Arguments localStorage {num} _.
Arguments authStore {num} _.
Arguments neutralino {num} _.
Arguments desktop {num} _.
Arguments journal {num} _.
Arguments effects {num} _.
Arguments timers {num} _.
Arguments sm {num} _.
Arguments ssm {num} _.
Arguments lastCheckedToken {num} _.
Arguments app {num} _.

(** ** Field updates

    Rocq has no record update; one function per field that the code
    assigns. *)

Definition with_store {num} (x : _) (w : World num) : World num :=
  {| now := now w; store := x; localStorage := localStorage w; authStore :=
     authStore w; neutralino := neutralino w; desktop := desktop w; journal :=
     journal w; effects := effects w; timers := timers w; sm := sm w; ssm := ssm
     w; lastCheckedToken := lastCheckedToken w; app := app w |}.

Definition with_localStorage {num} (x : _) (w : World num) : World num :=
  {| now := now w; store := store w; localStorage := x; authStore :=
     authStore w; neutralino := neutralino w; desktop := desktop w; journal :=
     journal w; effects := effects w; timers := timers w; sm := sm w; ssm := ssm
     w; lastCheckedToken := lastCheckedToken w; app := app w |}.

Definition with_authStore {num} (x : _) (w : World num) : World num :=
  {| now := now w; store := store w; localStorage := localStorage w;
     authStore := x; neutralino := neutralino w; desktop := desktop w; journal :=
     journal w; effects := effects w; timers := timers w; sm := sm w; ssm := ssm
     w; lastCheckedToken := lastCheckedToken w; app := app w |}.

Definition with_desktop {num} (x : _) (w : World num) : World num :=
  {| now := now w; store := store w; localStorage := localStorage w;
     authStore := authStore w; neutralino := neutralino w; desktop := x; journal
     := journal w; effects := effects w; timers := timers w; sm := sm w; ssm :=
     ssm w; lastCheckedToken := lastCheckedToken w; app := app w |}.

Definition with_journal {num} (x : _) (w : World num) : World num :=
  {| now := now w; store := store w; localStorage := localStorage w;
     authStore := authStore w; neutralino := neutralino w; desktop := desktop w;
     journal := x; effects := effects w; timers := timers w; sm := sm w; ssm :=
     ssm w; lastCheckedToken := lastCheckedToken w; app := app w |}.

Definition with_effects {num} (x : _) (w : World num) : World num :=
  {| now := now w; store := store w; localStorage := localStorage w;
     authStore := authStore w; neutralino := neutralino w; desktop := desktop w;
     journal := journal w; effects := x; timers := timers w; sm := sm w; ssm :=
     ssm w; lastCheckedToken := lastCheckedToken w; app := app w |}.

Definition with_timers {num} (x : _) (w : World num) : World num :=
  {| now := now w; store := store w; localStorage := localStorage w;
     authStore := authStore w; neutralino := neutralino w; desktop := desktop w;
     journal := journal w; effects := effects w; timers := x; sm := sm w; ssm :=
     ssm w; lastCheckedToken := lastCheckedToken w; app := app w |}.

Definition with_sm {num} (x : _) (w : World num) : World num :=
  {| now := now w; store := store w; localStorage := localStorage w;
     authStore := authStore w; neutralino := neutralino w; desktop := desktop w;
     journal := journal w; effects := effects w; timers := timers w; sm := x; ssm
     := ssm w; lastCheckedToken := lastCheckedToken w; app := app w |}.

Definition with_ssm {num} (x : _) (w : World num) : World num :=
  {| now := now w; store := store w; localStorage := localStorage w;
     authStore := authStore w; neutralino := neutralino w; desktop := desktop w;
     journal := journal w; effects := effects w; timers := timers w; sm := sm w;
     ssm := x; lastCheckedToken := lastCheckedToken w; app := app w |}.

Definition with_lastCheckedToken {num} (x : _) (w : World num) : World num :=
  {| now := now w; store := store w; localStorage := localStorage w;
     authStore := authStore w; neutralino := neutralino w; desktop := desktop w;
     journal := journal w; effects := effects w; timers := timers w; sm := sm w;
     ssm := ssm w; lastCheckedToken := x; app := app w |}.

Definition with_app {num} (x : _) (w : World num) : World num :=
  {| now := now w; store := store w; localStorage := localStorage w;
     authStore := authStore w; neutralino := neutralino w; desktop := desktop w;
     journal := journal w; effects := effects w; timers := timers w; sm := sm w;
     ssm := ssm w; lastCheckedToken := lastCheckedToken w; app := x |}.

Definition with_sessionId {num} (x : _) (s : SMState num) : SMState num :=
  {| sessionId := x; inTime := inTime s; outTime := outTime s; remainingTime
     := remainingTime s; isSessionActive := isSessionActive s; loading := loading
     s; error := error s; deviceInfo := deviceInfo s; groupInfo := groupInfo s;
     sessionCost := sessionCost s; notificationShown := notificationShown s |}.

Definition with_inTime {num} (x : _) (s : SMState num) : SMState num :=
  {| sessionId := sessionId s; inTime := x; outTime := outTime s;
     remainingTime := remainingTime s; isSessionActive := isSessionActive s;
     loading := loading s; error := error s; deviceInfo := deviceInfo s;
     groupInfo := groupInfo s; sessionCost := sessionCost s; notificationShown :=
     notificationShown s |}.

Definition with_outTime {num} (x : _) (s : SMState num) : SMState num :=
  {| sessionId := sessionId s; inTime := inTime s; outTime := x;
     remainingTime := remainingTime s; isSessionActive := isSessionActive s;
     loading := loading s; error := error s; deviceInfo := deviceInfo s;
     groupInfo := groupInfo s; sessionCost := sessionCost s; notificationShown :=
     notificationShown s |}.

Definition with_remainingTime {num} (x : _) (s : SMState num) : SMState num :=
  {| sessionId := sessionId s; inTime := inTime s; outTime := outTime s;
     remainingTime := x; isSessionActive := isSessionActive s; loading := loading
     s; error := error s; deviceInfo := deviceInfo s; groupInfo := groupInfo s;
     sessionCost := sessionCost s; notificationShown := notificationShown s |}.

Definition with_isSessionActive {num} (x : _) (s : SMState num) : SMState num :=
  {| sessionId := sessionId s; inTime := inTime s; outTime := outTime s;
     remainingTime := remainingTime s; isSessionActive := x; loading := loading
     s; error := error s; deviceInfo := deviceInfo s; groupInfo := groupInfo s;
     sessionCost := sessionCost s; notificationShown := notificationShown s |}.

Definition with_loading {num} (x : _) (s : SMState num) : SMState num :=
  {| sessionId := sessionId s; inTime := inTime s; outTime := outTime s;
     remainingTime := remainingTime s; isSessionActive := isSessionActive s;
     loading := x; error := error s; deviceInfo := deviceInfo s; groupInfo :=
     groupInfo s; sessionCost := sessionCost s; notificationShown :=
     notificationShown s |}.

Definition with_error {num} (x : _) (s : SMState num) : SMState num :=
  {| sessionId := sessionId s; inTime := inTime s; outTime := outTime s;
     remainingTime := remainingTime s; isSessionActive := isSessionActive s;
     loading := loading s; error := x; deviceInfo := deviceInfo s; groupInfo :=
     groupInfo s; sessionCost := sessionCost s; notificationShown :=
     notificationShown s |}.

Definition with_deviceInfo {num} (x : _) (s : SMState num) : SMState num :=
  {| sessionId := sessionId s; inTime := inTime s; outTime := outTime s;
     remainingTime := remainingTime s; isSessionActive := isSessionActive s;
     loading := loading s; error := error s; deviceInfo := x; groupInfo :=
     groupInfo s; sessionCost := sessionCost s; notificationShown :=
     notificationShown s |}.

Definition with_groupInfo {num} (x : _) (s : SMState num) : SMState num :=
  {| sessionId := sessionId s; inTime := inTime s; outTime := outTime s;
     remainingTime := remainingTime s; isSessionActive := isSessionActive s;
     loading := loading s; error := error s; deviceInfo := deviceInfo s;
     groupInfo := x; sessionCost := sessionCost s; notificationShown :=
     notificationShown s |}.

Definition with_sessionCost {num} (x : _) (s : SMState num) : SMState num :=
  {| sessionId := sessionId s; inTime := inTime s; outTime := outTime s;
     remainingTime := remainingTime s; isSessionActive := isSessionActive s;
     loading := loading s; error := error s; deviceInfo := deviceInfo s;
     groupInfo := groupInfo s; sessionCost := x; notificationShown :=
     notificationShown s |}.

Definition with_notificationShown {num} (x : _) (s : SMState num) : SMState num :=
  {| sessionId := sessionId s; inTime := inTime s; outTime := outTime s;
     remainingTime := remainingTime s; isSessionActive := isSessionActive s;
     loading := loading s; error := error s; deviceInfo := deviceInfo s;
     groupInfo := groupInfo s; sessionCost := sessionCost s; notificationShown :=
     x |}.

Definition with_isChecking {num} (x : _) (s : SSMState num) : SSMState num :=
  {| isChecking := x; sessionActive := sessionActive s; sessionData :=
     sessionData s; isClientApp := isClientApp s |}.

Definition with_sessionActive {num} (x : _) (s : SSMState num) : SSMState num :=
  {| isChecking := isChecking s; sessionActive := x; sessionData :=
     sessionData s; isClientApp := isClientApp s |}.

Definition with_sessionData {num} (x : _) (s : SSMState num) : SSMState num :=
  {| isChecking := isChecking s; sessionActive := sessionActive s;
     sessionData := x; isClientApp := isClientApp s |}.

Definition with_isClientApp {num} (x : _) (s : SSMState num) : SSMState num :=
  {| isChecking := isChecking s; sessionActive := sessionActive s;
     sessionData := sessionData s; isClientApp := x |}.

Definition with_isKioskMode {num} (x : _) (a : AppState num) : AppState num :=
  {| isLoggedIn := isLoggedIn a; isKioskMode := x; hasActiveSession :=
     hasActiveSession a; activeSessionData := activeSessionData a |}.

Definition with_hasActiveSession {num} (x : _) (a : AppState num) : AppState num :=
  {| isLoggedIn := isLoggedIn a; isKioskMode := isKioskMode a;
     hasActiveSession := x; activeSessionData := activeSessionData a |}.

Definition with_activeSessionData {num} (x : _) (a : AppState num) : AppState num :=
  {| isLoggedIn := isLoggedIn a; isKioskMode := isKioskMode a;
     hasActiveSession := hasActiveSession a; activeSessionData := x |}.

Definition with_window (x : _) (d : Desktop) : Desktop :=
  {| screen_width := screen_width d; screen_height := screen_height d;
     window := x; fullScreen := fullScreen d; centered := centered d; os_fails :=
     os_fails d; keyboardHandler := keyboardHandler d |}.

Definition with_fullScreen (x : _) (d : Desktop) : Desktop :=
  {| screen_width := screen_width d; screen_height := screen_height d;
     window := window d; fullScreen := x; centered := centered d; os_fails :=
     os_fails d; keyboardHandler := keyboardHandler d |}.

Definition with_centered (x : _) (d : Desktop) : Desktop :=
  {| screen_width := screen_width d; screen_height := screen_height d;
     window := window d; fullScreen := fullScreen d; centered := x; os_fails :=
     os_fails d; keyboardHandler := keyboardHandler d |}.

Definition with_keyboardHandler (x : _) (d : Desktop) : Desktop :=
  {| screen_width := screen_width d; screen_height := screen_height d;
     window := window d; fullScreen := fullScreen d; centered := centered d;
     os_fails := os_fails d; keyboardHandler := x |}.

Definition with_devices {num} (x : _) (st : Store num) : Store num :=
  {| devices := x; groups := groups st; happy_hours := happy_hours st;
     sessions := sessions st; session_logs := session_logs st; clients := clients
     st; users := users st; failing := failing st |}.

Definition with_sessions {num} (x : _) (st : Store num) : Store num :=
  {| devices := devices st; groups := groups st; happy_hours := happy_hours
     st; sessions := x; session_logs := session_logs st; clients := clients st;
     users := users st; failing := failing st |}.

Definition with_session_logs {num} (x : _) (st : Store num) : Store num :=
  {| devices := devices st; groups := groups st; happy_hours := happy_hours
     st; sessions := sessions st; session_logs := x; clients := clients st; users
     := users st; failing := failing st |}.

Definition with_now {num} (x : Z) (w : World num) : World num :=
  {| now := x; store := store w; localStorage := localStorage w;
     authStore := authStore w; neutralino := neutralino w;
     desktop := desktop w; journal := journal w; effects := effects w;
     timers := timers w; sm := sm w; ssm := ssm w;
     lastCheckedToken := lastCheckedToken w; app := app w |}.

(** ** Computations

    A statement of an async function runs on the world and finishes
    normally with a value, executes a [return], or throws. *)

Inductive Outcome (R A : Type) : Type :=
| Val (a : A)
| Ret (r : R)
| Throw.
Arguments Val {R A} _.
Arguments Ret {R A} _.
Arguments Throw {R A}.

Definition M (num R A : Type) : Type := World num -> Outcome R A * World num.

Section Statements.
Context {num R : Type}.

Definition ret {A} (a : A) : M num R A := fun w => (Val a, w).

Definition bind {A B} (c : M num R A) (k : A -> M num R B) : M num R B :=
  fun w =>
    match c w with
    | (Val a, w') => k a w'
    | (Ret r, w') => (Ret r, w')
    | (Throw, w') => (Throw, w')
    end.

(** [return r;] and [throw]. *)
Definition return_ {A} (r : R) : M num R A := fun w => (Ret r, w).
Definition throw {A} : M num R A := fun w => (Throw, w).

(** [try { body } catch (e) { handler }]: a [return] passes through. *)
Definition tryCatch {A} (body handler : M num R A) : M num R A :=
  fun w =>
    match body w with
    | (Throw, w') => handler w'
    | o => o
    end.

(** [try { body } finally { fin }], for a [fin] that only assigns. *)
Definition finally {A} (body : M num R A) (fin : World num -> World num)
  : M num R A :=
  fun w => let '(o, w') := body w in (o, fin w').

Definition when (b : bool) (c : M num R unit) : M num R unit :=
  if b then c else ret tt.

(** A state change that cannot fail. *)
Definition modify (f : World num -> World num) : M num R unit :=
  fun w => (Val tt, f w).

Definition get {A} (f : World num -> A) : M num R A := fun w => (Val (f w), w).

End Statements.

(** The body of a function of result type [R], called (and awaited)
    from a statement of another function; [dflt] is the result when the
    body ends without a [return]. *)
Definition call {num R R' : Type} (body : M num R unit) (dflt : R)
  : M num R' R :=
  fun w =>
    match body w with
    | (Val _, w') => (Val dflt, w')
    | (Ret r, w') => (Val r, w')
    | (Throw, w') => (Throw, w')
    end.

Notation "'let*' x ':=' c1 'in' c2" := (bind c1 (fun x => c2))
  (at level 10, x name, c1 at level 100, c2 at level 200).
Notation "c1 ;;; c2" := (bind c1 (fun _ => c2))
  (at level 100, c2 at level 200, right associativity).

(** Truthiness of a string. *)
Definition nonEmpty (s : string) : bool := negb (String.eqb s "").

(** ** The PocketBase client *)

Section PocketBase.
Context {num : Type} {N : JsNum num} {R : Type}.

Definition collection_ok (st : Store num) (name : string) : bool :=
  negb (existsb (String.eqb name) (failing st)).

(** The record of a collection with a given id, when the collection can
    be reached and holds one. *)
Definition findRecord {A} (name : string) (coll : Store num -> list A)
  (idOf : A -> string) (id : string) (st : Store num) : option A :=
  if collection_ok st name then
    List.find (fun r => String.eqb (idOf r) id) (coll st)
  else None.

(** [pbclient.collection(name).getOne(id)]: rejected when the collection
    cannot be reached or holds no such record. *)
Definition getOne {A} (name : string) (coll : Store num -> list A)
  (idOf : A -> string) (id : string) : M num R A :=
  fun w =>
    (match findRecord name coll idOf id (store w) with
     | Some r => Val r
     | None => Throw
     end, w).

(** The page of records a list request returns, with [newestFirst] for
    [sort: '-created']. *)
Definition listRecords {A} (name : string) (coll : Store num -> list A)
  (page perPage : nat) (filter : A -> bool) (newestFirst : bool)
  (st : Store num) : option (list A) :=
  if collection_ok st name then
    let matching := List.filter filter (coll st) in
    let ordered := if newestFirst then rev matching else matching in
    Some (take perPage (drop ((page - 1) * perPage) ordered))
  else None.

(** [pbclient.collection(name).getList(page, perPage, {filter, sort})]. *)
Definition getList {A} (name : string) (coll : Store num -> list A)
  (page perPage : nat) (filter : A -> bool) (newestFirst : bool)
  : M num R (list A) :=
  fun w =>
    (match listRecords name coll page perPage filter newestFirst (store w) with
     | Some items => Val items
     | None => Throw
     end, w).

Definition applySessionPatch (p : SessionPatch num) (s : Session num)
  : Session num :=
  {| ses_id := ses_id s;
     ses_device := ses_device s;
     ses_in_time := ses_in_time s;
     ses_out_time :=
       match p_out_time p with Some t => Some t | None => ses_out_time s end;
     ses_duration :=
       match p_duration p with
       | Some (Some d) => d
       | Some None => ofZ 0
       | None => ses_duration s
       end;
     ses_status := default (ses_status s) (p_status p);
     ses_session_total := default (ses_session_total s) (p_session_total p);
     ses_total_amount := default (ses_total_amount s) (p_total_amount p);
     ses_amount_paid := default (ses_amount_paid s) (p_amount_paid p);
     ses_discount_amount :=
       default (ses_discount_amount s) (p_discount_amount p);
     ses_discount_rate := default (ses_discount_rate s) (p_discount_rate p) |}.

Definition applyDevicePatch (p : DevicePatch) (d : Device) : Device :=
  {| dev_id := dev_id d;
     dev_group := dev_group d;
     dev_status := default (dev_status d) (dp_status p);
     dev_token := default (dev_token d) (dp_token p);
     dev_client_record := default (dev_client_record d) (dp_client_record p) |}.

Definition sent (q : Request num) (w : World num) : World num :=
  with_journal (journal w ++ [q]) w.

Definition findSession (st : Store num) (id : string) : option (Session num) :=
  findRecord "sessions" sessions ses_id id st.

Definition findDevice (st : Store num) (id : string) : option Device :=
  findRecord "devices" devices dev_id id st.

Definition findGroup (st : Store num) (id : string) : option (Group num) :=
  findRecord "groups" groups grp_id id st.

(** The store after a write: unchanged when the request is rejected. *)
Definition patchSessions (id : string) (p : SessionPatch num) (st : Store num)
  : Store num :=
  if collection_ok st "sessions" then
    with_sessions
      (map (fun r => if String.eqb (ses_id r) id then applySessionPatch p r else r)
         (sessions st)) st
  else st.

Definition appendLog (e : SessionLog num) (st : Store num) : Store num :=
  if collection_ok st "session_logs" then
    with_session_logs (session_logs st ++ [e]) st
  else st.

Definition patchDevices (id : string) (p : DevicePatch) (st : Store num)
  : Store num :=
  if collection_ok st "devices" then
    with_devices
      (map (fun r => if String.eqb (dev_id r) id then applyDevicePatch p r else r)
         (devices st)) st
  else st.

(** [pbclient.collection('sessions').update(id, patch)]: rejected when
    the collection cannot be reached or holds no such record. *)
Definition updateSessionRecord (id : string) (p : SessionPatch num)
  : M num R (Session num) :=
  fun w =>
    (match findSession (store w) id with
     | Some s => Val (applySessionPatch p s)
     | None => Throw
     end,
     with_store (patchSessions id p (store w)) (sent (UpdateSession id p) w)).

(** [pbclient.collection('session_logs').create(entry)]. *)
Definition createSessionLog (e : SessionLog num) : M num R unit :=
  fun w =>
    (if collection_ok (store w) "session_logs" then Val tt else Throw,
     with_store (appendLog e (store w)) (sent (CreateSessionLog e) w)).

(** [pbclient.collection('devices').update(id, patch)]. *)
Definition updateDeviceRecord (id : string) (p : DevicePatch)
  : M num R Device :=
  fun w =>
    (match findDevice (store w) id with
     | Some d => Val (applyDevicePatch p d)
     | None => Throw
     end,
     with_store (patchDevices id p (store w)) (sent (UpdateDevice id p) w)).

(** The useCollection hook (src/hooks/useCollection.js). Its own
    loading and error state is not read by the code embedded here. *)

(** [update(id, recordData)]: a failure is logged and turned into null. *)
Definition update (id : string) (p : SessionPatch num)
  : M num R (option (Session num)) :=
  tryCatch (let* record := updateSessionRecord id p in ret (Some record))
           (ret None).

(** The options object of the hook's [getList(options = {})]. *)
Record ListOptions (A : Type) : Type := {
  opt_page : option nat;
  opt_perPage : option nat;
  opt_newestFirst : option bool;
  opt_filter : option (A -> bool)
}.
Arguments opt_page {A} _.
Arguments opt_perPage {A} _.
Arguments opt_newestFirst {A} _.
Arguments opt_filter {A} _.

(** [getList(options)]: each missing property takes its default
    (page 1, 50 per page, sort '-created', no filter); a failure is
    logged and turned into the empty list. *)
Definition hookGetList {A} (name : string) (coll : Store num -> list A)
  (options : ListOptions A) : M num R (list A) :=
  let page := default 1%nat (opt_page options) in
  let perPage := default 50%nat (opt_perPage options) in
  let sort := default true (opt_newestFirst options) in
  let filter := default (fun _ => true) (opt_filter options) in
  tryCatch (getList name coll page perPage filter sort) (ret []).

End PocketBase.

(** ** SessionManager: the pricing resolver *)

Record CostDetails (num : Type) : Type := {
  baseCost : num;
  finalCost : num;
  discountRate : num;
  discountAmount : num;
  happyHourApplied : bool
}.
Arguments baseCost {num} _.
Arguments finalCost {num} _.
Arguments discountRate {num} _.
Arguments discountAmount {num} _.
Arguments happyHourApplied {num} _.

(** What [fetchDeviceGroupAndCalculateCost] returns: the number 0 when
    it is given no device id, the object of cost details otherwise. *)
Inductive CostReturn (num : Type) : Type :=
| CostNumber0
| Cost (c : CostDetails num).
Arguments CostNumber0 {num}.
Arguments Cost {num} _.

Section SessionManager.
Context {num : Type} {N : JsNum num}.
Variable cal : Calendar.

(** The React setters of SessionManager. *)
Definition setSM {R} (f : SMState num -> SMState num) : M num R unit :=
  modify (fun w => with_sm (f (sm w)) w).
Definition setSessionId {R} x : M num R unit := setSM (with_sessionId x).
Definition setInTime {R} x : M num R unit := setSM (with_inTime x).
Definition setOutTime {R} x : M num R unit := setSM (with_outTime x).
Definition setRemainingTime {R} x : M num R unit := setSM (with_remainingTime x).
Definition setIsSessionActive {R} x : M num R unit := setSM (with_isSessionActive x).
Definition setLoading {R} x : M num R unit := setSM (with_loading x).
Definition setError {R} x : M num R unit := setSM (with_error x).
Definition setDeviceInfo {R} x : M num R unit := setSM (with_deviceInfo x).
Definition setGroupInfo {R} x : M num R unit := setSM (with_groupInfo x).
Definition setSessionCost {R} x : M num R unit := setSM (with_sessionCost x).
Definition setNotificationShown {R} x : M num R unit := setSM (with_notificationShown x).

Definition zeroCost : CostDetails num :=
  {| baseCost := ofZ 0; finalCost := ofZ 0; discountRate := ofZ 0;
     discountAmount := ofZ 0; happyHourApplied := false |}.

(** [isNaN(validDuration) || validDuration <= 0] replaces the duration
    by 1; [None] is a NaN that comes from an invalid date. *)
Definition validDuration (durationHours : option num) : num :=
  match durationHours with
  | Some d => if isNaN d || nleb d (ofZ 0) then ofZ 1 else d
  | None => ofZ 1
  end.

(** The cost variables as they are initialised before the happy hours
    are looked at. *)
Definition noDiscount (baseCost : num) : CostDetails num :=
  {| baseCost := baseCost; finalCost := baseCost; discountRate := ofZ 0;
     discountAmount := ofZ 0; happyHourApplied := false |}.

(** Whether the current time lies in the range of a happy hour; the
    texts are compared as JavaScript compares strings. *)
Definition inRange (currentTime : string) (happyHour : HappyHour num) : bool :=
  String.leb (hh_start_time happyHour) currentTime
  && String.leb currentTime (hh_end_time happyHour).

(** The discount of the happy hour that applies: a percentage, else a
    fixed hourly rate, else nothing. *)
Definition applyDiscount (baseCost validDuration : num)
  (happyHour : HappyHour num) : CostDetails num :=
  if truthy (hh_discount_percentage happyHour)
     && gt0 (hh_discount_percentage happyHour) then
    let discountRate := hh_discount_percentage happyHour in
    let discountAmount := nmul baseCost (ndiv discountRate (ofZ 100)) in
    {| baseCost := baseCost;
       finalCost := nsub baseCost discountAmount;
       discountRate := discountRate;
       discountAmount := discountAmount;
       happyHourApplied := true |}
  else if truthy (hh_fixed_rate happyHour) && gt0 (hh_fixed_rate happyHour) then
    let fixedRate := hh_fixed_rate happyHour in
    let finalCost := nmul fixedRate validDuration in
    let discountAmount := nsub baseCost finalCost in
    {| baseCost := baseCost;
       finalCost := finalCost;
       discountRate :=
         if gt0 baseCost then nmul (ndiv discountAmount baseCost) (ofZ 100)
         else ofZ 0;
       discountAmount := discountAmount;
       happyHourApplied := true |}
  else noDiscount baseCost.

(** The loop over the happy hours of the day: the first one whose range
    holds the current time decides, and the loop is left. *)
Fixpoint applyHappyHours (currentTime : string) (baseCost validDuration : num)
  (items : list (HappyHour num)) : CostDetails num :=
  match items with
  | [] => noDiscount baseCost
  | happyHour :: rest =>
      if inRange currentTime happyHour then
        applyDiscount baseCost validDuration happyHour
      else applyHappyHours currentTime baseCost validDuration rest
  end.

(** The filter of the happy-hours query:
    [group = "<id>" && status = "Active" && days = "<currentDay>"]. *)
Definition happyHourFilter (groupId currentDay : string) (h : HappyHour num)
  : bool :=
  String.eqb (hh_group h) groupId && String.eqb (hh_status h) "Active"
  && String.eqb (hh_days h) currentDay.

Definition fetchDeviceGroupAndCalculateCost {R} (deviceId : string)
  (durationHours : option num) : M num R (CostReturn num) :=
  call
    (when (negb (nonEmpty deviceId)) (return_ CostNumber0) ;;;
     tryCatch
       (let* device := getOne "devices" devices dev_id deviceId in
        setDeviceInfo (Some device) ;;;
        if nonEmpty (dev_group device) then
          let* group := getOne "groups" groups grp_id (dev_group device) in
          setGroupInfo (Some group) ;;;
          if truthy (grp_price group) then
            let hourlyRate := grp_price group in
            let validDuration := validDuration durationHours in
            let baseCost := nmul hourlyRate validDuration in
            let* details :=
              tryCatch
                (let* t := get now in
                 let currentDay := weekdayLong cal t in
                 let currentTime := timeHHMM cal t in
                 let* happyHours :=
                   getList "happy_hours" happy_hours 1 50
                     (happyHourFilter (grp_id group) currentDay) false in
                 ret (applyHappyHours currentTime baseCost validDuration happyHours))
                (ret (noDiscount baseCost))
            in
            setSessionCost (finalCost details) ;;;
            return_ (Cost details)
          else setSessionCost (ofZ 0)
        else setSessionCost (ofZ 0))
       (setSessionCost (ofZ 0)) ;;;
     return_ (Cost zeroCost))
    (Cost zeroCost).

(** [costDetails.finalCost || 0] and its siblings; a property of the
    number 0 is undefined. *)
Definition finalCostOr0 (c : CostReturn num) : num :=
  match c with Cost d => orZero (finalCost d) | CostNumber0 => ofZ 0 end.
Definition discountAmountOr0 (c : CostReturn num) : num :=
  match c with Cost d => orZero (discountAmount d) | CostNumber0 => ofZ 0 end.
Definition discountRateOr0 (c : CostReturn num) : num :=
  match c with Cost d => orZero (discountRate d) | CostNumber0 => ofZ 0 end.

(** *** Notifications, timers and local storage *)

Definition emit {R} (e : Effect) : M num R unit :=
  modify (fun w => with_effects (effects w ++ [e]) w).

(** [showNotification(message, isSystemNotification)]: the banner (and
    the OS notification) is one observable effect. *)
Definition showNotification {R} (message : string) (isSystemNotification : bool)
  : M num R unit :=
  emit (Notification message isSystemNotification).

Definition setTimeout {R} (callback : Callback) (delay : Z) : M num R unit :=
  modify (fun w => with_timers (timers w ++ [(delay, callback)]) w).

Definition removeItem {R} (key : string) : M num R unit :=
  modify (fun w => with_localStorage (delete key (localStorage w)) w).

(** [pbclient.authStore.clear()], with the onChange handler of
    lib/pocketbase/pb.js that drops the persisted copy. *)
Definition authStoreClear {R} : M num R unit :=
  modify (fun w =>
    with_localStorage (delete "pocketbase_auth" (localStorage w))
      (with_authStore {| auth_token := ""; auth_record := None |} w)).

(** [JSON.parse(item).deviceId], when the item is a non-empty string;
    the outer [option] is the truthiness of the field. *)
Definition parsedDeviceId {R} (item : option Json) : M num R (option string) :=
  match item with
  | None | Some (JText "") => ret None
  | Some (JText _) => throw
  | Some (JObject fields) =>
      match List.find (fun kv => String.eqb (fst kv) "deviceId") fields with
      | Some (_, v) => ret (if nonEmpty v then Some v else None)
      | None => ret None
      end
  end.

(** The device id of [user_login_info], else of [device_info]. *)
Definition storedDeviceId {R} : M num R (option string) :=
  let* savedInfo := get (fun w => localStorage w !! "user_login_info") in
  let* deviceId := parsedDeviceId savedInfo in
  match deviceId with
  | Some id => ret (Some id)
  | None =>
      let* savedDeviceInfo := get (fun w => localStorage w !! "device_info") in
      parsedDeviceId savedDeviceInfo
  end.

Definition showZ (z : Z) : string :=
  NilZero.string_of_int (Z.to_int z).

(** The function given to [setTimeout(..., 5000)] when the session has
    ended. *)
Definition autoLogout : M num unit unit :=
  tryCatch
    (removeItem "user_login_info" ;;;
     removeItem "client_app_login" ;;;
     authStoreClear ;;;
     showNotification "You have been logged out due to session expiration." true ;;;
     tryCatch
       (let* hasNeutralino := get neutralino in
        when hasNeutralino (emit SetFullScreen) ;;;
        emit (KioskEvent "session-ended" true) ;;;
        setTimeout ReloadPage 1000)
       (ret tt))
    (ret tt).

Definition runCallback (c : Callback) : M num unit unit :=
  match c with
  | AutoLogout => autoLogout
  | ReloadPage => tryCatch (emit Reload) (ret tt)
  end.

(** *** The one-second tick *)

Definition isYesterday (t endDate : Z) : bool :=
  (getDate cal endDate <? getDate cal t)
  || (getMonth cal endDate <? getMonth cal t)
  || (getFullYear cal endDate <? getFullYear cal t).

(** [(b - a) / (1000 * 60 * 60)]; NaN when a date is invalid. *)
Definition hoursBetween (a b : Date) : option num :=
  match getTime a, getTime b with
  | Some ta, Some tb => Some (ndiv (ofZ (tb - ta)) (ofZ msPerHour))
  | _, _ => None
  end.

Definition truthyId (id : option string) : bool :=
  match id with Some s => nonEmpty s | None => false end.

Definition closedPatch (cost discountAmount discountRate : num)
  : SessionPatch num :=
  {| p_status := Some "Closed"; p_out_time := None; p_duration := None;
     p_session_total := Some cost; p_total_amount := Some cost;
     p_amount_paid := Some cost; p_discount_amount := Some discountAmount;
     p_discount_rate := Some discountRate |}.

Definition releasePatch : DevicePatch :=
  {| dp_status := Some "Available"; dp_token := Some "";
     dp_client_record := Some "" |}.

Definition updateRemainingTime (snap : SMState num) : M num unit unit :=
  call
    (match outTime snap with
     | None => setRemainingTime (0, 0, 0) ;;; return_ tt
     | Some endD =>
     tryCatch
       (let* t := get now in
        match getTime endD with
        | None => setRemainingTime (0, 0, 0) ;;; return_ tt
        | Some endT =>
        let diff := endT - t in
        if diff <=? 0 then
          setRemainingTime (0, 0, 0) ;;;
          let isYesterday := isYesterday t endT in
          let tracked := isSessionActive snap && truthyId (sessionId snap) in
          let sid := default "" (sessionId snap) in
          when (tracked && negb (notificationShown snap))
            (showNotification
               (if isYesterday
                then "Your session has ended. The system will log you out in 5 seconds."
                else "Your session time has ended. The system will log you out in 5 seconds.")
               true ;;;
             setNotificationShown true ;;;
             setTimeout AutoLogout 5000) ;;;
          when (tracked && isYesterday)
            (tryCatch
               (let hasDevice :=
                  match deviceInfo snap with
                  | Some d => nonEmpty (dev_id d)
                  | None => false
                  end in
                let deviceInfoId :=
                  match deviceInfo snap with Some d => dev_id d | None => "" end in
                let* deviceId :=
                  if hasDevice then ret (Some deviceInfoId)
                  else tryCatch storedDeviceId (ret None) in
                let* costs :=
                  if hasDevice then
                    tryCatch
                      (let inTimeDate := newDate (inTime snap) in
                       let outTimeDate := newDate (outTime snap) in
                       let durationHours := hoursBetween inTimeDate outTimeDate in
                       let* costDetails :=
                         fetchDeviceGroupAndCalculateCost deviceInfoId durationHours in
                       ret (finalCostOr0 costDetails,
                            discountAmountOr0 costDetails,
                            discountRateOr0 costDetails))
                      (ret (orZero (sessionCost snap), ofZ 0, ofZ 0))
                  else ret (orZero (sessionCost snap), ofZ 0, ofZ 0) in
                let '(cost, discountAmount, discountRate) := costs in
                update sid (closedPatch cost discountAmount discountRate) ;;;
                createSessionLog
                  {| log_session_id := sid; log_type := "Closed";
                     log_session_amount := cost |} ;;;
                match deviceId with
                | Some id =>
                    tryCatch (updateDeviceRecord id releasePatch ;;; ret tt)
                             (ret tt)
                | None => ret tt
                end ;;;
                setIsSessionActive false ;;;
                when (negb (notificationShown snap))
                  (showNotification
                     "Your session has ended. The system will log you out in 5 seconds."
                     true ;;;
                   setNotificationShown true ;;;
                   setTimeout AutoLogout 5000))
               (when (negb (notificationShown snap))
                  (showNotification
                     "Your session has ended, but there was an error updating the session status."
                     true ;;;
                   setNotificationShown true))) ;;;
          return_ tt
        else
          let hours := diff / msPerHour in
          let diff1 := diff - hours * msPerHour in
          let minutes := diff1 / (1000 * 60) in
          let diff2 := diff1 - minutes * (1000 * 60) in
          let seconds := diff2 / 1000 in
          setRemainingTime (hours, minutes, seconds) ;;;
          let totalMinutesLeft := hours * 60 + minutes in
          when (isSessionActive snap && truthyId (sessionId snap))
            (when ((totalMinutesLeft <=? 5) && (0 <? totalMinutesLeft)
                   && negb (notificationShown snap))
               (showNotification
                  ("Your session will end in " ++ showZ totalMinutesLeft
                   ++ " minutes. Please save your work.") true ;;;
                setNotificationShown true) ;;;
             when ((5 <? totalMinutesLeft) && notificationShown snap)
               (setNotificationShown false))
        end)
       (setRemainingTime (0, 0, 0))
     end)
    tt.

(** One firing of the interval: the callback of the current render. *)
Definition tick : M num unit unit :=
  let* snap := get sm in updateRemainingTime snap.

(** *** Extension *)

Definition dateAdd (d : Date) (ms : Z) : Date :=
  match d with
  | Instant t => Instant (t + ms)
  | InvalidDate => InvalidDate
  end.

Definition extendedPatch (newOutTime : Z) (newDurationMinutes : option num)
  (newCost discountAmount discountRate : num) : SessionPatch num :=
  {| p_status := Some "Extended"; p_out_time := Some newOutTime;
     p_duration := Some newDurationMinutes;
     p_session_total := Some (orZero newCost);
     p_total_amount := Some (orZero newCost);
     p_amount_paid := None;
     p_discount_amount := Some (orZero discountAmount);
     p_discount_rate := Some (orZero discountRate) |}.

Definition extendSession (snap : SMState num) : M num unit unit :=
  call
    (when (negb (truthyId (sessionId snap))) (return_ tt) ;;;
     let sid := default "" (sessionId snap) in
     finally
       (tryCatch
          (setLoading true ;;;
           let currentOutTime := newDate (outTime snap) in
           let newOutTime := dateAdd currentOutTime (60 * 60 * 1000) in
           let inTimeDate := newDate (inTime snap) in
           let newDurationHours := hoursBetween inTimeDate newOutTime in
           let newDurationMinutes :=
             option_map (fun h => nmul h (ofZ 60)) newDurationHours in
           let hasDevice :=
             match deviceInfo snap with
             | Some d => nonEmpty (dev_id d)
             | None => false
             end in
           let deviceInfoId :=
             match deviceInfo snap with Some d => dev_id d | None => "" end in
           let* costs :=
             if hasDevice then
               tryCatch
                 (let* costDetails :=
                    fetchDeviceGroupAndCalculateCost deviceInfoId newDurationHours in
                  ret (finalCostOr0 costDetails,
                       discountAmountOr0 costDetails,
                       discountRateOr0 costDetails))
                 (ret (sessionCost snap, ofZ 0, ofZ 0))
             else ret (sessionCost snap, ofZ 0, ofZ 0) in
           let '(newCost, discountAmount, discountRate) := costs in
           (* newOutTime.toISOString() throws on an invalid date *)
           let* iso :=
             match getTime newOutTime with
             | Some t => ret t
             | None => throw
             end in
           update sid
             (extendedPatch iso newDurationMinutes newCost discountAmount
                discountRate) ;;;
           createSessionLog
             {| log_session_id := sid; log_type := "Extended";
                log_session_amount := ofZ 0 |} ;;;
           setOutTime (Some newOutTime) ;;;
           setIsSessionActive true)
          (setError (Some "Failed to extend session")))
       (fun w => with_sm (with_loading false (sm w)) w))
    tt.

(** *** Discovery of an existing session *)

Definition statusPatch (status : string) : SessionPatch num :=
  {| p_status := Some status; p_out_time := None; p_duration := None;
     p_session_total := None; p_total_amount := None; p_amount_paid := None;
     p_discount_amount := None; p_discount_rate := None |}.

(** The filter [device = "<id>" && (status = "Booked" || status =
    "Active" || status = "Occupied" || status = "Extended")]. *)
Definition openSessionFilter (deviceId : string) (s : Session num) : bool :=
  String.eqb (ses_device s) deviceId
  && (String.eqb (ses_status s) "Booked" || String.eqb (ses_status s) "Active"
      || String.eqb (ses_status s) "Occupied"
      || String.eqb (ses_status s) "Extended").

(** The hook's [getList] takes one options object; SessionManager calls
    it as [getList(1, 1, '-created', filter)], so the options parameter
    is the number 1, none of whose properties is defined, and the text of
    the filter is not received. *)
Definition positionalOptions : ListOptions (Session num) :=
  {| opt_page := None; opt_perPage := None; opt_newestFirst := None;
     opt_filter := None |}.

(** [session.duration / 60], else the span of the session, else 1. *)
Definition recordedDurationHours (session : Session num) : option num :=
  if truthy (ses_duration session) then
    Some (ndiv (ses_duration session) (ofZ 60))
  else
    match ses_in_time session, ses_out_time session with
    | Some i, Some o => hoursBetween (Instant i) (Instant o)
    | _, _ => Some (ofZ 1)
    end.

Definition checkExistingSession
  : M num unit (option (Session num)) :=
  call
    (tryCatch
       (let* deviceId := tryCatch storedDeviceId (ret None) in
        match deviceId with
        | None => return_ None
        | Some deviceId =>
        let* allSessions := hookGetList "sessions" sessions positionalOptions in
        match allSessions with
        | session :: _ =>
            setSessionId (Some (ses_id session)) ;;;
            match ses_in_time session with
            | Some parsedInTime => setInTime (Some (Instant parsedInTime))
            | None => ret tt
            end ;;;
            match ses_out_time session with
            | Some parsedOutTime => setOutTime (Some (Instant parsedOutTime))
            | None => ret tt
            end ;;;
            let status := ses_status session in
            (if String.eqb status "Active" || String.eqb status "Booked"
                || String.eqb status "Occupied" || String.eqb status "Extended"
             then
               when (String.eqb status "Booked" || String.eqb status "Occupied")
                 (tryCatch (update (ses_id session) (statusPatch "Active") ;;; ret tt)
                           (ret tt)) ;;;
               setIsSessionActive true ;;;
               match ses_out_time session with
               | Some parsedOutTime =>
                   let* t := get now in
                   if parsedOutTime <? t then
                     setIsSessionActive false ;;;
                     showNotification "Your session has ended." false
                   else setIsSessionActive true
               | None => ret tt
               end
             else if String.eqb status "Closed" then
               setIsSessionActive false ;;;
               showNotification "Your session has ended." false
             else setIsSessionActive false) ;;;
            when (nonEmpty (ses_device session))
              (tryCatch
                 (let durationHours := recordedDurationHours session in
                  fetchDeviceGroupAndCalculateCost (ses_device session)
                    durationHours ;;;
                  when (truthy (ses_session_total session)
                        && gt0 (ses_session_total session))
                    (setSessionCost (ses_session_total session)))
                 (ret tt)) ;;;
            return_ (Some session)
        | [] => ret tt
        end ;;;
        return_ None
        end)
       (setError (Some "Failed to check for existing session") ;;;
        return_ None))
    None.

End SessionManager.

(** ** SessionStateManager: the 30-second check *)

Section SessionStateManager.
Context {num : Type} {N : JsNum num}.

Definition setSSM {R} (f : SSMState num -> SSMState num) : M num R unit :=
  modify (fun w => with_ssm (f (ssm w)) w).
Definition setIsChecking {R} x : M num R unit := setSSM (with_isChecking x).
Definition setSessionActive {R} x : M num R unit := setSSM (with_sessionActive x).
Definition setSessionData {R} x : M num R unit := setSSM (with_sessionData x).
Definition setIsClientApp {R} x : M num R unit := setSSM (with_isClientApp x).

(** The effect run on mount: a non-empty [client_app_login] item marks a
    client-app login. *)
Definition detectClientAppLogin : M num unit unit :=
  let* clientAppLogin := get (fun w => localStorage w !! "client_app_login") in
  match clientAppLogin with
  | None | Some (JText "") => ret tt
  | Some _ => setIsClientApp true
  end.

(** The [onSessionStateChange] property, when the parent passes one. *)
Definition onSessionStateChange (isActive : bool) (session : option (Session num))
  : M num (option bool) unit :=
  emit (SessionStateChange isActive (option_map ses_id session)).

(** [checkForActiveSessions] of the render whose props and state are
    [deviceId] and [snap]; the result is [None] for undefined. *)
Definition checkForActiveSessions (deviceId : option string)
  (snap : SSMState num) : M num unit (option bool) :=
  call
    (when (negb (truthyId deviceId))
       (setIsChecking false ;;; return_ None) ;;;
     let deviceId := default "" deviceId in
     finally
       (tryCatch
          (let* sessions :=
             getList "sessions" sessions 1 1 (openSessionFilter deviceId) true in
           match sessions with
           | session :: _ =>
               match ses_out_time session with
               | Some outTime =>
                   let* t := get now in
                   if t <? outTime then
                     setSessionActive true ;;;
                     setSessionData (Some session) ;;;
                     when (negb (String.eqb (ses_status session) "Active"))
                       (tryCatch
                          (updateSessionRecord (ses_id session)
                             (statusPatch "Active") ;;; ret tt)
                          (ret tt)) ;;;
                     onSessionStateChange true (Some session) ;;;
                     return_ (Some true)
                   else
                     when (isClientApp snap)
                       (when (negb (String.eqb (ses_status session) "Closed"))
                          (tryCatch
                             (updateSessionRecord (ses_id session)
                                (statusPatch "Closed") ;;;
                              authStoreClear ;;;
                              removeItem "user_login_info" ;;;
                              removeItem "client_app_login" ;;;
                              emit (KioskEvent "client-session-expired" true) ;;;
                              setTimeout ReloadPage 1000)
                             (ret tt))) ;;;
                     setSessionActive false ;;;
                     setSessionData None ;;;
                     onSessionStateChange false None ;;;
                     return_ (Some false)
               | None =>
                   setSessionActive true ;;;
                   setSessionData (Some session) ;;;
                   onSessionStateChange true (Some session) ;;;
                   return_ (Some true)
               end
           | [] =>
               setSessionActive false ;;;
               setSessionData None ;;;
               onSessionStateChange false None ;;;
               return_ (Some false)
           end)
          (setSessionActive false ;;;
           setSessionData None ;;;
           onSessionStateChange false None ;;;
           return_ (Some false)))
       (fun w => with_ssm (with_isChecking false (ssm w)) w))
    None.

(** The state of the first render: the arguments of [useState]. *)
Definition initialSSM : SSMState num :=
  {| isChecking := true; sessionActive := false; sessionData := None;
     isClientApp := false |}.

(** A firing, at the instant [t], of the check of the render whose state
    is [snap]. *)
Definition pollAt (deviceId : string) (snap : SSMState num) (w : World num)
  (t : Z) : World num :=
  snd (checkForActiveSessions (Some deviceId) snap (with_now t w)).

(** The effects that run after the first render, in the order of their
    declaration. The first one stores the client-app flag for the
    renders to come. The second one, whose dependencies are [deviceId]
    alone, calls [checkForActiveSessions] of the first render and hands
    that same function to [setInterval(..., 30000)]: as long as the
    device id stays the same it is not run again, so the call and every
    firing read the state of the first render. *)
Definition mount (deviceId : option string) : M num unit unit :=
  modify (with_ssm initialSSM) ;;;
  detectClientAppLogin ;;;
  when (truthyId deviceId)
    (setIsChecking true ;;;
     checkForActiveSessions deviceId initialSSM ;;;
     ret tt).

(** The component from its mount through the firings of its interval at
    the instants [ts]. *)
Definition mounted (deviceId : string) (w : World num) (ts : list Z)
  : World num :=
  foldl (pollAt deviceId initialSSM) (snd (mount (Some deviceId) w)) ts.

End SessionStateManager.

(** ** DeviceTokenMonitor: auto-login from the device token *)

(** The claims of a token payload that the code reads; the empty string
    and 0 stand for an absent claim. *)
Record Claims : Type := {
  claim_id : string;
  claim_sub : string;
  claim_user_id : string;
  claim_userId : string;
  claim_exp : Z
}.

(** [token.split('.')]. *)
Fixpoint splitDots (s : string) : list string :=
  match s with
  | EmptyString => [""]
  | String c rest =>
      if Ascii.eqb c "."%char then "" :: splitDots rest
      else
        match splitDots rest with
        | part :: parts => String c part :: parts
        | [] => [String c ""]
        end
  end.

(** [email.split('@')[0]]. *)
Fixpoint beforeAt (s : string) : string :=
  match s with
  | EmptyString => ""
  | String c rest => if Ascii.eqb c "@"%char then "" else String c (beforeAt rest)
  end.

(** [tokenData.id || tokenData.sub || tokenData.user_id || tokenData.userId]. *)
Definition userIdClaim (tokenData : Claims) : string :=
  if nonEmpty (claim_id tokenData) then claim_id tokenData
  else if nonEmpty (claim_sub tokenData) then claim_sub tokenData
  else if nonEmpty (claim_user_id tokenData) then claim_user_id tokenData
  else claim_userId tokenData.

(** [s.trim() === '']. *)
Definition isSpace (c : ascii) : bool :=
  let n := N_of_ascii c in ((9 <=? n) && (n <=? 13))%N || (n =? 32)%N.
Definition isBlank (s : string) : bool :=
  forallb isSpace (list_ascii_of_string s).

Section DeviceTokenMonitor.
Context {num : Type} {N : JsNum num}.

(** The library functions the monitor relies on:
    [JSON.parse(atob(segment.replace(/-/g, '+').replace(/_/g, '/')))]
    ([None] when it throws), whether [JSON.parse] accepts a text, and
    [pbclient.authStore.isValid] for the saved token at a given time. *)
Variable decodePayload : string -> option Claims.
Variable parsesAsJson : string -> bool.
Variable sdkIsValid : Z -> string -> bool.

Definition setLastCheckedToken {R} (x : string) : M num R unit :=
  modify (with_lastCheckedToken x).

Definition setItem {R} (key : string) (v : Json) : M num R unit :=
  modify (fun w => with_localStorage (<[key := v]> (localStorage w)) w).

(** [pbclient.authStore.save(token, model)], with the onChange handler
    of lib/pocketbase/pb.js that persists or drops the copy. *)
Definition authStoreSave {R} (token : string) (model : option string)
  : M num R unit :=
  modify (with_authStore {| auth_token := token; auth_record := model |}) ;;;
  match model with
  | Some m =>
      if nonEmpty token then
        setItem "pocketbase_auth" (JObject [("token", token); ("model", m)])
      else removeItem "pocketbase_auth"
  | None => removeItem "pocketbase_auth"
  end.

Definition decode {R} (segment : string) : M num R Claims :=
  match decodePayload segment with
  | Some tokenData => ret tokenData
  | None => throw
  end.

(** [pbclient.validateToken(token)] of lib/pocketbase/pb.js. *)
Definition validateToken {R} (token : string) : M num R bool :=
  call
    (when (negb (nonEmpty token)) (return_ false) ;;;
     tryCatch
       (match splitDots token with
        | [_; base64Url; _] =>
            let* payload := decode base64Url in
            let* t := get now in
            let nowSeconds := t / 1000 in
            when (negb (claim_exp payload =? 0)
                  && (claim_exp payload <? nowSeconds))
              (return_ false) ;;;
            return_ true
        | _ => return_ false
        end)
       (return_ false))
    false.

Definition displayName (authUser : User) : string :=
  if nonEmpty (usr_username authUser) then usr_username authUser
  else if nonEmpty (usr_email authUser) then beforeAt (usr_email authUser)
  else "User".

Definition onAutoLogin {R} (authUser : User) (deviceId : string)
  : M num R unit :=
  emit (AutoLogin (usr_id authUser) (displayName authUser) deviceId).

Definition checkDeviceTokenAndLogin (deviceId : option string)
  (lastChecked : string) : M num unit bool :=
  call
    (when (negb (truthyId deviceId)) (return_ false) ;;;
     let deviceId := default "" deviceId in
     tryCatch
       (let* device := getOne "devices" devices dev_id deviceId in
        if nonEmpty (dev_token device)
           && negb (String.eqb (dev_token device) lastChecked) then
          setLastCheckedToken (dev_token device) ;;;
          let clientRecord :=
            if negb (isBlank (dev_client_record device))
               && parsesAsJson (dev_client_record device)
            then Some (dev_client_record device) else None in
          tryCatch
            (let* isTokenValid := validateToken (dev_token device) in
             when (negb isTokenValid) (return_ false) ;;;
             authStoreSave (dev_token device) clientRecord ;;;
             let* saved := get (fun w => auth_token (authStore w)) in
             let* t := get now in
             if sdkIsValid t saved then
               when (negb (nonEmpty saved)) (return_ false) ;;;
               match splitDots saved with
               | [_; base64Url; _] =>
                   tryCatch
                     (let* tokenData := decode base64Url in
                      let userId := userIdClaim tokenData in
                      when (negb (nonEmpty userId)) (return_ false) ;;;
                      let* authUser :=
                        tryCatch
                          (getOne "clients" clients usr_id userId)
                          (tryCatch
                             (getOne "users" users usr_id userId)
                             (return_ false)) in
                      onAutoLogin authUser deviceId ;;;
                      return_ true)
                     (ret tt)
               | _ => return_ false
               end
             else
               tryCatch
                 (when (negb (nonEmpty (dev_token device))) (return_ false) ;;;
                  match splitDots (dev_token device) with
                  | [_; base64Url; _] =>
                      tryCatch
                        (let* tokenData := decode base64Url in
                         let userId := userIdClaim tokenData in
                         when (negb (nonEmpty userId)) (return_ false) ;;;
                         tryCatch
                           (let* authUser :=
                              getOne "clients" clients usr_id userId in
                            tryCatch
                              (authStoreSave (dev_token device)
                                 (Some (usr_id authUser)))
                              (ret tt) ;;;
                            onAutoLogin authUser deviceId ;;;
                            return_ true)
                           (ret tt))
                        (ret tt)
                  | _ => return_ false
                  end)
                 (ret tt))
            authStoreClear
        else
          when (negb (nonEmpty (dev_token device)) && nonEmpty lastChecked)
            (setLastCheckedToken ""))
       (ret tt) ;;;
     return_ false)
    false.

End DeviceTokenMonitor.

(** ** App: the kiosk lock *)

Record KeyEvent : Type := {
  ctrlKey : bool;
  altKey : bool;
  metaKey : bool;
  key : string
}.

(** The keydown filter installed by [enableKioskMode]: whether the
    event is cancelled. *)
Definition keyFilter (e : KeyEvent) : bool :=
  ctrlKey e || altKey e || metaKey e || String.eqb (key e) "Tab".

Definition keyBlocked (d : Desktop) (e : KeyEvent) : bool :=
  keyboardHandler d && keyFilter e.

Definition kioskWindow (d : Desktop) : WindowConf :=
  {| win_width := screen_width d; win_height := screen_height d;
     win_resizable := false; win_borderless := true;
     win_alwaysOnTop := true; win_maximize := true |}.

Definition normalWindow : WindowConf :=
  {| win_width := 600; win_height := 800;
     win_resizable := false; win_borderless := false;
     win_alwaysOnTop := false; win_maximize := false |}.

Section App.
Context {num : Type} {N : JsNum num}.

Definition setApp {R} (f : AppState num -> AppState num) : M num R unit :=
  modify (fun w => with_app (f (app w)) w).
Definition setIsKioskMode {R} x : M num R unit := setApp (with_isKioskMode x).
Definition setHasActiveSession {R} x : M num R unit := setApp (with_hasActiveSession x).
Definition setActiveSessionData {R} x : M num R unit := setApp (with_activeSessionData x).

(** A call of the Neutralino window API: rejected when the native side
    fails, and otherwise it changes the desktop. *)
Definition native {R} (f : Desktop -> Desktop) : M num R unit :=
  fun w =>
    if os_fails (desktop w) then (Throw, w)
    else (Val tt, with_desktop (f (desktop w)) w).

Definition nativeIsFullScreen {R} : M num R bool :=
  fun w =>
    if os_fails (desktop w) then (Throw, w)
    else (Val (fullScreen (desktop w)), w).

Definition enableKioskMode {R} : M num R unit :=
  call
    (tryCatch
       (native (fun d => with_window (kioskWindow d) d) ;;;
        native (with_fullScreen true) ;;;
        let* fullScreenStatus := nativeIsFullScreen in
        setIsKioskMode fullScreenStatus ;;;
        let* installed := get (fun w => keyboardHandler (desktop w)) in
        when (negb installed)
          (modify (fun w => with_desktop (with_keyboardHandler true (desktop w)) w)))
       (setIsKioskMode false))
    tt.

Definition disableKioskMode {R} : M num R unit :=
  call
    (tryCatch
       (let* isFullScreen := nativeIsFullScreen in
        when isFullScreen (native (with_fullScreen false)) ;;;
        native (with_window normalWindow) ;;;
        native (with_centered true) ;;;
        modify (fun w =>
          with_localStorage
            (<["window_size" :=
                JObject [("width", "600"); ("height", "800"); ("isLoggedIn", "true")]]>
               (localStorage w)) w) ;;;
        let* installed := get (fun w => keyboardHandler (desktop w)) in
        when installed
          (modify (fun w => with_desktop (with_keyboardHandler false (desktop w)) w)) ;;;
        setIsKioskMode false)
       (ret tt))
    tt.

(** [handleSessionStateChange] of the render whose state is [snap]. *)
Definition handleSessionStateChange (snap : AppState num) (isActive : bool)
  (sessionData : option (Session num)) : M num unit unit :=
  call
    (setHasActiveSession isActive ;;;
     setActiveSessionData sessionData ;;;
     if isActive && isLoggedIn snap then
       tryCatch disableKioskMode (ret tt)
     else if negb isActive then
       tryCatch enableKioskMode (ret tt)
     else ret tt)
    tt.

End App.

(** ** A concrete calendar

    The proleptic Gregorian calendar at a fixed offset from UTC, with
    the English weekday names and zero-padded 24-hour clock texts, to
    run the code on concrete instants. *)

Definition msPerDay : Z := 24 * msPerHour.

(** Year, month (1 to 12) and day of the month of a day number counted
    from 1970-01-01. *)
Definition civilFromDays (days : Z) : Z * Z * Z :=
  let z := days + 719468 in
  let era := z / 146097 in
  let doe := z - era * 146097 in
  let yoe := (doe - doe / 1460 + doe / 36524 - doe / 146096) / 365 in
  let doy := doe - (365 * yoe + yoe / 4 - yoe / 100) in
  let mp := (5 * doy + 2) / 153 in
  let d := doy - (153 * mp + 2) / 5 + 1 in
  let m := if mp <? 10 then mp + 3 else mp - 9 in
  let y := yoe + era * 400 + (if m <=? 2 then 1 else 0) in
  (y, m, d).

Definition weekdayNames : list string :=
  ["Sunday"; "Monday"; "Tuesday"; "Wednesday"; "Thursday"; "Friday"; "Saturday"].

Definition twoDigits (n : Z) : string :=
  if n <? 10 then "0" ++ showZ n else showZ n.

Definition fixedOffsetCalendar (offsetMinutes : Z) : Calendar :=
  let localMs t := t + offsetMinutes * 60000 in
  let days t := localMs t / msPerDay in
  let msOfDay t := localMs t mod msPerDay in
  {| getFullYear := fun t => fst (fst (civilFromDays (days t)));
     getMonth := fun t => snd (fst (civilFromDays (days t))) - 1;
     getDate := fun t => snd (civilFromDays (days t));
     weekdayLong := fun t =>
       nth (Z.to_nat ((days t + 4) mod 7)) weekdayNames "";
     timeHHMM := fun t =>
       twoDigits (msOfDay t / msPerHour) ++ ":"
       ++ twoDigits (msOfDay t mod msPerHour / 60000) |}.

Definition utc : Calendar := fixedOffsetCalendar 0.

(** The instant of a UTC calendar date and time of day, for writing
    down examples: days since 1970-01-01 by the inverse of
    [civilFromDays]. *)
Definition daysFromCivil (y m d : Z) : Z :=
  let y' := if m <=? 2 then y - 1 else y in
  let era := y' / 400 in
  let yoe := y' - era * 400 in
  let doy := (153 * (if 2 <? m then m - 3 else m + 9) + 2) / 5 + d - 1 in
  let doe := yoe * 365 + yoe / 4 - yoe / 100 + doy in
  era * 146097 + doe - 719468.

Definition utcInstant (y m d hh mm : Z) : Z :=
  daysFromCivil y m d * msPerDay + hh * msPerHour + mm * 60000.

(** ** Vocabulary of the properties *)

Section Vocabulary.
Context {num : Type} {N : JsNum num}.
Variable cal : Calendar.

(** The calendar day of an instant, and the order of calendar days. *)
Definition calendarDay (t : Z) : Z * Z * Z :=
  (getFullYear cal t, getMonth cal t, getDate cal t).

Definition earlierDay (a b : Z) : Prop :=
  getFullYear cal a < getFullYear cal b
  \/ (getFullYear cal a = getFullYear cal b
      /\ (getMonth cal a < getMonth cal b
          \/ (getMonth cal a = getMonth cal b /\ getDate cal a < getDate cal b))).

Definition sameDay (a b : Z) : Prop := calendarDay a = calendarDay b.

(** The rate group assigned to a device, as far as the store gives it. *)
Definition rateGroupOf (st : Store num) (deviceId : string)
  : option (Group num) :=
  match findDevice st deviceId with
  | Some device =>
      if nonEmpty (dev_group device) then findGroup st (dev_group device)
      else None
  | None => None
  end.

(** The happy hours the query returns for a group at an instant, and the
    first of them whose range holds the clock time. *)
Definition candidateWindows (st : Store num) (t : Z) (groupId : string)
  : option (list (HappyHour num)) :=
  listRecords "happy_hours" happy_hours 1 50
    (happyHourFilter groupId (weekdayLong cal t)) false st.

Definition matchedWindow (st : Store num) (t : Z) (groupId : string)
  : option (HappyHour num) :=
  match candidateWindows st t groupId with
  | Some items => List.find (inRange (timeHHMM cal t)) items
  | None => None
  end.

(** What the resolver returns, as a function of the store and the clock. *)
Definition priced (st : Store num) (t : Z) (deviceId : string)
  (durationHours : option num) : CostReturn num :=
  if nonEmpty deviceId then
    match rateGroupOf st deviceId with
    | Some group =>
        if truthy (grp_price group) then
          let duration := validDuration durationHours in
          let baseCost := nmul (grp_price group) duration in
          Cost (match candidateWindows st t (grp_id group) with
                | Some items =>
                    applyHappyHours (timeHHMM cal t) baseCost duration items
                | None => noDiscount baseCost
                end)
        else Cost zeroCost
    | None => Cost zeroCost
    end
  else CostNumber0.

(** The component state the resolver leaves behind. *)
Definition pricedState (st : Store num) (t : Z) (deviceId : string)
  (durationHours : option num) (s : SMState num) : SMState num :=
  if nonEmpty deviceId then
    match findDevice st deviceId with
    | Some device =>
        let s1 := with_deviceInfo (Some device) s in
        if nonEmpty (dev_group device) then
          match findGroup st (dev_group device) with
          | Some group =>
              let s2 := with_groupInfo (Some group) s1 in
              with_sessionCost
                (match priced st t deviceId durationHours with
                 | Cost c => finalCost c
                 | CostNumber0 => ofZ 0
                 end) s2
          | None => with_sessionCost (ofZ 0) s1
          end
        else with_sessionCost (ofZ 0) s1
    | None => with_sessionCost (ofZ 0) s
    end
  else s.

(** Requests that set a session's status to a given value. *)
Definition setsStatus (status : string) (q : Request num) : bool :=
  match q with
  | UpdateSession _ p =>
      match p_status p with
      | Some s => String.eqb s status
      | None => false
      end
  | _ => false
  end.

Definition isLogOfType (type : string) (q : Request num) : bool :=
  match q with
  | CreateSessionLog e => String.eqb (log_type e) type
  | _ => false
  end.

Definition isEndedNotification (e : Effect) : bool :=
  match e with
  | Notification m _ =>
      String.eqb m "Your session has ended. The system will log you out in 5 seconds."
      || String.eqb m "Your session time has ended. The system will log you out in 5 seconds."
  | _ => false
  end.

Definition isAutoLogin (e : Effect) : bool :=
  match e with
  | AutoLogin _ _ _ => true
  | _ => false
  end.

End Vocabulary.

(** ** Example data

    One terminal [d1] in rate group [g1] at 100 per hour, and a session
    [s1] on it. Monday 1 January 2024 is the day of the examples. *)

Section Examples.
Context {num : Type} {N : JsNum num}.

Definition d1 : Device :=
  {| dev_id := "d1"; dev_group := "g1"; dev_status := "Occupied";
     dev_token := ""; dev_client_record := "" |}.

Definition g1 : Group num := {| grp_id := "g1"; grp_price := ofZ 100 |}.

(** A happy hour of group [g1] on Monday from 09:00 to 18:00. *)
Definition mondayWindow (percentage fixedRate : Z) : HappyHour num :=
  {| hh_group := "g1"; hh_status := "Active"; hh_days := "Monday";
     hh_start_time := "09:00"; hh_end_time := "18:00";
     hh_discount_percentage := ofZ percentage;
     hh_fixed_rate := ofZ fixedRate |}.

Definition s1 (status : string) (inT outT : Z) : Session num :=
  {| ses_id := "s1"; ses_device := "d1";
     ses_in_time := Some inT; ses_out_time := Some outT;
     ses_duration := ofZ 60; ses_status := status;
     ses_session_total := ofZ 0; ses_total_amount := ofZ 0;
     ses_amount_paid := ofZ 0; ses_discount_amount := ofZ 0;
     ses_discount_rate := ofZ 0 |}.

Definition exampleStore (windows : list (HappyHour num))
  (open : list (Session num)) : Store num :=
  {| devices := [d1]; groups := [g1]; happy_hours := windows;
     sessions := open; session_logs := []; clients := []; users := [];
     failing := [] |}.

(** SessionManager before it has found a session. *)
Definition freshSM : SMState num :=
  {| sessionId := None; inTime := None; outTime := None;
     remainingTime := (0, 0, 0); isSessionActive := false; loading := false;
     error := None; deviceInfo := None; groupInfo := None;
     sessionCost := ofZ 0; notificationShown := false |}.

(** SessionManager tracking session [s1] from [inT] to [outT]. *)
Definition trackingSM (inT outT : Z) (notified : bool) : SMState num :=
  {| sessionId := Some "s1"; inTime := Some (Instant inT);
     outTime := Some (Instant outT); remainingTime := (0, 0, 0);
     isSessionActive := true; loading := false; error := None;
     deviceInfo := Some d1; groupInfo := Some g1;
     sessionCost := ofZ 100; notificationShown := notified |}.

Definition lockedDesktop : Desktop :=
  {| screen_width := 1920; screen_height := 1080;
     window :=
       {| win_width := 1920; win_height := 1080; win_resizable := false;
          win_borderless := true; win_alwaysOnTop := true;
          win_maximize := true |};
     fullScreen := true; centered := false; os_fails := false;
     keyboardHandler := true |}.

Definition loggedInStorage : gmap string Json :=
  {[ "user_login_info" := JObject [("isLoggedIn", "true"); ("deviceId", "d1")];
     "client_app_login" := JText "true" ]}.

Definition exampleWorld (t : Z) (st : Store num) (s : SMState num)
  : World num :=
  {| now := t; store := st; localStorage := loggedInStorage;
     authStore := {| auth_token := "session-token"; auth_record := Some "u1" |};
     neutralino := true; desktop := lockedDesktop;
     journal := []; effects := []; timers := [];
     sm := s;
     ssm := {| isChecking := true; sessionActive := false;
               sessionData := None; isClientApp := true |};
     lastCheckedToken := "";
     app := {| isLoggedIn := false; isKioskMode := true;
               hasActiveSession := false; activeSessionData := None |} |}.

End Examples.

(** Monday 1 January 2024, 10:30 UTC, inside the example happy hour. *)
Definition mondayMorning : Z := utcInstant 2024 1 1 10 30.

(** The examples of the specification: 100 per hour, 2 hours, on a
    Monday morning inside the happy hour. *)
Definition pricingWorld {num} `{JsNum num} (percentage fixedRate : Z)
  : World num :=
  exampleWorld mondayMorning
    (exampleStore [mondayWindow percentage fixedRate] []) freshSM.

(** The same store when the requests to one collection are rejected. *)
Definition unreachable {num} (name : string) (st : Store num) : Store num :=
  {| devices := devices st; groups := groups st;
     happy_hours := happy_hours st; sessions := sessions st;
     session_logs := session_logs st; clients := clients st;
     users := users st; failing := name :: failing st |}.

(** A session from 22:00 to 23:00 on Monday, seen at 00:10 on Tuesday. *)
Definition carriedOverWorld {num} `{JsNum num} : World num :=
  let inT := utcInstant 2024 1 1 22 0 in
  let outT := utcInstant 2024 1 1 23 0 in
  exampleWorld (utcInstant 2024 1 2 0 10)
    (exampleStore [] [s1 "Active" inT outT]) (trackingSM inT outT false).

(** A session from 10:00 to 11:00 on Monday, seen at 10:55:30, four and
    a half minutes before its end, by a component that has shown no
    notification yet. *)
Definition endingSoonWorld {num} `{JsNum num} : World num :=
  let inT := utcInstant 2024 1 1 10 0 in
  let outT := utcInstant 2024 1 1 11 0 in
  exampleWorld (utcInstant 2024 1 1 10 55 + 30000)
    (exampleStore [] [s1 "Active" inT outT]) (trackingSM inT outT false).

(** A session from 10:00 to 11:00 on Monday, seen at 10:30; no happy
    hour is configured. *)
Definition runningWorld {num} `{JsNum num} : World num :=
  let inT := utcInstant 2024 1 1 10 0 in
  let outT := utcInstant 2024 1 1 11 0 in
  exampleWorld mondayMorning
    (exampleStore [] [s1 "Active" inT outT]) (trackingSM inT outT false).

(** An extended session from 10:00 to 12:00 on Monday, seen at 10:30. *)
Definition extendedWorld {num} `{JsNum num} : World num :=
  let inT := utcInstant 2024 1 1 10 0 in
  let outT := utcInstant 2024 1 1 12 0 in
  exampleWorld mondayMorning
    (exampleStore [] [s1 "Extended" inT outT]) (trackingSM inT outT false).

(** A session from 10:00 to 11:00 on Monday, seen at 11:01 of the same
    day by a client-app login. *)
Definition clientExpiredWorld {num} `{JsNum num} : World num :=
  let inT := utcInstant 2024 1 1 10 0 in
  let outT := utcInstant 2024 1 1 11 0 in
  exampleWorld (utcInstant 2024 1 1 11 1)
    (exampleStore [] [s1 "Active" inT outT]) (trackingSM inT outT false).

(** Whether [validateToken] accepts a token at instant [t], and whether
    the payload of a token names a user. *)
Definition tokenAccepted (decodePayload : string -> option Claims) (t : Z)
  (token : string) : bool :=
  nonEmpty token
  && match splitDots token with
     | [_; base64Url; _] =>
         match decodePayload base64Url with
         | Some payload =>
             negb (negb (claim_exp payload =? 0)
                   && (claim_exp payload <? t / 1000))
         | None => false
         end
     | _ => false
     end.

Definition hasUserId (decodePayload : string -> option Claims)
  (token : string) : bool :=
  match splitDots token with
  | [_; base64Url; _] =>
      match decodePayload base64Url with
      | Some tokenData => nonEmpty (userIdClaim tokenData)
      | None => false
      end
  | _ => false
  end.

(** The record that [checkDeviceTokenAndLogin] saves with the token. *)
Definition parsedClientRecord (parsesAsJson : string -> bool) (device : Device)
  : option string :=
  if negb (isBlank (dev_client_record device))
     && parsesAsJson (dev_client_record device)
  then Some (dev_client_record device) else None.

(** A token whose payload segment is the encoding of the empty object,
    pushed to terminal [d1]; of the payload segments only that one is
    decoded here. *)
Definition emptyPayloadToken : string := "header.e30.signature".

Definition decodeEmptyObject (segment : string) : option Claims :=
  if String.eqb segment "e30" then
    Some {| claim_id := ""; claim_sub := ""; claim_user_id := "";
            claim_userId := ""; claim_exp := 0 |}
  else None.

Definition tokenWorld {num} `{JsNum num} : World num :=
  exampleWorld mondayMorning
    {| devices :=
         [{| dev_id := "d1"; dev_group := "g1"; dev_status := "Occupied";
             dev_token := emptyPayloadToken; dev_client_record := "" |}];
       groups := [g1]; happy_hours := []; sessions := [];
       session_logs := []; clients := []; users := []; failing := [] |}
    freshSM.

(** ** The realtime hook (src/hooks/useRealtimePb.js) *)

(** The data of the hook after an event of the subscription: the
    function given to [setData] in the callback of [subscribe('*', ...)].
    The events are those of the whole collection; the filter of the hook
    is used for the initial list only. *)
Definition onRealtimeEvent {A} (idOf : A -> string) (action : string)
  (record : A) (prevData : list A) : list A :=
  if String.eqb action "create" then record :: prevData
  else if String.eqb action "update" then
    map (fun item => if String.eqb (idOf item) (idOf record) then record else item)
      prevData
  else if String.eqb action "delete" then
    List.filter (fun item => negb (String.eqb (idOf item) (idOf record))) prevData
  else prevData.

(** Whether an item carries a given id. *)
Definition hasId {A} (idOf : A -> string) (id : string) (item : A) : bool :=
  String.eqb (idOf item) id.

Section RealtimeEffects.
Context {num : Type} {N : JsNum num}.

Definition isNone {A} (x : option A) : bool :=
  match x with Some _ => false | None => true end.

(** [new Date(text)] for a date field of a record: a missing or empty
    text is not a date. *)
Definition parseDate (field : option Z) : Date :=
  match field with
  | Some t => Instant t
  | None => InvalidDate
  end.

(** The effect of SessionManager on the data of the realtime hook, for
    the render whose state is [snap]. The request for the device is run
    to its end. *)
Definition onSessionData (snap : SMState num) (sessionData : list (Session num))
  : M num unit unit :=
  match sessionData with
  | session :: _ =>
      setInTime (Some (parseDate (ses_in_time session))) ;;;
      setOutTime (Some (parseDate (ses_out_time session))) ;;;
      setIsSessionActive (String.eqb (ses_status session) "Active") ;;;
      when (nonEmpty (ses_device session)
            && isNone (deviceInfo snap))
        (tryCatch
           (let* device := getOne "devices" devices dev_id (ses_device session) in
            setDeviceInfo (Some device))
           (ret tt))
  | [] => ret tt
  end.

End RealtimeEffects.

(** ** SessionManager: the creation of a session *)

(** The object literal that createSession sends to the sessions
    collection; [new_device] is the empty text when the literal has no
    device. *)
Record NewSession (num : Type) : Type := {
  new_in_time : Z;
  new_out_time : Z;
  new_duration : num;
  new_session_total : num;
  new_snacks_total : num;
  new_total_amount : num;
  new_amount_paid : num;
  new_discount_amount : num;
  new_discount_rate : num;
  new_Cash : num;
  new_UPI : num;
  new_status : string;
  new_payment_mode : string;
  new_payment_type : string;
  new_device : string
}.
Arguments new_in_time {num} _.
Arguments new_out_time {num} _.
Arguments new_duration {num} _.
Arguments new_session_total {num} _.
Arguments new_snacks_total {num} _.
Arguments new_total_amount {num} _.
Arguments new_amount_paid {num} _.
Arguments new_discount_amount {num} _.
Arguments new_discount_rate {num} _.
Arguments new_Cash {num} _.
Arguments new_UPI {num} _.
Arguments new_status {num} _.
Arguments new_payment_mode {num} _.
Arguments new_payment_type {num} _.
Arguments new_device {num} _.

Section Creation.
Context {num : Type} {N : JsNum num}.
Variable cal : Calendar.

(** The id the server gives to the record it creates. *)
Variable newId : Store num -> string.

(** The record the server stores for a literal: the fields of a session
    that the client reads back. *)
Definition createdSession (st : Store num) (data : NewSession num)
  : Session num :=
  {| ses_id := newId st;
     ses_device := new_device data;
     ses_in_time := Some (new_in_time data);
     ses_out_time := Some (new_out_time data);
     ses_duration := new_duration data;
     ses_status := new_status data;
     ses_session_total := new_session_total data;
     ses_total_amount := new_total_amount data;
     ses_amount_paid := new_amount_paid data;
     ses_discount_amount := new_discount_amount data;
     ses_discount_rate := new_discount_rate data |}.

Definition insertSession (data : NewSession num) (st : Store num) : Store num :=
  if collection_ok st "sessions" then
    with_sessions (sessions st ++ [createdSession st data]) st
  else st.

(** [pbclient.collection('sessions').create(data)]: the new record is
    the last one of the collection. *)
Definition createSessionRecord {R} (data : NewSession num)
  : M num R (Session num) :=
  fun w =>
    (if collection_ok (store w) "sessions" then
       Val (createdSession (store w) data)
     else Throw,
     with_store (insertSession data (store w)) w).

(** The hook's [create(recordData)]: a failure is logged and turned into
    null. *)
Definition create {R} (data : NewSession num)
  : M num R (option (Session num)) :=
  tryCatch (let* record := createSessionRecord data in ret (Some record))
           (ret None).

(** The literal before the device and its cost are known. *)
Definition newSessionData (t : Z) : NewSession num :=
  {| new_in_time := t;
     new_out_time := t + 60 * 60 * 1000;
     new_duration := ofZ 60;
     new_session_total := ofZ 0;
     new_snacks_total := ofZ 0;
     new_total_amount := ofZ 0;
     new_amount_paid := ofZ 0;
     new_discount_amount := ofZ 0;
     new_discount_rate := ofZ 0;
     new_Cash := ofZ 0;
     new_UPI := ofZ 0;
     new_status := "Active";
     new_payment_mode := "Cash";
     new_payment_type := "Pre-paid";
     new_device := "" |}.

Definition withDeviceAndCost (deviceId : string) (costDetails : CostReturn num)
  (data : NewSession num) : NewSession num :=
  {| new_in_time := new_in_time data;
     new_out_time := new_out_time data;
     new_duration := new_duration data;
     new_session_total := finalCostOr0 costDetails;
     new_snacks_total := new_snacks_total data;
     new_total_amount := finalCostOr0 costDetails;
     new_amount_paid := new_amount_paid data;
     new_discount_amount := discountAmountOr0 costDetails;
     new_discount_rate := discountRateOr0 costDetails;
     new_Cash := new_Cash data;
     new_UPI := new_UPI data;
     new_status := new_status data;
     new_payment_mode := new_payment_mode data;
     new_payment_type := new_payment_type data;
     new_device := deviceId |}.

(** The filter [status = "Available"] of the query for a default
    device. *)
Definition availableDevice (d : Device) : bool :=
  String.eqb (dev_status d) "Available".

(** [createSession]. The log entry it sends also names the client, a
    field that the log entries of this development do not keep; the
    creation of the session itself is seen in the store. The only error
    that reaches the outer handler is the one thrown for a null record,
    whose message the handler appends. *)
Definition createSession : M num unit (option (Session num)) :=
  call
    (setLoading true ;;;
     finally
       (tryCatch
          (let* t := get now in
           let* deviceId :=
             tryCatch
               (let* deviceId := storedDeviceId in
                match deviceId with
                | Some id =>
                    tryCatch
                      (let* device := getOne "devices" devices dev_id id in
                       setDeviceInfo (Some device))
                      (ret tt) ;;;
                    ret (Some id)
                | None =>
                    let* available :=
                      getList "devices" devices 1 1 availableDevice false in
                    match available with
                    | device :: _ =>
                        setDeviceInfo (Some device) ;;;
                        ret (Some (dev_id device))
                    | [] => ret None
                    end
                end)
               (ret None) in
           let* sessionData :=
             match deviceId with
             | Some id =>
                 if nonEmpty id then
                   let* costDetails :=
                     fetchDeviceGroupAndCalculateCost cal id (Some (ofZ 1)) in
                   ret (withDeviceAndCost id costDetails (newSessionData t))
                 else ret (newSessionData t)
             | None => ret (newSessionData t)
             end in
           let* newSession := create sessionData in
           match newSession with
           | None => throw
           | Some newSession =>
               setSessionId (Some (ses_id newSession)) ;;;
               match ses_in_time newSession with
               | Some parsedInTime => setInTime (Some (Instant parsedInTime))
               | None => ret tt
               end ;;;
               match ses_out_time newSession with
               | Some parsedOutTime => setOutTime (Some (Instant parsedOutTime))
               | None => ret tt
               end ;;;
               setIsSessionActive true ;;;
               tryCatch
                 (createSessionLog
                    {| log_session_id := ses_id newSession; log_type := "Create";
                       log_session_amount := ofZ 0 |})
                 (ret tt) ;;;
               return_ (Some newSession)
           end)
          (setError
             (Some "Failed to create session: Failed to create session - no session data returned") ;;;
           return_ None))
       (fun w => with_sm (with_loading false (sm w)) w))
    None.

End Creation.

(** ** App: login and logout *)

(** The user name and the user id that App keeps besides [AppState],
    and the world as App sees it. *)
Record Shell : Type := {
  app_username : string;
  app_userId : option string
}.

Record AppWorld (num : Type) : Type := {
  world : World num;
  shell : Shell
}.
Arguments world {num} _.
Arguments shell {num} _.

Definition with_world {num} (x : World num) (a : AppWorld num) : AppWorld num :=
  {| world := x; shell := shell a |}.
Definition with_shell {num} (x : Shell) (a : AppWorld num) : AppWorld num :=
  {| world := world a; shell := x |}.
Definition with_app_username (x : string) (s : Shell) : Shell :=
  {| app_username := x; app_userId := app_userId s |}.
Definition with_app_userId (x : option string) (s : Shell) : Shell :=
  {| app_username := app_username s; app_userId := x |}.
Definition with_isLoggedIn {num} (x : bool) (a : AppState num) : AppState num :=
  {| isLoggedIn := x; isKioskMode := isKioskMode a;
     hasActiveSession := hasActiveSession a;
     activeSessionData := activeSessionData a |}.

(** Computations of App: those of the components, over the larger
    state. *)
Definition AM (num R A : Type) : Type :=
  AppWorld num -> Outcome R A * AppWorld num.

Section AppStatements.
Context {num R : Type}.

Definition retA {A} (a : A) : AM num R A := fun s => (Val a, s).

Definition bindA {A B} (c : AM num R A) (k : A -> AM num R B) : AM num R B :=
  fun s =>
    match c s with
    | (Val a, s') => k a s'
    | (Ret r, s') => (Ret r, s')
    | (Throw, s') => (Throw, s')
    end.

Definition tryCatchA {A} (body handler : AM num R A) : AM num R A :=
  fun s =>
    match body s with
    | (Throw, s') => handler s'
    | o => o
    end.

(** A statement of the components, run by App. *)
Definition lift {A} (c : M num R A) : AM num R A :=
  fun s => let '(o, w') := c (world s) in (o, with_world w' s).

Definition setShell (f : Shell -> Shell) : AM num R unit :=
  fun s => (Val tt, with_shell (f (shell s)) s).

End AppStatements.

Definition callA {num R R' : Type} (body : AM num R unit) (dflt : R)
  : AM num R' R :=
  fun s =>
    match body s with
    | (Val _, s') => (Val dflt, s')
    | (Ret r, s') => (Val r, s')
    | (Throw, s') => (Throw, s')
    end.

Notation "'let+' x ':=' c1 'in' c2" := (bindA c1 (fun x => c2))
  (at level 10, x name, c1 at level 100, c2 at level 200).
Notation "c1 ;;+ c2" := (bindA c1 (fun _ => c2))
  (at level 100, c2 at level 200, right associativity).

(** The user object that Login hands to [onLogin], and the one that
    DeviceTokenMonitor hands to [onAutoLogin]; an absent device id is
    the empty text. *)
Record LoginUser : Type := {
  lu_username : string;
  lu_id : string;
  lu_deviceId : string
}.

Section AppHandlers.
Context {num : Type} {N : JsNum num}.

Definition setIsLoggedIn {R} (x : bool) : AM num R unit :=
  lift (setApp (with_isLoggedIn x)).
Definition setUsername {R} (x : string) : AM num R unit :=
  setShell (with_app_username x).
Definition setUserId {R} (x : option string) : AM num R unit :=
  setShell (with_app_userId x).

(** [JSON.stringify({isLoggedIn: true, username, userId, deviceId})], as
    stored under [user_login_info]; a null device id is the empty
    text. *)
Definition loginInfo (username userId deviceId : string) : Json :=
  JObject [("isLoggedIn", "true"); ("username", username);
           ("userId", userId); ("deviceId", deviceId)].

Definition storeLoginInfo {R} (username userId deviceId : string)
  : AM num R unit :=
  lift (modify (fun w =>
    with_localStorage
      (<["user_login_info" := loginInfo username userId deviceId]>
         (localStorage w)) w)).

(** [a || b] on texts. *)
Definition orText (a b : string) : string := if nonEmpty a then a else b.

(** [handleLogin(user)] of the render whose device id is
    [snapDeviceId]. *)
Definition handleLogin (snapDeviceId : option string) (user : LoginUser)
  : AM num unit unit :=
  callA
    (setIsLoggedIn true ;;+
     setUsername (lu_username user) ;;+
     setUserId (Some (lu_id user)) ;;+
     let loginDeviceId := orText (default "" snapDeviceId) (lu_deviceId user) in
     storeLoginInfo (lu_username user) (lu_id user) loginDeviceId ;;+
     let+ item := lift (get (fun w => localStorage w !! "client_app_login")) in
     let isClientAppLogin :=
       match item with
       | Some (JText v) => String.eqb v "true"
       | _ => false
       end in
     if nonEmpty loginDeviceId then
       tryCatchA
         (let+ found :=
            lift (getList "sessions" sessions 1 1
                    (openSessionFilter loginDeviceId) true) in
          match found with
          | session :: _ =>
              lift disableKioskMode ;;+
              lift (setHasActiveSession true) ;;+
              lift (setActiveSessionData (Some session))
          | [] =>
              if isClientAppLogin then lift disableKioskMode
              else lift enableKioskMode
          end)
         (if isClientAppLogin then lift disableKioskMode
          else lift disableKioskMode)
     else lift disableKioskMode)
    tt.

(** [handleAutoLogin(userData)]. *)
Definition handleAutoLogin (userData : LoginUser) : AM num unit unit :=
  callA
    (tryCatchA
       (setIsLoggedIn true ;;+
        setUsername (lu_username userData) ;;+
        setUserId (Some (lu_id userData)) ;;+
        storeLoginInfo (lu_username userData) (lu_id userData)
          (lu_deviceId userData) ;;+
        if nonEmpty (lu_deviceId userData) then
          tryCatchA
            (let+ found :=
               lift (getList "sessions" sessions 1 1
                       (openSessionFilter (lu_deviceId userData)) true) in
             match found with
             | session :: _ =>
                 lift disableKioskMode ;;+
                 lift (setHasActiveSession true) ;;+
                 lift (setActiveSessionData (Some session))
             | [] => lift enableKioskMode
             end)
            (lift disableKioskMode)
        else lift disableKioskMode)
       (retA tt))
    tt.

(** The patch of the Logout button: the session is closed as paid at
    its recorded total, without discount. *)
Definition logoutPatch (sessionCost : num) : SessionPatch num :=
  {| p_status := Some "Closed"; p_out_time := None; p_duration := None;
     p_session_total := None; p_total_amount := None;
     p_amount_paid := Some sessionCost;
     p_discount_amount := Some (ofZ 0); p_discount_rate := Some (ofZ 0) |}.

(** The log entry of the Logout button. *)
Definition logoutEntry (session : Session num) : SessionLog num :=
  {| log_session_id := ses_id session; log_type := "Closed";
     log_session_amount := orZero (ses_session_total session) |}.

(** What the logout does on either path: [logout()] of the hook clears
    the auth store, and the login state is reset. *)
Definition clearLogin {R} : AM num R unit :=
  lift authStoreClear ;;+
  setIsLoggedIn false ;;+
  setUsername "" ;;+
  setUserId None.

(** The block of the Logout handler that closes the open session of the
    device and releases the device; whatever fails in it is logged and
    the logout goes on. *)
Definition closeAndRelease (deviceId : string) : AM num unit unit :=
  tryCatchA
    (let+ found :=
       lift (getList "sessions" sessions 1 1 (openSessionFilter deviceId) true) in
     match found with
     | session :: _ =>
         let sessionCost := orZero (ses_session_total session) in
         lift (updateSessionRecord (ses_id session) (logoutPatch sessionCost)) ;;+
         lift (createSessionLog (logoutEntry session))
     | [] => retA tt
     end ;;+
     lift (updateDeviceRecord deviceId releasePatch) ;;+
     retA tt)
    (retA tt).

(** The click handler of the Logout button. The event it dispatches is
    recorded as an effect (its listener in App only touches the window
    and the key filter), and the call of [enableKioskMode] that is not
    awaited is run to its end. *)
Definition logoutOnClick : AM num unit unit :=
  callA
    (tryCatchA
       (let+ savedInfo :=
          lift (get (fun w => localStorage w !! "user_login_info")) in
        let+ deviceId := lift (parsedDeviceId savedInfo) in
        match deviceId with
        | Some deviceId => closeAndRelease deviceId
        | None => retA tt
        end ;;+
        clearLogin ;;+
        lift (removeItem "user_login_info") ;;+
        lift (removeItem "client_app_login") ;;+
        tryCatchA
          (lift (emit (KioskEvent "manual-logout" true)) ;;+
           lift enableKioskMode)
          (retA tt))
       (clearLogin ;;+
        lift (removeItem "user_login_info") ;;+
        lift (emit (KioskEvent "error-logout" true))))
    tt.

End AppHandlers.

(** ** More example data *)

(** A user without username, a token whose payload names that user, and
    terminal [d1] holding the token; of the payload segments only that
    one is decoded here. *)
Definition u1 : User :=
  {| usr_id := "u1"; usr_username := ""; usr_email := "ann@example.org" |}.

Definition userToken : string := "header.payload.signature".

Definition decodeUser1 (segment : string) : option Claims :=
  if String.eqb segment "payload" then
    Some {| claim_id := "u1"; claim_sub := ""; claim_user_id := "";
            claim_userId := ""; claim_exp := 0 |}
  else None.

Definition d1WithToken : Device :=
  {| dev_id := "d1"; dev_group := "g1"; dev_status := "Occupied";
     dev_token := userToken; dev_client_record := "" |}.

Definition userTokenWorld {num} `{JsNum num} (cs us : list User) : World num :=
  exampleWorld mondayMorning
    {| devices := [d1WithToken]; groups := [g1]; happy_hours := [];
       sessions := []; session_logs := []; clients := cs; users := us;
       failing := [] |}
    freshSM.

(** A closed session of another terminal, created after [s1]. *)
Definition s2 {num} `{JsNum num} : Session num :=
  {| ses_id := "s2"; ses_device := "d2";
     ses_in_time := Some (utcInstant 2024 1 1 10 10);
     ses_out_time := Some (utcInstant 2024 1 1 10 20);
     ses_duration := ofZ 10; ses_status := "Closed";
     ses_session_total := ofZ 0; ses_total_amount := ofZ 0;
     ses_amount_paid := ofZ 0; ses_discount_amount := ofZ 0;
     ses_discount_rate := ofZ 0 |}.

Definition twoSessionsWorld {num} `{JsNum num} : World num :=
  exampleWorld mondayMorning
    (exampleStore []
       [s1 "Active" (utcInstant 2024 1 1 10 0) (utcInstant 2024 1 1 11 0); s2])
    freshSM.

(** The same world when the requests to one collection are rejected,
    when the native window calls are rejected, and with an empty local
    storage. *)
Definition withUnreachable {num} (name : string) (w : World num) : World num :=
  with_store (unreachable name (store w)) w.

Definition withFailingOs {num} (w : World num) : World num :=
  with_desktop
    {| screen_width := screen_width (desktop w);
       screen_height := screen_height (desktop w);
       window := window (desktop w); fullScreen := fullScreen (desktop w);
       centered := centered (desktop w); os_fails := true;
       keyboardHandler := keyboardHandler (desktop w) |} w.

Definition withEmptyStorage {num} (w : World num) : World num :=
  with_localStorage ∅ w.

(** The user that Login hands over after a login on terminal [d1], and
    App before anyone has logged in. *)
Definition ann : LoginUser :=
  {| lu_username := "ann"; lu_id := "u1"; lu_deviceId := "d1" |}.

Definition appOf {num} (w : World num) : AppWorld num :=
  {| world := w; shell := {| app_username := ""; app_userId := None |} |}.

(** ** SessionManager: overlapping runs of the tick

    [updateRemainingTime] is an asynchronous function: a run of it is
    suspended at every [await] and resumed when the response arrives.
    While a run is suspended the component renders again, and the effect
    on [[isSessionActive, updateRemainingTime]] calls the function of
    the new render whenever one of the dependencies of that callback has
    changed. The runs of one component therefore overlap. This section
    embeds the function once more with its [await]s kept, and the effect
    that starts its runs. *)

(** The world of the runs: the [World], and which object the state
    variable [deviceInfo] holds. React compares a dependency with
    [Object.is]; every record that the network returns is a new object,
    numbered here in the order in which [setDeviceInfo] stores them. *)
Record Live (num : Type) : Type := {
  live_world : World num;
  deviceInfoRef : nat
}.
Arguments live_world {num} _.
Arguments deviceInfoRef {num} _.

Definition with_live_world {num} (x : World num) (l : Live num) : Live num :=
  {| live_world := x; deviceInfoRef := deviceInfoRef l |}.

(** An asynchronous computation: a stretch of synchronous code that
    ends the computation or suspends it at an [await], leaving the rest
    to be resumed. *)
Inductive Async (num R A : Type) : Type :=
| Go (stretch : Live num -> Stretch num R A)
with Stretch (num R A : Type) : Type :=
| Finished (o : Outcome R A) (l : Live num)
| Suspended (rest : Async num R A) (l : Live num).
Arguments Go {num R A} _.
Arguments Finished {num R A} _ _.
Arguments Suspended {num R A} _ _.

Section AsyncStatements.
Context {num R : Type}.

(** Running the next stretch of a computation. *)
Definition resume {A} (c : Async num R A) : Live num -> Stretch num R A :=
  match c with Go stretch => stretch end.

(** Code without [await]. *)
Definition sync {A} (c : M num R A) : Async num R A :=
  Go (fun l =>
        let '(o, w') := c (live_world l) in
        Finished o (with_live_world w' l)).

(** [await request]: the run is suspended; the request is served, and
    its response or rejection delivered, when the run is resumed. *)
Definition await {A} (request : M num R A) : Async num R A :=
  Go (fun l => Suspended (sync request) l).

Fixpoint abind {A B} (c : Async num R A) (k : A -> Async num R B)
  : Async num R B :=
  match c with
  | Go stretch =>
      Go (fun l =>
            match stretch l with
            | Finished (Val a) l' => resume (k a) l'
            | Finished (Ret r) l' => Finished (Ret r) l'
            | Finished Throw l' => Finished Throw l'
            | Suspended rest l' => Suspended (abind rest k) l'
            end)
  end.

(** [try { body } catch { handler }] around code with [await]s. *)
Fixpoint atry {A} (body handler : Async num R A) : Async num R A :=
  match body with
  | Go stretch =>
      Go (fun l =>
            match stretch l with
            | Finished Throw l' => resume handler l'
            | Finished o l' => Finished o l'
            | Suspended rest l' => Suspended (atry rest handler) l'
            end)
  end.

Definition awhen (b : bool) (c : Async num R unit) : Async num R unit :=
  if b then c else sync (ret tt).

End AsyncStatements.

(** The body of an asynchronous function, called. *)
Fixpoint acall {num R R' : Type} (body : Async num R unit) (dflt : R)
  : Async num R' R :=
  match body with
  | Go stretch =>
      Go (fun l =>
            match stretch l with
            | Finished (Val _) l' => Finished (Val dflt) l'
            | Finished (Ret r) l' => Finished (Val r) l'
            | Finished Throw l' => Finished Throw l'
            | Suspended rest l' => Suspended (acall rest dflt) l'
            end)
  end.

Notation "'let&' x ':=' c1 'in' c2" := (abind c1 (fun x => c2))
  (at level 10, x name, c1 at level 100, c2 at level 200).
Notation "c1 ;;& c2" := (abind c1 (fun _ => c2))
  (at level 100, c2 at level 200, right associativity).

(** A run that nothing interrupts: every [await] is answered at once. *)
Fixpoint uninterrupted {num R A} (c : Async num R A) (l : Live num)
  : Outcome R A * Live num :=
  match c with
  | Go stretch =>
      match stretch l with
      | Finished o l' => (o, l')
      | Suspended rest l' => uninterrupted rest l'
      end
  end.

Section OverlappingRuns.
Context {num : Type} {N : JsNum num}.
Variable cal : Calendar.

(** [setDeviceInfo(device)] for a record that the network has just
    returned: the state variable holds a new object. *)
Definition setDeviceInfoFetched {R} (device : Device) : Async num R unit :=
  Go (fun l =>
        Finished (Val tt)
          {| live_world :=
               with_sm (with_deviceInfo (Some device) (sm (live_world l)))
                 (live_world l);
             deviceInfoRef := S (deviceInfoRef l) |}).

(** [fetchDeviceGroupAndCalculateCost], with its three requests
    awaited. *)
Definition fetchDeviceGroupAndCalculateCostAsync {R} (deviceId : string)
  (durationHours : option num) : Async num R (CostReturn num) :=
  acall
    (awhen (negb (nonEmpty deviceId)) (sync (return_ CostNumber0)) ;;&
     atry
       (let& device := await (getOne "devices" devices dev_id deviceId) in
        setDeviceInfoFetched device ;;&
        if nonEmpty (dev_group device) then
          let& group := await (getOne "groups" groups grp_id (dev_group device)) in
          sync (setGroupInfo (Some group)) ;;&
          if truthy (grp_price group) then
            let hourlyRate := grp_price group in
            let validDuration := validDuration durationHours in
            let baseCost := nmul hourlyRate validDuration in
            let& details :=
              atry
                (let& t := sync (get now) in
                 let currentDay := weekdayLong cal t in
                 let currentTime := timeHHMM cal t in
                 let& happyHours :=
                   await (getList "happy_hours" happy_hours 1 50
                            (happyHourFilter (grp_id group) currentDay) false) in
                 sync (ret (applyHappyHours currentTime baseCost validDuration
                              happyHours)))
                (sync (ret (noDiscount baseCost)))
            in
            sync (setSessionCost (finalCost details)) ;;&
            sync (return_ (Cost details))
          else sync (setSessionCost (ofZ 0))
        else sync (setSessionCost (ofZ 0)))
       (sync (setSessionCost (ofZ 0))) ;;&
     sync (return_ (Cost zeroCost)))
    (Cost zeroCost).

(** The hook's [update(id, recordData)], with its request awaited. *)
Definition updateAsync {R} (id : string) (p : SessionPatch num)
  : Async num R (option (Session num)) :=
  atry (let& record := await (updateSessionRecord id p) in
        sync (ret (Some record)))
       (sync (ret None)).

(** [updateRemainingTime] of the render whose state is [snap], with its
    requests awaited. *)
Definition updateRemainingTimeAsync (snap : SMState num)
  : Async num unit unit :=
  acall
    (match outTime snap with
     | None => sync (setRemainingTime (0, 0, 0)) ;;& sync (return_ tt)
     | Some endD =>
     atry
       (let& t := sync (get now) in
        match getTime endD with
        | None => sync (setRemainingTime (0, 0, 0)) ;;& sync (return_ tt)
        | Some endT =>
        let diff := endT - t in
        if diff <=? 0 then
          sync (setRemainingTime (0, 0, 0)) ;;&
          let isYesterday := isYesterday cal t endT in
          let tracked := isSessionActive snap && truthyId (sessionId snap) in
          let sid := default "" (sessionId snap) in
          sync
            (when (tracked && negb (notificationShown snap))
               (showNotification
                  (if isYesterday
                   then "Your session has ended. The system will log you out in 5 seconds."
                   else "Your session time has ended. The system will log you out in 5 seconds.")
                  true ;;;
                setNotificationShown true ;;;
                setTimeout AutoLogout 5000)) ;;&
          awhen (tracked && isYesterday)
            (atry
               (let hasDevice :=
                  match deviceInfo snap with
                  | Some d => nonEmpty (dev_id d)
                  | None => false
                  end in
                let deviceInfoId :=
                  match deviceInfo snap with Some d => dev_id d | None => "" end in
                let& deviceId :=
                  sync (if hasDevice then ret (Some deviceInfoId)
                        else tryCatch storedDeviceId (ret None)) in
                let& costs :=
                  if hasDevice then
                    atry
                      (let inTimeDate := newDate (inTime snap) in
                       let outTimeDate := newDate (outTime snap) in
                       let durationHours := hoursBetween inTimeDate outTimeDate in
                       let& costDetails :=
                         fetchDeviceGroupAndCalculateCostAsync deviceInfoId
                           durationHours in
                       sync (ret (finalCostOr0 costDetails,
                                  discountAmountOr0 costDetails,
                                  discountRateOr0 costDetails)))
                      (sync (ret (orZero (sessionCost snap), ofZ 0, ofZ 0)))
                  else sync (ret (orZero (sessionCost snap), ofZ 0, ofZ 0)) in
                let '(cost, discountAmount, discountRate) := costs in
                updateAsync sid (closedPatch cost discountAmount discountRate) ;;&
                await
                  (createSessionLog
                     {| log_session_id := sid; log_type := "Closed";
                        log_session_amount := cost |}) ;;&
                match deviceId with
                | Some id =>
                    atry (await (updateDeviceRecord id releasePatch) ;;&
                          sync (ret tt))
                         (sync (ret tt))
                | None => sync (ret tt)
                end ;;&
                sync
                  (setIsSessionActive false ;;;
                   when (negb (notificationShown snap))
                     (showNotification
                        "Your session has ended. The system will log you out in 5 seconds."
                        true ;;;
                      setNotificationShown true ;;;
                      setTimeout AutoLogout 5000)))
               (sync
                  (when (negb (notificationShown snap))
                     (showNotification
                        "Your session has ended, but there was an error updating the session status."
                        true ;;;
                      setNotificationShown true)))) ;;&
          sync (return_ tt)
        else
          let hours := diff / msPerHour in
          let diff1 := diff - hours * msPerHour in
          let minutes := diff1 / (1000 * 60) in
          let diff2 := diff1 - minutes * (1000 * 60) in
          let seconds := diff2 / 1000 in
          sync
            (setRemainingTime (hours, minutes, seconds) ;;;
             let totalMinutesLeft := hours * 60 + minutes in
             when (isSessionActive snap && truthyId (sessionId snap))
               (when ((totalMinutesLeft <=? 5) && (0 <? totalMinutesLeft)
                      && negb (notificationShown snap))
                  (showNotification
                     ("Your session will end in " ++ showZ totalMinutesLeft
                      ++ " minutes. Please save your work.") true ;;;
                   setNotificationShown true) ;;;
                when ((5 <? totalMinutesLeft) && notificationShown snap)
                  (setNotificationShown false)))
        end)
       (sync (setRemainingTime (0, 0, 0)))
     end)
    tt.

(** *** The effect that starts the runs *)

(** [Object.is] on two numbers, except that 0 and -0 are not told
    apart. *)
Definition sameNumber (a b : num) : bool :=
  (isNaN a && isNaN b) || (nleb a b && nleb b a).

Definition sameText (a b : option string) : bool :=
  match a, b with
  | Some x, Some y => String.eqb x y
  | None, None => true
  | _, _ => false
  end.

Definition sameDate (a b : option Date) : bool :=
  match a, b with
  | Some (Instant x), Some (Instant y) => x =? y
  | Some InvalidDate, Some InvalidDate => true
  | None, None => true
  | _, _ => false
  end.

(** A render: the state of the component and the object that
    [deviceInfo] holds. *)
Definition Render : Type := SMState num * nat.

Definition currentRender (l : Live num) : Render :=
  (sm (live_world l), deviceInfoRef l).

(** Whether [useCallback] returns the same [updateRemainingTime] for two
    renders: its dependencies are [outTime], [isSessionActive],
    [sessionId], [update], [notificationShown], [showNotification],
    [deviceInfo] and [sessionCost], of which [update] and
    [showNotification] never change; no run of the tick assigns
    [outTime], so that its value stands for the object. *)
Definition sameCallback (a b : Render) : bool :=
  sameDate (outTime (fst a)) (outTime (fst b))
  && Bool.eqb (isSessionActive (fst a)) (isSessionActive (fst b))
  && sameText (sessionId (fst a)) (sessionId (fst b))
  && Bool.eqb (notificationShown (fst a)) (notificationShown (fst b))
  && Nat.eqb (snd a) (snd b)
  && sameNumber (sessionCost (fst a)) (sessionCost (fst b)).

(** The component between two stretches: the world, the render for
    which the effect ran last, and the runs that are suspended, oldest
    first. *)
Record Component : Type := {
  live : Live num;
  lastEffect : option Render;
  suspended : list (Async num unit unit)
}.

(** The next stretch of a run, which is kept when it is suspended
    again. *)
Definition advance (run : Async num unit unit) (c : Component) : Component :=
  match resume run (live c) with
  | Finished _ l' =>
      {| live := l'; lastEffect := lastEffect c; suspended := suspended c |}
  | Suspended rest l' =>
      {| live := l'; lastEffect := lastEffect c;
         suspended := suspended c ++ [rest] |}
  end.

(** One render and its effect,
    [useEffect(() => { if (isSessionActive) { updateRemainingTime();
    setInterval(updateRemainingTime, 1000); ... } },
    [isSessionActive, updateRemainingTime])]: when a dependency has
    changed since the last render, the effect runs, and when the
    session is active it calls the function of this render, which runs
    up to its first [await]. A render follows every stretch, before the
    next response arrives; the clock is kept still. *)
Definition effectPending (c : Component) : bool :=
  match lastEffect c with
  | Some previous =>
      negb (Bool.eqb (isSessionActive (fst previous))
              (isSessionActive (fst (currentRender (live c))))
            && sameCallback previous (currentRender (live c)))
  | None => true
  end.

Definition render (c : Component) : Component :=
  let this := currentRender (live c) in
  if effectPending c then
    let c' := {| live := live c; lastEffect := Some this;
                 suspended := suspended c |} in
    if isSessionActive (fst this)
    then advance (updateRemainingTimeAsync (fst this)) c'
    else c'
  else c.

(** The renders that follow a stretch, until one runs no effect. *)
Fixpoint settle (fuel : nat) (c : Component) : Component :=
  match fuel with
  | O => c
  | S fuel' => if effectPending c then settle fuel' (render c) else c
  end.

(** A component that has rendered the state of a world and has no run
    in flight. *)
Definition idle (w : World num) : Component :=
  let l := {| live_world := w; deviceInfoRef := 0 |} in
  {| live := l; lastEffect := Some (currentRender l); suspended := [] |}.

(** The interval fires: it calls the function of the render for which
    the effect ran last (an effect that found the session active, or
    there is no interval), and the component renders. *)
Definition intervalFires (fuel : nat) (c : Component) : Component :=
  match lastEffect c with
  | Some r =>
      if isSessionActive (fst r)
      then settle fuel (advance (updateRemainingTimeAsync (fst r)) c)
      else c
  | None => c
  end.

(** The response to the oldest suspended run arrives: the run goes on
    for one stretch, and the component renders. *)
Definition respond (fuel : nat) (c : Component) : Component :=
  match suspended c with
  | run :: others =>
      settle fuel
        (advance run
           {| live := live c; lastEffect := lastEffect c;
              suspended := others |})
  | [] => c
  end.

(** The responses arrive in the order of the requests, [n] of them. *)
Fixpoint responses (fuel n : nat) (c : Component) : Component :=
  match n with
  | O => c
  | S n' => responses fuel n' (respond fuel c)
  end.

End OverlappingRuns.

(** Requests that update a device. *)
Definition isDeviceUpdate {num} (q : Request num) : bool :=
  match q with
  | UpdateDevice _ _ => true
  | _ => false
  end.

(** * Properties *)

(** ** Running statements *)

Lemma with_sm_same {num} (w : World num) : with_sm (sm w) w = w.
Proof. by destruct w. Qed.

Lemma bind_val {num R A B} (c : M num R A) (k : A -> M num R B) w a w' :
  c w = (Val a, w') -> bind c k w = k a w'.
Proof. unfold bind. by intros ->. Qed.

Ltac unfold_monad :=
  unfold showNotification, setSessionId, setInTime, setOutTime,
    setRemainingTime, setIsSessionActive, setLoading, setError, setDeviceInfo,
    setGroupInfo, setSessionCost, setNotificationShown, setIsChecking,
    setSessionActive, setSessionData, setIsClientApp, onSessionStateChange,
    setIsKioskMode, setHasActiveSession, setActiveSessionData;
  unfold call, tryCatch, finally, when, emit, setTimeout,
    removeItem, authStoreClear, setSM, setSSM, setApp;
  unfold bind, get, modify, ret, return_, throw.

Ltac proj :=
  cbn [negb andb orb fst snd id auth_token auth_record now store localStorage
       authStore neutralino desktop journal
       effects timers sm ssm lastCheckedToken app
       with_store with_localStorage with_authStore with_desktop with_journal
       with_effects with_timers with_sm with_ssm with_lastCheckedToken with_app
       with_now sent
       sessionId inTime outTime remainingTime isSessionActive loading error
       deviceInfo groupInfo sessionCost notificationShown
       with_sessionId with_inTime with_outTime with_remainingTime
       with_isSessionActive with_loading with_error with_deviceInfo
       with_groupInfo with_sessionCost with_notificationShown
       isChecking sessionActive sessionData isClientApp
       with_isChecking with_sessionActive with_sessionData with_isClientApp
       isLoggedIn isKioskMode hasActiveSession activeSessionData
       with_isKioskMode with_hasActiveSession with_activeSessionData].

Ltac step := repeat progress (cbv beta iota zeta; proj).

Section StoreFacts.
Context {num : Type} {N : JsNum num}.

Lemma collection_ok_patchSessions id p (st : Store num) name :
  collection_ok (patchSessions id p st) name = collection_ok st name.
Proof. unfold patchSessions. by destruct (collection_ok st "sessions"). Qed.

Lemma collection_ok_appendLog e (st : Store num) name :
  collection_ok (appendLog e st) name = collection_ok st name.
Proof. unfold appendLog. by destruct (collection_ok st "session_logs"). Qed.

Lemma collection_ok_patchDevices id p (st : Store num) name :
  collection_ok (patchDevices id p st) name = collection_ok st name.
Proof. unfold patchDevices. by destruct (collection_ok st "devices"). Qed.

(** The hook's [update] never throws: a rejected request gives null. *)
Lemma update_run {R} (id : string) (p : SessionPatch num) (w : World num) :
  @update num N R id p w
  = (Val (option_map (applySessionPatch p) (findSession (store w) id)),
     with_store (patchSessions id p (store w)) (sent (UpdateSession id p) w)).
Proof.
  unfold update, tryCatch, bind, updateSessionRecord, ret.
  by destruct (findSession _ _).
Qed.

(** A record found by a list request can be found by its id. *)
Lemma find_of_In {A} (idOf : A -> string) (x : A) (l : list A) :
  In x l -> exists y, List.find (fun r => String.eqb (idOf r) (idOf x)) l = Some y.
Proof.
  induction l as [|a l IH]; intros Hin; [destruct Hin|].
  simpl. destruct (String.eqb (idOf a) (idOf x)) eqn:E; [by eexists|].
  destruct Hin as [->|Hin]; [by rewrite String.eqb_refl in E|by apply IH].
Qed.

(** Patching the records of one id maps the record found by that id. *)
Lemma find_patched {A} (idOf : A -> string) (upd : A -> A) (id : string)
  (l : list A) :
  (forall r, idOf (upd r) = idOf r) ->
  List.find (fun r => String.eqb (idOf r) id)
    (map (fun r => if String.eqb (idOf r) id then upd r else r) l)
  = option_map upd (List.find (fun r => String.eqb (idOf r) id) l).
Proof.
  intros Hid. induction l as [|a l IH]; [done|].
  simpl. destruct (String.eqb (idOf a) id) eqn:E.
  - by rewrite Hid, E.
  - by rewrite E.
Qed.

Lemma findSession_patchSessions id p (st : Store num) :
  findSession (patchSessions id p st) id
  = option_map (applySessionPatch p) (findSession st id).
Proof.
  unfold findSession, findRecord. rewrite collection_ok_patchSessions.
  unfold patchSessions. destruct (collection_ok st "sessions"); [|done].
  cbn [sessions with_sessions]. by apply find_patched.
Qed.

Lemma findSession_appendLog e (st : Store num) id :
  findSession (appendLog e st) id = findSession st id.
Proof.
  unfold findSession, findRecord. rewrite collection_ok_appendLog.
  unfold appendLog. by destruct (collection_ok st "session_logs").
Qed.

Lemma findSession_patchDevices d p (st : Store num) id :
  findSession (patchDevices d p st) id = findSession st id.
Proof.
  unfold findSession, findRecord. rewrite collection_ok_patchDevices.
  unfold patchDevices. by destruct (collection_ok st "devices").
Qed.

Lemma findDevice_patchDevices id p (st : Store num) :
  findDevice (patchDevices id p st) id
  = option_map (applyDevicePatch p) (findDevice st id).
Proof.
  unfold findDevice, findRecord. rewrite collection_ok_patchDevices.
  unfold patchDevices. destruct (collection_ok st "devices"); [|done].
  cbn [devices with_devices]. by apply find_patched.
Qed.

Lemma session_logs_patchDevices d p (st : Store num) :
  session_logs (patchDevices d p st) = session_logs st.
Proof. unfold patchDevices. by destruct (collection_ok st "devices"). Qed.

Lemma session_logs_patchSessions id p (st : Store num) :
  session_logs (patchSessions id p st) = session_logs st.
Proof. unfold patchSessions. by destruct (collection_ok st "sessions"). Qed.

Lemma findDevice_patchSessions id p (st : Store num) d :
  findDevice (patchSessions id p st) d = findDevice st d.
Proof.
  unfold findDevice, findRecord. rewrite collection_ok_patchSessions.
  unfold patchSessions. by destruct (collection_ok st "sessions").
Qed.

Lemma findDevice_appendLog e (st : Store num) d :
  findDevice (appendLog e st) d = findDevice st d.
Proof.
  unfold findDevice, findRecord. rewrite collection_ok_appendLog.
  unfold appendLog. by destruct (collection_ok st "session_logs").
Qed.

(** The store after the three requests of a closure: the session is
    Closed with the amounts written, the device is released, and the
    log has one more entry. *)
Lemma closed_in_store (st : Store num) (sid did : string)
  (cost discountAmount discountRate : num) (e : SessionLog num)
  (s : Session num) (d : Device) :
  findSession st sid = Some s ->
  findDevice st did = Some d ->
  let st' :=
    patchDevices did releasePatch
      (appendLog e
         (patchSessions sid (closedPatch cost discountAmount discountRate) st)) in
  (exists s', findSession st' sid = Some s'
     /\ ses_status s' = "Closed" /\ ses_amount_paid s' = cost
     /\ ses_session_total s' = cost /\ ses_total_amount s' = cost
     /\ ses_discount_amount s' = discountAmount
     /\ ses_discount_rate s' = discountRate)
  /\ (exists d', findDevice st' did = Some d'
       /\ dev_status d' = "Available" /\ dev_token d' = ""
       /\ dev_client_record d' = "")
  /\ (collection_ok st "session_logs" = true ->
      session_logs st' = (session_logs st ++ [e])%list).
Proof.
  intros Hs Hd st'. subst st'. split; [|split].
  - rewrite findSession_patchDevices, findSession_appendLog,
      findSession_patchSessions, Hs.
    eexists. split; [reflexivity|]. by repeat split.
  - rewrite findDevice_patchDevices, findDevice_appendLog,
      findDevice_patchSessions, Hd.
    eexists. split; [reflexivity|]. by repeat split.
  - intros Hok. rewrite session_logs_patchDevices. unfold appendLog.
    rewrite collection_ok_patchSessions, Hok. cbn [session_logs with_session_logs].
    by rewrite session_logs_patchSessions.
Qed.

End StoreFacts.

(** ** The pricing resolver *)

Section ResolverFacts.
Context {num : Type} {N : JsNum num}.
Variable cal : Calendar.

(** The loop applies the discount of the first happy hour in range. *)
Lemma applyHappyHours_find currentTime (base duration : num) items :
  applyHappyHours currentTime base duration items
  = match List.find (inRange currentTime) items with
    | Some h => applyDiscount base duration h
    | None => noDiscount base
    end.
Proof.
  induction items as [|h items IH]; [done|].
  simpl. by destruct (inRange currentTime h).
Qed.

(** The resolver always returns: its result and the state it leaves are
    functions of the store and the clock. *)
Lemma fetch_run {R} (deviceId : string) (d : option num) (w : World num) :
  @fetchDeviceGroupAndCalculateCost num N cal R deviceId d w
  = (Val (priced cal (store w) (now w) deviceId d),
     with_sm (pricedState cal (store w) (now w) deviceId d (sm w)) w).
Proof.
  unfold fetchDeviceGroupAndCalculateCost, pricedState, priced, rateGroupOf,
    call, bind, when, tryCatch, getOne, getList, return_, ret,
    setDeviceInfo, setGroupInfo, setSessionCost, setSM, modify, get,
    candidateWindows, findDevice, findGroup.
  destruct (nonEmpty deviceId); cbn; [|by rewrite with_sm_same].
  destruct (findRecord _ _ _ _ _) as [device|]; cbn; [|done].
  destruct (nonEmpty (dev_group device)); cbn; [|done].
  destruct (findRecord _ _ _ _ _) as [group|]; cbn; [|done].
  destruct (truthy (grp_price group)); cbn; [|done].
  destruct (listRecords _ _ _ _ _ _ _); cbn; done.
Qed.

Lemma priced_matched st t deviceId d group h :
  nonEmpty deviceId = true ->
  rateGroupOf st deviceId = Some group ->
  truthy (grp_price group) = true ->
  matchedWindow cal st t (grp_id group) = Some h ->
  priced cal st t deviceId d
  = Cost (applyDiscount (nmul (grp_price group) (validDuration d))
            (validDuration d) h).
Proof.
  unfold priced, matchedWindow. intros -> -> -> Hm.
  destruct (candidateWindows cal st t (grp_id group)); [|done].
  by rewrite applyHappyHours_find, Hm.
Qed.

Lemma priced_no_price st t deviceId d group :
  nonEmpty deviceId = true ->
  rateGroupOf st deviceId = Some group ->
  truthy (grp_price group) = false ->
  priced cal st t deviceId d = Cost zeroCost.
Proof. unfold priced. by intros -> -> ->. Qed.

End ResolverFacts.

(** Exact arithmetic. *)

Lemma Q_gt0 (q : Q) : gt0 q = true <-> (0 < q)%Q.
Proof.
  unfold gt0; simpl. rewrite negb_true_iff.
  split.
  - intros H. apply Qnot_le_lt. intros Hle. apply Qle_bool_iff in Hle.
    change (inject_Z 0) with 0%Q in H. congruence.
  - intros H. destruct (Qle_bool q (inject_Z 0)) eqn:E; [|done].
    apply Qle_bool_iff in E. change (inject_Z 0) with 0%Q in E.
    exfalso. by apply (Qlt_not_le _ _ H).
Qed.

Lemma Q_truthy (q : Q) : truthy q = true <-> ~ (q == 0)%Q.
Proof.
  unfold truthy; simpl. change (inject_Z 0) with 0%Q.
  rewrite orb_true_iff, !negb_true_iff. split.
  - intros [H|H] Heq; rewrite Heq in H; by compute in H.
  - intros Hne.
    destruct (Qle_bool 0 q) eqn:E1; [|by left].
    destruct (Qle_bool q 0) eqn:E2; [|by right].
    apply Qle_bool_iff in E1, E2. exfalso. apply Hne. by apply Qle_antisym.
Qed.

Lemma Q_truthy_false (q : Q) : truthy q = false -> (q == 0)%Q.
Proof.
  intros H. destruct (Qeq_dec q 0) as [|Hne]; [done|].
  apply Q_truthy in Hne. congruence.
Qed.

Lemma Q_validDuration_pos (d : Q) : (0 < d)%Q -> validDuration (Some d) = d.
Proof.
  intros H. unfold validDuration; simpl.
  destruct (Qle_bool d (inject_Z 0)) eqn:E; [|done].
  apply Qle_bool_iff in E. change (inject_Z 0) with 0%Q in E.
  exfalso. by apply (Qlt_not_le _ _ H).
Qed.

Lemma Q_validDuration_nonpos (d : Q) : (d <= 0)%Q -> validDuration (Some d) = 1%Q.
Proof.
  intros H. unfold validDuration; simpl.
  change (inject_Z 0) with 0%Q.
  apply Qle_bool_iff in H. by rewrite H.
Qed.

Lemma Q_validDuration_positive (d : option Q) : (0 < validDuration d)%Q.
Proof.
  destruct d as [d|]; [|reflexivity].
  unfold validDuration; simpl.
  destruct (Qle_bool d (inject_Z 0)) eqn:E; [reflexivity|].
  apply Qnot_le_lt. intros H. apply Qle_bool_iff in H.
  change (inject_Z 0) with 0%Q in E. congruence.
Qed.

Lemma Q_discount_nonneg (base p : Q) :
  (0 <= base)%Q -> (p <= 100)%Q -> (0 <= base - base * (p / inject_Z 100))%Q.
Proof.
  intros Hb Hp. change (inject_Z 100) with 100%Q.
  assert (p / 100 <= 1)%Q as H1.
  { apply Qle_shift_div_r; [reflexivity|]. by rewrite Qmult_1_l. }
  assert (0 <= base * (1 - p / 100))%Q as H2.
  { apply Qmult_le_0_compat; [done|]. lra. }
  lra.
Qed.

(** C3, as amended: when the first happy hour in range (among the 50
    the query returns) gives a percentage p > 0, the resolver returns
    baseCost = r * d for a duration d > 0 and baseCost = r * 1 for a
    duration d <= 0 (which it replaces by one hour), with
    discountAmount = baseCost * p / 100 and
    finalCost = baseCost - discountAmount. *)
Theorem C3_percentage_discount (cal : Calendar) (R : Type) (w : World Q)
  (deviceId : string) (group : Group Q) (h : HappyHour Q) (d : Q) :
  nonEmpty deviceId = true ->
  rateGroupOf (store w) deviceId = Some group ->
  matchedWindow cal (store w) (now w) (grp_id group) = Some h ->
  (0 < hh_discount_percentage h)%Q ->
  exists c,
    fst (fetchDeviceGroupAndCalculateCost (R:=R) cal deviceId (Some d) w)
    = Val (Cost c)
    /\ ((0 < d)%Q -> baseCost c == grp_price group * d)%Q
    /\ ((d <= 0)%Q -> baseCost c == grp_price group * 1)%Q
    /\ (discountAmount c == baseCost c * hh_discount_percentage h / 100)%Q
    /\ (finalCost c == baseCost c - discountAmount c)%Q.
Proof.
  intros Hid Hg Hm Hp. rewrite fetch_run. cbn [fst].
  destruct (truthy (grp_price group)) eqn:Hr.
  - rewrite (priced_matched cal _ _ _ _ group h) by done.
    unfold applyDiscount.
    assert (truthy (hh_discount_percentage h) = true) as ->.
    { apply Q_truthy. intros E. rewrite E in Hp. by apply Qlt_irrefl in Hp. }
    assert (gt0 (hh_discount_percentage h) = true) as -> by by apply Q_gt0.
    eexists. split; [reflexivity|]. cbn [baseCost discountAmount finalCost andb].
    split; [|split; [|split]].
    + intros Hd. by rewrite Q_validDuration_pos.
    + intros Hd. by rewrite Q_validDuration_nonpos.
    + simpl. change (inject_Z 100) with 100%Q. field.
    + reflexivity.
  - rewrite (priced_no_price cal _ _ _ _ group) by done.
    apply Q_truthy_false in Hr.
    exists zeroCost. split; [done|]. simpl. change (inject_Z 0) with 0%Q.
    split; [|split; [|split]]; intros; rewrite ?Hr; try ring. field.
Qed.

(** The example of the specification: r = 100, d = 2, p = 20 gives
    baseCost = 200, discountAmount = 40 and finalCost = 160. *)
Lemma C3_percentage_discount_witness :
  exists c,
    fst (fetchDeviceGroupAndCalculateCost (R:=unit) utc "d1" (Some 2%Q)
           (pricingWorld 20 0))
    = Val (Cost c)
    /\ (baseCost c == 200)%Q /\ (discountAmount c == 40)%Q
    /\ (finalCost c == 160)%Q.
Proof.
  assert (0 < hh_discount_percentage (mondayWindow (num:=Q) 20 0))%Q as Hp
    by (vm_compute; reflexivity).
  destruct (C3_percentage_discount utc unit (pricingWorld 20 0) "d1" g1
              (mondayWindow 20 0) 2%Q eq_refl eq_refl eq_refl Hp)
    as (c & Hc & Hb & _ & Hd & Hf).
  exists c. split; [exact Hc|].
  assert (baseCost c == 200)%Q as Hb' by (rewrite Hb; reflexivity).
  assert (discountAmount c == 40)%Q as Hd'.
  { rewrite Hd, Hb'. reflexivity. }
  split; [exact Hb'|]. split; [exact Hd'|].
  rewrite Hf, Hb', Hd'. reflexivity.
Defined.

(** C3, as stated, fails for a duration of zero hours: the resolver
    prices one hour, so baseCost is 100 and not r * d = 0. *)
Lemma C3_zero_duration_counterexample :
  exists c,
    fst (fetchDeviceGroupAndCalculateCost (R:=unit) utc "d1" (Some 0%Q)
           (pricingWorld 20 0))
    = Val (Cost c)
    /\ (baseCost c == 100)%Q /\ ~ (baseCost c == 100 * 0)%Q.
Proof.
  eexists. split; [vm_compute; reflexivity|]. split; [reflexivity|].
  intros H. discriminate H.
Qed.

(** The same example on IEEE-754 doubles, the numbers the program
    computes with. *)
Example percentage_example_binary64 :
  fst (fetchDeviceGroupAndCalculateCost (R:=unit) utc "d1" (Some 2%float)
         (pricingWorld 20 0))
  = Val (Cost {| baseCost := 200%float; finalCost := 160%float;
                 discountRate := 20%float; discountAmount := 40%float;
                 happyHourApplied := true |}).
Proof. vm_compute. reflexivity. Qed.

(** C4, as amended: when the first happy hour in range gives no
    percentage and a fixed_rate f > 0, then for a rate group with a
    non-zero price r the resolver returns baseCost = r * d and
    finalCost = f * d for a duration d > 0 (r * 1 and f * 1 for a
    duration d <= 0), discountAmount = baseCost - finalCost, and
    discountRate = discountAmount / baseCost * 100 when baseCost > 0 and
    0 otherwise. *)
Theorem C4_fixed_rate_discount (cal : Calendar) (R : Type) (w : World Q)
  (deviceId : string) (group : Group Q) (h : HappyHour Q) (d : Q) :
  nonEmpty deviceId = true ->
  rateGroupOf (store w) deviceId = Some group ->
  ~ (grp_price group == 0)%Q ->
  matchedWindow cal (store w) (now w) (grp_id group) = Some h ->
  (hh_discount_percentage h <= 0)%Q ->
  (0 < hh_fixed_rate h)%Q ->
  exists c,
    fst (fetchDeviceGroupAndCalculateCost (R:=R) cal deviceId (Some d) w)
    = Val (Cost c)
    /\ ((0 < d)%Q ->
        (baseCost c == grp_price group * d)%Q
        /\ (finalCost c == hh_fixed_rate h * d)%Q)
    /\ ((d <= 0)%Q ->
        (baseCost c == grp_price group * 1)%Q
        /\ (finalCost c == hh_fixed_rate h * 1)%Q)
    /\ (discountAmount c == baseCost c - finalCost c)%Q
    /\ ((0 < baseCost c)%Q ->
        (discountRate c == discountAmount c / baseCost c * 100)%Q)
    /\ ((baseCost c <= 0)%Q -> (discountRate c == 0)%Q).
Proof.
  intros Hid Hg Hr Hm Hp Hf. rewrite fetch_run. cbn [fst].
  apply Q_truthy in Hr.
  rewrite (priced_matched cal _ _ _ _ group h) by done.
  unfold applyDiscount.
  assert (gt0 (hh_discount_percentage h) = false) as ->.
  { destruct (gt0 _) eqn:E; [|done]. apply Q_gt0 in E.
    exfalso. by apply (Qlt_not_le _ _ E). }
  rewrite andb_false_r.
  assert (truthy (hh_fixed_rate h) = true) as ->.
  { apply Q_truthy. intros E. rewrite E in Hf. by apply Qlt_irrefl in Hf. }
  assert (gt0 (hh_fixed_rate h) = true) as -> by by apply Q_gt0.
  eexists. split; [reflexivity|].
  cbn [baseCost discountAmount finalCost discountRate andb].
  split; [|split; [|split; [|split]]].
  - intros Hd. by rewrite Q_validDuration_pos.
  - intros Hd. by rewrite Q_validDuration_nonpos.
  - reflexivity.
  - intros Hb. apply Q_gt0 in Hb. rewrite Hb. reflexivity.
  - intros Hb. destruct (gt0 _) eqn:E; [|reflexivity].
    apply Q_gt0 in E. exfalso. by apply (Qlt_not_le _ _ E).
Qed.

(** The example of the specification: r = 100, d = 2, f = 60 gives
    finalCost = 120, discountAmount = 80 and discountRate = 40. *)
Lemma C4_fixed_rate_discount_witness :
  exists c,
    fst (fetchDeviceGroupAndCalculateCost (R:=unit) utc "d1" (Some 2%Q)
           (pricingWorld 0 60))
    = Val (Cost c)
    /\ (finalCost c == 120)%Q /\ (discountAmount c == 80)%Q
    /\ (discountRate c == 40)%Q.
Proof.
  assert (~ (grp_price (g1 (num:=Q)) == 0)%Q) as Hr by (intros E; discriminate E).
  assert (hh_discount_percentage (mondayWindow (num:=Q) 0 60) <= 0)%Q as Hp
    by (vm_compute; discriminate).
  assert (0 < hh_fixed_rate (mondayWindow (num:=Q) 0 60))%Q as Hf
    by (vm_compute; reflexivity).
  destruct (C4_fixed_rate_discount utc unit (pricingWorld 0 60) "d1" g1
              (mondayWindow 0 60) 2%Q eq_refl eq_refl Hr eq_refl Hp Hf)
    as (c & Hc & Hpos & _ & Hd & Hrate & _).
  destruct Hpos as [Hb Hfin]; [reflexivity|].
  exists c. split; [exact Hc|].
  assert (baseCost c == 200)%Q as Hb' by (rewrite Hb; reflexivity).
  assert (finalCost c == 120)%Q as Hfin' by (rewrite Hfin; reflexivity).
  assert (discountAmount c == 80)%Q as Hd'.
  { rewrite Hd, Hb', Hfin'. reflexivity. }
  split; [exact Hfin'|]. split; [exact Hd'|].
  rewrite Hrate by (rewrite Hb'; reflexivity).
  rewrite Hd', Hb'. reflexivity.
Defined.

(** C4, as stated, fails for a duration of zero hours: the resolver
    prices one hour, so finalCost is 60 and not f * d = 0. *)
Lemma C4_zero_duration_counterexample :
  exists c,
    fst (fetchDeviceGroupAndCalculateCost (R:=unit) utc "d1" (Some 0%Q)
           (pricingWorld 0 60))
    = Val (Cost c)
    /\ (finalCost c == 60)%Q /\ ~ (finalCost c == 60 * 0)%Q.
Proof.
  eexists. split; [vm_compute; reflexivity|]. split; [reflexivity|].
  intros H. discriminate H.
Qed.

Example fixed_rate_example_binary64 :
  fst (fetchDeviceGroupAndCalculateCost (R:=unit) utc "d1" (Some 2%float)
         (pricingWorld 0 60))
  = Val (Cost {| baseCost := 200%float; finalCost := 120%float;
                 discountRate := 40%float; discountAmount := 80%float;
                 happyHourApplied := true |}).
Proof. vm_compute. reflexivity. Qed.

(** C5, as amended: the resolver never throws. Given a device id, it
    returns the zero-cost result when the device, its group or a
    non-zero price cannot be found; when only the happy-hours query
    fails it returns the undiscounted base cost; and its costs are
    non-negative provided the price is non-negative and the percentage
    of the applied happy hour is at most 100. *)
Theorem C5_resolver_total (cal : Calendar) (R : Type) (w : World Q)
  (deviceId : string) (d : option Q) :
  exists r w',
    fetchDeviceGroupAndCalculateCost (R:=R) cal deviceId d w = (Val r, w')
    /\ (nonEmpty deviceId = true ->
        exists c, r = Cost c
        /\ (rateGroupOf (store w) deviceId = None -> c = zeroCost)
        /\ (forall g, rateGroupOf (store w) deviceId = Some g ->
            ((grp_price g == 0)%Q -> c = zeroCost)
            /\ (~ (grp_price g == 0)%Q ->
                candidateWindows cal (store w) (now w) (grp_id g) = None ->
                c = noDiscount (grp_price g * validDuration d)%Q)
            /\ ((0 <= grp_price g)%Q ->
                (forall h, matchedWindow cal (store w) (now w) (grp_id g) = Some h ->
                           (hh_discount_percentage h <= 100)%Q) ->
                (0 <= baseCost c)%Q /\ (0 <= finalCost c)%Q))).
Proof.
  rewrite fetch_run. do 2 eexists. split; [reflexivity|].
  intros Hid. unfold priced. rewrite Hid.
  destruct (rateGroupOf (store w) deviceId) as [g|].
  2:{ exists zeroCost. split; [done|]. split; [done|]. intros g Hg. discriminate Hg. }
  destruct (truthy (grp_price g)) eqn:Hr.
  - apply Q_truthy in Hr. eexists. split; [reflexivity|].
    split; [intros Hn; discriminate Hn|].
    intros g' Hg'. injection Hg' as <-.
    split; [intros E; by destruct Hr|].
    split; [by intros _ ->|].
    intros Hprice Hpct. unfold matchedWindow in Hpct.
    pose proof (Q_validDuration_positive d) as Hv.
    assert (0 <= grp_price g * validDuration d)%Q as Hbase.
    { apply Qmult_le_0_compat; [done|by apply Qlt_le_weak]. }
    destruct (candidateWindows cal (store w) (now w) (grp_id g)) as [items|];
      [|by split].
    rewrite applyHappyHours_find.
    destruct (List.find _ items) as [h|]; [|by split].
    specialize (Hpct h eq_refl). unfold applyDiscount.
    destruct (truthy (hh_discount_percentage h) && gt0 (hh_discount_percentage h));
      [split; [done|by apply Q_discount_nonneg]|].
    destruct (truthy (hh_fixed_rate h) && gt0 (hh_fixed_rate h)) eqn:Hf;
      [|by split].
    apply andb_true_iff in Hf as [_ Hf]. apply Q_gt0 in Hf.
    split; [done|]. cbn [finalCost].
    apply Qmult_le_0_compat; by apply Qlt_le_weak.
  - apply Q_truthy_false in Hr. exists zeroCost. split; [done|].
    split; [done|]. intros g' Hg'. injection Hg' as <-.
    split; [done|]. split; [intros Hne; by destruct Hne|].
    intros _ _. by split.
Qed.

(** On the example of the specification the resolver returns a result
    whose final cost is not negative. *)
Lemma C5_resolver_total_witness :
  exists r w',
    fetchDeviceGroupAndCalculateCost (R:=unit) utc "d1" (Some 2%Q)
      (pricingWorld 20 0) = (Val r, w')
    /\ exists c, r = Cost c /\ (0 <= finalCost c)%Q.
Proof.
  destruct (C5_resolver_total utc unit (pricingWorld 20 0) "d1" (Some 2%Q))
    as (r & w' & Hrun & Hrest).
  destruct (Hrest eq_refl) as (c & Hc & _ & Hg).
  destruct (Hg g1 eq_refl) as (_ & _ & Hnonneg).
  exists r, w'. split; [exact Hrun|]. exists c. split; [exact Hc|].
  apply Hnonneg.
  - vm_compute. discriminate.
  - intros h Hh. vm_compute in Hh. injection Hh as <-. vm_compute. discriminate.
Defined.

(** C5, as stated, fails for a happy hour of more than 100 percent: at
    150 percent one hour at 100 costs -50. *)
Lemma C5_negative_cost_counterexample :
  exists c,
    fst (fetchDeviceGroupAndCalculateCost (R:=unit) utc "d1" (Some 1%Q)
           (pricingWorld 150 0))
    = Val (Cost c)
    /\ (finalCost c == -50)%Q /\ (finalCost c < 0)%Q.
Proof.
  eexists. split; [vm_compute; reflexivity|]. split; reflexivity.
Qed.

(** A failure of the happy-hours query alone does not give the
    zero-cost result: the base cost is returned undiscounted. *)
Example happy_hours_unreachable :
  fst (fetchDeviceGroupAndCalculateCost (R:=unit) utc "d1" (Some 2%Q)
         (exampleWorld mondayMorning
            (unreachable "happy_hours" (exampleStore [mondayWindow 20 0] []))
            freshSM))
  = Val (Cost (noDiscount (100 * 2)%Q)).
Proof. vm_compute. reflexivity. Qed.

(** ** The one-second tick *)

Section TickFacts.
Context {num : Type} {N : JsNum num}.
Variable cal : Calendar.

Lemma isYesterday_earlier (t endT : Z) :
  earlierDay cal endT t -> isYesterday cal t endT = true.
Proof.
  unfold earlierDay, isYesterday. intros H.
  repeat rewrite orb_true_iff. repeat rewrite Z.ltb_lt. lia.
Qed.

Lemma isYesterday_same (t endT : Z) :
  sameDay cal endT t -> isYesterday cal t endT = false.
Proof.
  unfold sameDay, calendarDay, isYesterday. intros H. injection H as -> -> ->.
  by rewrite !Z.ltb_irrefl.
Qed.

(** While the component does not hold an active session, a tick only
    refreshes the displayed time. *)
Lemma tick_inactive (w : World num) :
  isSessionActive (sm w) = false ->
  let w' := snd (tick cal w) in
  journal w' = journal w /\ store w' = store w /\ effects w' = effects w
  /\ timers w' = timers w.
Proof.
  intros Hact. unfold tick, updateRemainingTime.
  rewrite (bind_val _ _ w (sm w) w) by reflexivity.
  rewrite Hact. cbn [andb].
  destruct (outTime (sm w)) as [[endT|]|]; cbn [getTime]; unfold_monad; step;
    try done.
  destruct (endT - now w <=? 0); step; done.
Qed.

(** One run of the tick that nothing interrupts, on a tracked session
    whose out_time has passed on an earlier calendar day: it sends one
    update of that session, to status Closed with the monetary fields
    the pricing resolver gives for the span from in_time to out_time,
    then one session log of type Closed, then the update of the device
    to status Available with empty token and client_record; the session
    is no longer active afterwards, and a tick that starts after the
    end of this run sends nothing. *)
Lemma carried_over_run (w : World num) (sid : string) (endT : Z)
  (dev : Device) :
  isSessionActive (sm w) = true ->
  sessionId (sm w) = Some sid -> nonEmpty sid = true ->
  outTime (sm w) = Some (Instant endT) ->
  endT <= now w -> earlierDay cal endT (now w) ->
  deviceInfo (sm w) = Some dev -> nonEmpty (dev_id dev) = true ->
  collection_ok (store w) "session_logs" = true ->
  let c := priced cal (store w) (now w) (dev_id dev)
             (hoursBetween (newDate (inTime (sm w))) (Instant endT)) in
  let closing :=
    [UpdateSession sid
       {| p_status := Some "Closed"; p_out_time := None; p_duration := None;
          p_session_total := Some (finalCostOr0 c);
          p_total_amount := Some (finalCostOr0 c);
          p_amount_paid := Some (finalCostOr0 c);
          p_discount_amount := Some (discountAmountOr0 c);
          p_discount_rate := Some (discountRateOr0 c) |};
     CreateSessionLog
       {| log_session_id := sid; log_type := "Closed";
          log_session_amount := finalCostOr0 c |};
     UpdateDevice (dev_id dev)
       {| dp_status := Some "Available"; dp_token := Some "";
          dp_client_record := Some "" |}] in
  let w' := snd (tick cal w) in
  journal w' = (journal w ++ closing)%list
  /\ length (List.filter (setsStatus "Closed") closing) = 1%nat
  /\ length (List.filter (isLogOfType "Closed") closing) = 1%nat
  /\ store w' =
     patchDevices (dev_id dev) releasePatch
       (appendLog
          {| log_session_id := sid; log_type := "Closed";
             log_session_amount := finalCostOr0 c |}
          (patchSessions sid
             (closedPatch (finalCostOr0 c) (discountAmountOr0 c)
                (discountRateOr0 c))
             (store w)))
  /\ isSessionActive (sm w') = false
  /\ journal (snd (tick cal w')) = journal w'.
Proof.
  intros Hact Hsid Hne Hout Hle Hday Hdev Hdid Hlogs c closing w'.
  assert (journal w' = (journal w ++ closing)%list
          /\ store w' =
             patchDevices (dev_id dev) releasePatch
               (appendLog
                  {| log_session_id := sid; log_type := "Closed";
                     log_session_amount := finalCostOr0 c |}
                  (patchSessions sid
                     (closedPatch (finalCostOr0 c) (discountAmountOr0 c)
                        (discountRateOr0 c))
                     (store w)))
          /\ isSessionActive (sm w') = false) as (Hj & Hst & Hs).
  { subst w' closing c. unfold tick, updateRemainingTime.
    rewrite (bind_val _ _ w (sm w) w) by reflexivity.
    rewrite Hout, Hact, Hsid, Hdev, Hdid.
    cbn [getTime truthyId default newDate andb]. rewrite Hne.
    unfold_monad. step.
    assert ((endT - now w <=? 0) = true) as -> by (apply Z.leb_le; lia).
    rewrite (isYesterday_earlier _ _ Hday). step. cbn [andb].
    destruct (notificationShown (sm w)); cbn [negb]; step;
      rewrite fetch_run; step; rewrite update_run; step;
      unfold createSessionLog, updateDeviceRecord; step;
      rewrite ?collection_ok_patchSessions, ?Hlogs; step;
      destruct (findDevice _ _); step;
      (split; [rewrite <- !app_assoc; reflexivity | split; reflexivity]). }
  split; [exact Hj|]. split; [reflexivity|]. split; [reflexivity|].
  split; [exact Hst|]. split; [exact Hs|]. by apply tick_inactive.
Qed.

(** A tick on an expired session whose out_time is on the current
    calendar day sends no request at all and leaves the store as it
    is. *)
Lemma tick_same_day_frame (w : World num) (endT : Z) :
  outTime (sm w) = Some (Instant endT) ->
  endT <= now w -> sameDay cal endT (now w) ->
  let w' := snd (tick cal w) in
  journal w' = journal w /\ store w' = store w.
Proof.
  intros Hout Hle Hday. unfold tick, updateRemainingTime.
  rewrite (bind_val _ _ w (sm w) w) by reflexivity.
  rewrite Hout. cbn [getTime]. unfold_monad. step.
  assert ((endT - now w <=? 0) = true) as -> by (apply Z.leb_le; lia).
  rewrite (isYesterday_same _ _ Hday). rewrite andb_false_r. step.
  destruct (_ && negb _); step; done.
Qed.

(** It shows the notification and arms the logout once, when no
    notification is marked as shown. *)
Lemma tick_same_day_fresh (w : World num) (sid : string) (endT : Z) :
  isSessionActive (sm w) = true ->
  sessionId (sm w) = Some sid -> nonEmpty sid = true ->
  notificationShown (sm w) = false ->
  outTime (sm w) = Some (Instant endT) ->
  endT <= now w -> sameDay cal endT (now w) ->
  let w' := snd (tick cal w) in
  effects w' =
    (effects w ++
     [Notification
        "Your session time has ended. The system will log you out in 5 seconds."
        true])%list
  /\ timers w' = (timers w ++ [(5000, AutoLogout)])%list
  /\ notificationShown (sm w') = true.
Proof.
  intros Hact Hsid Hne Hflag Hout Hle Hday. unfold tick, updateRemainingTime.
  rewrite (bind_val _ _ w (sm w) w) by reflexivity.
  rewrite Hout, Hact, Hsid, Hflag. cbn [getTime truthyId andb negb]. rewrite Hne.
  unfold_monad. step.
  assert ((endT - now w <=? 0) = true) as -> by (apply Z.leb_le; lia).
  rewrite (isYesterday_same _ _ Hday). step. done.
Qed.

(** When a notification is already marked as shown, which is the state
    the "ending soon" warning leaves, the tick shows nothing and arms
    nothing, and the mark stays. *)
Lemma tick_same_day_notified (w : World num) (endT : Z) :
  notificationShown (sm w) = true ->
  outTime (sm w) = Some (Instant endT) ->
  endT <= now w -> sameDay cal endT (now w) ->
  let w' := snd (tick cal w) in
  effects w' = effects w /\ timers w' = timers w
  /\ notificationShown (sm w') = true.
Proof.
  intros Hflag Hout Hle Hday. unfold tick, updateRemainingTime.
  rewrite (bind_val _ _ w (sm w) w) by reflexivity.
  rewrite Hout, Hflag. cbn [getTime negb]. rewrite !andb_false_r.
  unfold_monad. step.
  assert ((endT - now w <=? 0) = true) as -> by (apply Z.leb_le; lia).
  rewrite (isYesterday_same _ _ Hday). rewrite andb_false_r. step. done.
Qed.

(** The logout armed by the tick: it clears the persisted login and the
    auth store, and asks for the kiosk lock with force. *)
Lemma autoLogout_run (w : World num) :
  let w' := snd (runCallback AutoLogout w) in
  localStorage w' !! "user_login_info" = None
  /\ localStorage w' !! "client_app_login" = None
  /\ auth_token (authStore w') = ""
  /\ In (KioskEvent "session-ended" true) (effects w')
  /\ In (1000, ReloadPage) (timers w').
Proof.
  unfold runCallback, autoLogout. unfold_monad. step.
  destruct (neutralino w); step.
  all: repeat split;
    try (rewrite ?lookup_delete_ne by done; by rewrite ?lookup_delete_eq);
    rewrite ?in_app_iff; simpl; tauto.
Qed.

End TickFacts.

(** A session that ended at 23:00 on Monday is closed by a run of the
    tick at 00:10 on Tuesday, at the price of its hour. *)
Example carried_over_run_example :
  exists cost : Q,
    journal (snd (tick utc carriedOverWorld))
    = [UpdateSession "s1"
         {| p_status := Some "Closed"; p_out_time := None; p_duration := None;
            p_session_total := Some cost; p_total_amount := Some cost;
            p_amount_paid := Some cost; p_discount_amount := Some 0%Q;
            p_discount_rate := Some 0%Q |};
       CreateSessionLog
         {| log_session_id := "s1"; log_type := "Closed";
            log_session_amount := cost |};
       UpdateDevice "d1"
         {| dp_status := Some "Available"; dp_token := Some "";
            dp_client_record := Some "" |}]
    /\ (cost == 100)%Q
    /\ isSessionActive (sm (snd (tick utc carriedOverWorld))) = false.
Proof.
  assert (earlierDay utc (utcInstant 2024 1 1 23 0) (now (carriedOverWorld (num:=Q))))
    as Hday
    by (right; split; [|right; split]; vm_compute; reflexivity).
  assert (utcInstant 2024 1 1 23 0 <= now (carriedOverWorld (num:=Q)))
    as Hle by (vm_compute; discriminate).
  destruct (carried_over_run utc carriedOverWorld "s1"
              (utcInstant 2024 1 1 23 0) d1
              eq_refl eq_refl eq_refl eq_refl Hle Hday eq_refl eq_refl eq_refl)
    as (Hj & _ & _ & _ & Hact & _).
  eexists. split; [exact Hj|]. split; [|exact Hact].
  vm_compute. reflexivity.
Qed.

(** In the store of the example the session ends Closed and the device
    Available, with its token cleared. *)
Example carried_over_example_store :
  let st : Store Q := store (snd (tick utc carriedOverWorld)) in
  option_map ses_status (findSession st "s1") = Some "Closed"
  /\ option_map dev_status (findDevice st "d1") = Some "Available"
  /\ option_map dev_token (findDevice st "d1") = Some ""
  /\ map log_type (session_logs st) = ["Closed"].
Proof. repeat split. Qed.

(** ** Overlapping runs of the tick *)

Section AsyncFacts.
Context {num R : Type}.

(** An asynchronous computation that, when nothing interrupts it, does
    what a computation without [await] does. *)
Definition uninterruptedIs {A} (a : Async num R A) (m : M num R A) : Prop :=
  forall l,
    fst (uninterrupted a l) = fst (m (live_world l))
    /\ live_world (snd (uninterrupted a l)) = snd (m (live_world l)).

Lemma uninterrupted_sync {A} (c : M num R A) : uninterruptedIs (sync c) c.
Proof. intros l. simpl. by destruct (c (live_world l)). Qed.

Lemma uninterrupted_await {A} (c : M num R A) : uninterruptedIs (await c) c.
Proof. intros l. simpl. by destruct (c (live_world l)). Qed.

Lemma uninterrupted_resume {A} (c : Async num R A) (l : Live num) :
  uninterrupted c l
  = match resume c l with
    | Finished o l' => (o, l')
    | Suspended rest l' => uninterrupted rest l'
    end.
Proof. by destruct c. Qed.

Lemma uninterrupted_abind {A B} (c : Async num R A) (k : A -> Async num R B) :
  forall l,
    uninterrupted (abind c k) l
    = match uninterrupted c l with
      | (Val a, l') => uninterrupted (k a) l'
      | (Ret r, l') => (Ret r, l')
      | (Throw, l') => (Throw, l')
      end.
Proof.
  revert c. fix IH 1. intros [stretch] l. simpl.
  destruct (stretch l) as [[a|r|] l'|rest l'].
  - symmetry. apply uninterrupted_resume.
  - reflexivity.
  - reflexivity.
  - apply IH.
Qed.

Lemma uninterrupted_atry {A} (body handler : Async num R A) :
  forall l,
    uninterrupted (atry body handler) l
    = match uninterrupted body l with
      | (Throw, l') => uninterrupted handler l'
      | o => o
      end.
Proof.
  revert body. fix IH 1. intros [stretch] l. simpl.
  destruct (stretch l) as [[a|r|] l'|rest l'].
  - reflexivity.
  - reflexivity.
  - symmetry. apply uninterrupted_resume.
  - apply IH.
Qed.

Lemma abind_is {A B} (a : Async num R A) (m : M num R A)
  (k : A -> Async num R B) (k' : A -> M num R B) :
  uninterruptedIs a m -> (forall x, uninterruptedIs (k x) (k' x)) ->
  uninterruptedIs (abind a k) (bind m k').
Proof.
  intros Ha Hk l. rewrite uninterrupted_abind. unfold bind.
  destruct (Ha l) as [Ho Hw].
  destruct (uninterrupted a l) as [o l'], (m (live_world l)) as [o' w'].
  simpl in Ho, Hw. subst o' w'.
  destruct o as [x|r|]; [apply Hk|done|done].
Qed.

Lemma atry_is {A} (a h : Async num R A) (m h' : M num R A) :
  uninterruptedIs a m -> uninterruptedIs h h' ->
  uninterruptedIs (atry a h) (tryCatch m h').
Proof.
  intros Ha Hh l. rewrite uninterrupted_atry. unfold tryCatch.
  destruct (Ha l) as [Ho Hw].
  destruct (uninterrupted a l) as [o l'], (m (live_world l)) as [o' w'].
  simpl in Ho, Hw. subst o' w'.
  destruct o as [x|r|]; [done|done|apply Hh].
Qed.

Lemma awhen_is (b : bool) (a : Async num R unit) (m : M num R unit) :
  uninterruptedIs a m -> uninterruptedIs (awhen b a) (when b m).
Proof.
  intros Ha. unfold awhen, when. destruct b; [done|].
  apply uninterrupted_sync.
Qed.

End AsyncFacts.

Lemma uninterrupted_acall {num R R'} (body : Async num R unit) (dflt : R) :
  forall l,
    uninterrupted (acall (R':=R') body dflt) l
    = match uninterrupted body l with
      | (Val _, l') => (Val dflt, l')
      | (Ret r, l') => (Val r, l')
      | (Throw, l') => (Throw, l')
      end.
Proof.
  revert body. fix IH 1. intros [stretch] l. simpl.
  destruct (stretch l) as [[a|r|] l'|rest l'].
  - reflexivity.
  - reflexivity.
  - reflexivity.
  - apply IH.
Qed.

Lemma acall_is {num R R'} (a : Async num R unit) (m : M num R unit) (dflt : R) :
  uninterruptedIs a m ->
  uninterruptedIs (acall (R':=R') a dflt) (call m dflt).
Proof.
  intros Ha l. rewrite uninterrupted_acall. unfold call.
  destruct (Ha l) as [Ho Hw].
  destruct (uninterrupted a l) as [o l'], (m (live_world l)) as [o' w'].
  simpl in Ho, Hw. subst o' w'.
  by destruct o as [x|r|].
Qed.

Section OverlapFacts.
Context {num : Type} {N : JsNum num}.
Variable cal : Calendar.

Lemma setDeviceInfoFetched_is {R} (device : Device) :
  uninterruptedIs (num:=num) (R:=R) (setDeviceInfoFetched device)
    (setDeviceInfo (Some device)).
Proof. intros l. done. Qed.

Ltac is_step :=
  first
    [ apply uninterrupted_sync
    | apply uninterrupted_await
    | apply setDeviceInfoFetched_is
    | apply acall_is
    | apply awhen_is
    | apply atry_is
    | apply abind_is; [|intros ?] ].

Lemma fetchDeviceGroupAndCalculateCostAsync_is {R} (deviceId : string)
  (durationHours : option num) :
  uninterruptedIs (R:=R)
    (fetchDeviceGroupAndCalculateCostAsync cal deviceId durationHours)
    (fetchDeviceGroupAndCalculateCost cal deviceId durationHours).
Proof.
  unfold fetchDeviceGroupAndCalculateCostAsync, fetchDeviceGroupAndCalculateCost.
  repeat (is_step;
          repeat match goal with
                 | |- uninterruptedIs (if ?b then _ else _) _ => destruct b
                 end).
Qed.

Lemma updateAsync_is {R} (id : string) (p : SessionPatch num) :
  uninterruptedIs (R:=R) (updateAsync id p) (update id p).
Proof. unfold updateAsync, update. repeat is_step. Qed.

(** A run of the tick that nothing interrupts is the run of
    [updateRemainingTime]: the two embeddings are one function. *)
Theorem updateRemainingTimeAsync_is (snap : SMState num) :
  uninterruptedIs (updateRemainingTimeAsync cal snap)
    (updateRemainingTime cal snap).
Proof.
  unfold updateRemainingTimeAsync, updateRemainingTime.
  apply acall_is.
  destruct (outTime snap) as [endD|]; [|repeat is_step].
  apply atry_is; [|is_step].
  apply abind_is; [is_step|intros t].
  destruct (getTime endD) as [endT|]; [|repeat is_step].
  destruct (endT - t <=? 0); [|is_step].
  apply abind_is; [is_step|intros _].
  apply abind_is; [is_step|intros _].
  apply abind_is; [|intros _; is_step].
  apply awhen_is. apply atry_is; [|is_step].
  apply abind_is; [is_step|intros deviceId].
  apply abind_is.
  { destruct (match deviceInfo snap with Some d => nonEmpty (dev_id d) | None => false end);
      [|is_step].
    apply atry_is; [|is_step].
    apply abind_is; [apply fetchDeviceGroupAndCalculateCostAsync_is|intros ?].
    is_step. }
  intros [[cost discountAmount] discountRate].
  apply abind_is; [apply updateAsync_is|intros _].
  apply abind_is; [is_step|intros _].
  apply abind_is; [|intros _; is_step].
  destruct deviceId; repeat is_step.
Qed.

End OverlapFacts.

(** C1 at the input where the code departs from it: the session [s1]
    of terminal [d1] that ended at 23:00 on Monday, tracked by the
    component at 00:10 on Tuesday, whether or not a notification has
    been shown. The interval fires once, and the responses arrive in
    the order of the requests. The run that the interval starts fetches
    the device and stores it; the new object in [deviceInfo] (and,
    before that, the notification flag when it was unset) makes
    [updateRemainingTime] a new function, so that the effect calls it
    again while the first run is still waiting, and so does every run
    thus started until one of them has marked the session as not
    active. When all the responses have arrived, the session has been
    updated to Closed six times (twelve times when the flag was unset),
    each time with the same amounts, as many Closed entries have been
    logged, and the device has been released as often. *)
Theorem C1_overlapping_runs_close_again (notified : bool) :
  let w : World Q :=
    with_sm (with_notificationShown notified (sm carriedOverWorld))
      carriedOverWorld in
  let start := intervalFires utc 3 (idle w) in
  let final := responses utc 3 72 start in
  let sent := journal (live_world (live final)) in
  let runs := if notified then 6%nat else 12%nat in
  exists cost : Q,
    let closed : Request Q :=
      UpdateSession "s1"
        {| p_status := Some "Closed"; p_out_time := None; p_duration := None;
           p_session_total := Some cost; p_total_amount := Some cost;
           p_amount_paid := Some cost; p_discount_amount := Some 0%Q;
           p_discount_rate := Some 0%Q |} in
    let logged : Request Q :=
      CreateSessionLog
        {| log_session_id := "s1"; log_type := "Closed";
           log_session_amount := cost |} in
    let released : Request Q :=
      UpdateDevice "d1"
        {| dp_status := Some "Available"; dp_token := Some "";
           dp_client_record := Some "" |} in
    (cost == 100)%Q
    /\ isSessionActive (sm w) = true
    /\ utcInstant 2024 1 1 23 0 <= now w
    /\ earlierDay utc (utcInstant 2024 1 1 23 0) (now w)
    /\ journal (live_world (live start)) = []
    /\ suspended final = []
    /\ effectPending final = false
    /\ List.filter (setsStatus "Closed") sent = replicate runs closed
    /\ List.filter (isLogOfType "Closed") sent = replicate runs logged
    /\ List.filter isDeviceUpdate sent = replicate runs released
    /\ length sent = (3 * runs)%nat
    /\ length (session_logs (store (live_world (live final)))) = runs.
Proof.
  exists (360000000 # 3600000)%Q.
  destruct notified; vm_compute;
    (split; [reflexivity|]); (split; [reflexivity|]);
    (split; [discriminate|]);
    (split; [right; split; [reflexivity|right; split; reflexivity]|]);
    repeat split.
Qed.

(** C2 at the input where the code departs from it. The tick of
    10:55:30 shows the "ending soon" warning and marks a notification as
    shown; the tick of 11:01, one minute after the end of the session on
    the same day, then shows nothing, arms no logout and sends no
    request: no "session ended" notification is ever emitted. *)
Theorem C2_warning_suppresses_expiry :
  let outT := utcInstant 2024 1 1 11 0 in
  let later := utcInstant 2024 1 1 11 1 in
  let w1 : World Q := snd (tick utc endingSoonWorld) in
  let w2 := snd (tick utc (with_now later w1)) in
  effects w1
  = [Notification "Your session will end in 4 minutes. Please save your work." true]
  /\ notificationShown (sm w1) = true
  /\ isSessionActive (sm w1) = true
  /\ outT <= later /\ sameDay utc outT later
  /\ effects w2 = effects w1
  /\ List.filter isEndedNotification (effects w2) = []
  /\ timers w2 = []
  /\ journal w2 = [].
Proof. vm_compute. repeat split; discriminate. Qed.

(** ** Extension *)

Section ExtendFacts.
Context {num : Type} {N : JsNum num}.
Variable cal : Calendar.


End ExtendFacts.


(** ** The 30-second check *)

Section PollFacts.
Context {num : Type} {N : JsNum num}.

(** A listed record is in the collection, which can be reached, and
    satisfies the filter of the request. *)
Lemma listRecords_head {A} name (coll : Store num -> list A) page perPage
  filter newestFirst (st : Store num) x rest :
  listRecords name coll page perPage filter newestFirst st = Some (x :: rest) ->
  collection_ok st name = true /\ In x (coll st) /\ filter x = true.
Proof.
  unfold listRecords. destruct (collection_ok st name); [|done].
  intros H; injection H as H. split; [done|].
  assert (In x (List.filter filter (coll st))) as Hin.
  { assert (x ∈ x :: rest) as Hx by left. rewrite <- H in Hx.
    apply subseteq_take, subseteq_drop, list_elem_of_In in Hx.
    destruct newestFirst; [by apply in_rev|done]. }
  by apply filter_In in Hin.
Qed.

Lemma listed_session_found name page perPage filter newestFirst
  (st : Store num) (x : Session num) rest :
  listRecords name sessions page perPage filter newestFirst st = Some (x :: rest) ->
  name = "sessions" ->
  exists y, findSession st (ses_id x) = Some y.
Proof.
  intros H ->. apply listRecords_head in H as (Hok & Hin & _).
  unfold findSession, findRecord. rewrite Hok. by apply find_of_In.
Qed.

Lemma open_status_not_closed deviceId (s : Session num) :
  openSessionFilter deviceId s = true -> String.eqb (ses_status s) "Closed" = false.
Proof.
  unfold openSessionFilter. rewrite andb_true_iff, !orb_true_iff.
  intros [_ [[[H|H]|H]|H]]; apply String.eqb_eq in H; by rewrite H.
Qed.

(** A check that reads the client-app flag as set, on a device whose
    open session has expired, on whatever day, sends one update of that
    session that carries the status Closed and nothing else, and no
    other request (no session log, no device update); it clears the auth
    store and the persisted login and client-app items, asks for the
    kiosk lock with force, arms the reload of the page, and reports no
    active session. *)
Lemma client_app_expiry_run (w : World num) (snap : SSMState num)
  (deviceId : string) (session : Session num) (rest : list (Session num))
  (outT : Z) :
  nonEmpty deviceId = true ->
  isClientApp snap = true ->
  listRecords "sessions" sessions 1 1 (openSessionFilter deviceId) true (store w)
  = Some (session :: rest) ->
  ses_out_time session = Some outT -> outT <= now w ->
  let run := checkForActiveSessions (Some deviceId) snap w in
  let w' := snd run in
  fst run = Val (Some false)
  /\ journal w' =
     (journal w ++ [UpdateSession (ses_id session) (statusPatch "Closed")])%list
  /\ statusPatch (num:=num) "Closed" =
     {| p_status := Some "Closed"; p_out_time := None; p_duration := None;
        p_session_total := None; p_total_amount := None;
        p_amount_paid := None; p_discount_amount := None;
        p_discount_rate := None |}
  /\ authStore w' = {| auth_token := ""; auth_record := None |}
  /\ localStorage w' !! "user_login_info" = None
  /\ localStorage w' !! "client_app_login" = None
  /\ effects w' =
     (effects w ++ [KioskEvent "client-session-expired" true;
                    SessionStateChange false None])%list
  /\ timers w' = (timers w ++ [(1000, ReloadPage)])%list
  /\ effects (snd (runCallback ReloadPage w')) = (effects w' ++ [Reload])%list.
Proof.
  intros Hid Hclient Hlist Hout Hle.
  pose proof (listRecords_head _ _ _ _ _ _ _ _ _ Hlist) as (_ & _ & Hopen).
  apply open_status_not_closed in Hopen.
  destruct (listed_session_found _ _ _ _ _ _ _ _ Hlist eq_refl) as (y & Hfind).
  unfold checkForActiveSessions, runCallback. cbn [truthyId default].
  rewrite Hid, Hclient. unfold_monad. unfold getList. step.
  rewrite Hlist. step. rewrite Hout. step.
  assert ((now w <? outT) = false) as -> by (apply Z.ltb_ge; lia).
  rewrite Hopen. step. unfold updateSessionRecord. rewrite Hfind. step.
  repeat split; try done.
  - rewrite lookup_delete_ne by done. by rewrite lookup_delete_eq.
  - by rewrite lookup_delete_eq.
  - by rewrite <- app_assoc.
Qed.

(** The flag of the state is the one the mount effect derives from the
    persisted item. *)
Lemma detectClientAppLogin_flag (w : World num) (v : string) :
  localStorage w !! "client_app_login" = Some (JText v) ->
  nonEmpty v = true ->
  isClientApp (ssm (snd (detectClientAppLogin w))) = true.
Proof.
  intros Hitem Hv. unfold detectClientAppLogin.
  rewrite (bind_val _ _ w (Some (JText v)) w) by (unfold get; by rewrite Hitem).
  destruct v; [done|]. reflexivity.
Qed.

(** A check that reads the client-app flag as unset, on a device whose
    open session has expired, sends no request and leaves the auth
    store, the local storage and the timers as they are; it reports no
    active session to the parent. *)
Lemma poll_expired_unflagged (w : World num) (snap : SSMState num)
  (deviceId : string) (session : Session num) (rest : list (Session num))
  (outT : Z) :
  nonEmpty deviceId = true ->
  isClientApp snap = false ->
  listRecords "sessions" sessions 1 1 (openSessionFilter deviceId) true (store w)
  = Some (session :: rest) ->
  ses_out_time session = Some outT -> outT <= now w ->
  let run := checkForActiveSessions (Some deviceId) snap w in
  let w' := snd run in
  fst run = Val (Some false)
  /\ journal w' = journal w /\ store w' = store w
  /\ authStore w' = authStore w /\ localStorage w' = localStorage w
  /\ timers w' = timers w
  /\ effects w' = (effects w ++ [SessionStateChange false None])%list
  /\ isClientApp (ssm w') = isClientApp (ssm w).
Proof.
  intros Hid Hclient Hlist Hout Hle.
  unfold checkForActiveSessions. cbn [truthyId default].
  rewrite Hid, Hclient. unfold_monad. unfold getList. step.
  rewrite Hlist. step. rewrite Hout. step.
  assert ((now w <? outT) = false) as -> by (apply Z.ltb_ge; lia).
  step. repeat split; done.
Qed.

(** So do any number of firings of such a check. *)
Lemma polls_expired_unflagged (snap : SSMState num) (deviceId : string)
  (session : Session num) (rest : list (Session num)) (outT : Z) (ts : list Z) :
  nonEmpty deviceId = true ->
  isClientApp snap = false ->
  ses_out_time session = Some outT ->
  Forall (fun t => outT <= t) ts ->
  forall w : World num,
  listRecords "sessions" sessions 1 1 (openSessionFilter deviceId) true (store w)
  = Some (session :: rest) ->
  let w' := foldl (pollAt deviceId snap) w ts in
  journal w' = journal w /\ store w' = store w
  /\ authStore w' = authStore w /\ localStorage w' = localStorage w
  /\ timers w' = timers w
  /\ effects w' =
     (effects w ++ replicate (length ts) (SessionStateChange false None))%list
  /\ isClientApp (ssm w') = isClientApp (ssm w).
Proof.
  intros Hid Hclient Hout Hts.
  induction Hts as [|t ts Ht Hts IH]; intros w Hlist; cbn [foldl length replicate].
  { rewrite app_nil_r. repeat split; done. }
  destruct (poll_expired_unflagged (with_now t w) snap deviceId session rest
              outT Hid Hclient Hlist Hout Ht)
    as (_ & Hj & Hs & Ha & Hl & Ht' & He & Hc).
  fold (pollAt deviceId snap w t) in Hj, Hs, Ha, Hl, Ht', He, Hc.
  destruct (IH (pollAt deviceId snap w t)) as (Hj' & Hs' & Ha' & Hl' & Ht'' & He' & Hc').
  { by rewrite Hs. }
  cbv zeta. rewrite Hj', Hs', Ha', Hl', Ht'', He', Hc', Hj, Hs, Ha, Hl, Ht', He, Hc.
  rewrite <- app_assoc. repeat split; done.
Qed.

(** The mount stores the persisted flag in the state and calls the check
    of the first render. *)
Lemma mount_run (w : World num) (deviceId v : string) :
  nonEmpty deviceId = true ->
  localStorage w !! "client_app_login" = Some (JText v) ->
  nonEmpty v = true ->
  let w0 :=
    with_ssm (with_isChecking true (with_isClientApp true initialSSM)) w in
  snd (mount (Some deviceId) w)
  = snd (checkForActiveSessions (Some deviceId) initialSSM w0)
  /\ isClientApp (ssm w0) = true.
Proof.
  intros Hid Hitem Hv. split; [|reflexivity].
  unfold mount, detectClientAppLogin. cbn [truthyId]. rewrite Hid.
  unfold when at 1, setIsChecking, setIsClientApp, setSSM.
  unfold bind at 1 2 3, modify at 1, get. step. rewrite Hitem.
  destruct v; [done|]. unfold modify at 1 2. step.
  unfold bind, ret. by destruct (checkForActiveSessions _ _ _) as [[] ?].
Qed.

End PollFacts.

(** The example of a check that reads the flag as set, at 11:01, on a
    session that ended at 11:00 of the same day. *)
Example client_app_expiry_example :
  let w : World Q := clientExpiredWorld in
  let w' := snd (checkForActiveSessions (Some "d1") (ssm w) w) in
  sameDay utc (utcInstant 2024 1 1 11 0) (now w)
  /\ journal w' = [UpdateSession "s1" (statusPatch "Closed")]
  /\ effects w'
     = [KioskEvent "client-session-expired" true; SessionStateChange false None].
Proof. repeat split; vm_compute; reflexivity. Qed.

(** C10, where the code departs from it: when the client-app item is
    persisted and the open session of the device has expired, the
    mounted component holds the flag in its state, yet the check it
    calls on mount and every firing of its 30-second interval send no
    request, so the session is not written as Closed; the auth store,
    the local storage (the login and client-app items included) and the
    timers stay as they were, so nobody is logged out and no reload is
    armed; each check only reports no active session to the parent. *)
Theorem C10_mounted_poll_skips_close {num : Type} {N : JsNum num}
  (w : World num) (deviceId v : string) (session : Session num)
  (rest : list (Session num)) (outT : Z) (ts : list Z) :
  nonEmpty deviceId = true ->
  localStorage w !! "client_app_login" = Some (JText v) ->
  nonEmpty v = true ->
  listRecords "sessions" sessions 1 1 (openSessionFilter deviceId) true (store w)
  = Some (session :: rest) ->
  ses_out_time session = Some outT -> outT <= now w ->
  Forall (fun t => outT <= t) ts ->
  let w' := mounted deviceId w ts in
  isClientApp (ssm w') = true
  /\ journal w' = journal w /\ store w' = store w
  /\ authStore w' = authStore w /\ localStorage w' = localStorage w
  /\ timers w' = timers w
  /\ effects w' =
     (effects w
      ++ replicate (S (length ts)) (SessionStateChange false None))%list.
Proof.
  intros Hid Hitem Hv Hlist Hout Hle Hts. unfold mounted.
  destruct (mount_run w deviceId v Hid Hitem Hv) as [-> Hflag].
  set (w0 := with_ssm _ w) in *.
  destruct (poll_expired_unflagged w0 initialSSM deviceId session rest outT
              Hid eq_refl Hlist Hout Hle)
    as (_ & Hj & Hs & Ha & Hl & Ht & He & Hc).
  set (w1 := snd (checkForActiveSessions (Some deviceId) initialSSM w0)) in *.
  destruct (polls_expired_unflagged initialSSM deviceId session rest outT ts
              Hid eq_refl Hout Hts w1) as (Hj' & Hs' & Ha' & Hl' & Ht' & He' & Hc').
  { by rewrite Hs. }
  cbv zeta. rewrite Hj', Hs', Ha', Hl', Ht', He', Hc', Hj, Hs, Ha, Hl, Ht, He, Hc.
  cbn [replicate]. rewrite <- app_assoc. repeat split; done.
Qed.

(** The component mounted at 11:01 with the client-app item persisted,
    on a session that ended at 11:00, and two firings of its interval:
    nothing is sent. *)
Lemma C10_mounted_poll_skips_close_witness :
  let w : World Q := clientExpiredWorld in
  let w' := mounted "d1" w [utcInstant 2024 1 1 11 1 + 30000;
                            utcInstant 2024 1 1 11 2] in
  localStorage w !! "client_app_login" = Some (JText "true")
  /\ isClientApp (ssm w') = true
  /\ journal w' = []
  /\ authStore w' = authStore w
  /\ localStorage w' = localStorage w
  /\ timers w' = [].
Proof.
  assert (utcInstant 2024 1 1 11 0 <= now (clientExpiredWorld (num:=Q))) as Hle
    by (vm_compute; discriminate).
  assert (Forall (fun t => utcInstant 2024 1 1 11 0 <= t)
            [utcInstant 2024 1 1 11 1 + 30000; utcInstant 2024 1 1 11 2]) as Hts
    by (repeat constructor; vm_compute; discriminate).
  destruct (C10_mounted_poll_skips_close (num:=Q) clientExpiredWorld "d1" "true"
              (s1 "Active" (utcInstant 2024 1 1 10 0) (utcInstant 2024 1 1 11 0))
              [] (utcInstant 2024 1 1 11 0)
              [utcInstant 2024 1 1 11 1 + 30000; utcInstant 2024 1 1 11 2]
              eq_refl eq_refl eq_refl eq_refl eq_refl Hle Hts)
    as (Hc & Hj & _ & Ha & Hl & Ht & _).
  split; [reflexivity|]. split; [exact Hc|]. split; [exact Hj|].
  split; [exact Ha|]. split; [exact Hl|exact Ht].
Defined.

Section PromoteFacts.
Context {num : Type} {N : JsNum num}.
Variable cal : Calendar.

(** The check of a device whose open session is still valid sends the
    status Active exactly when the session found has another status. *)
Lemma poll_valid (w : World num) (snap : SSMState num) (deviceId : string)
  (session : Session num) (rest : list (Session num)) (outT : Z) :
  nonEmpty deviceId = true ->
  listRecords "sessions" sessions 1 1 (openSessionFilter deviceId) true (store w)
  = Some (session :: rest) ->
  ses_out_time session = Some outT -> now w < outT ->
  let w' := snd (checkForActiveSessions (Some deviceId) snap w) in
  journal w' =
    (journal w ++
     if String.eqb (ses_status session) "Active" then []
     else [UpdateSession (ses_id session) (statusPatch "Active")])%list
  /\ (String.eqb (ses_status session) "Active" = true -> store w' = store w).
Proof.
  intros Hid Hlist Hout Hlt.
  unfold checkForActiveSessions. cbn [truthyId default].
  rewrite Hid. unfold_monad. unfold getList. step.
  rewrite Hlist. step. rewrite Hout. step.
  assert ((now w <? outT) = true) as -> by (apply Z.ltb_lt; lia).
  step. destruct (String.eqb (ses_status session) "Active"); step.
  - split; [by rewrite app_nil_r|done].
  - unfold updateSessionRecord. destruct (findSession _ _); step;
      (split; [done|intros H; discriminate H]).
Qed.

(** Any number of checks of a session that is Active and still valid
    sends nothing. *)
Lemma poll_active_idempotent (w : World num) (snap : SSMState num)
  (deviceId : string) (session : Session num) (rest : list (Session num))
  (outT : Z) (ts : list Z) :
  nonEmpty deviceId = true ->
  listRecords "sessions" sessions 1 1 (openSessionFilter deviceId) true (store w)
  = Some (session :: rest) ->
  ses_out_time session = Some outT ->
  ses_status session = "Active" ->
  Forall (fun t => t < outT) ts ->
  journal (foldl (pollAt deviceId snap) w ts) = journal w
  /\ store (foldl (pollAt deviceId snap) w ts) = store w.
Proof.
  intros Hid Hlist Hout Hst Hts. revert w Hlist.
  induction Hts as [|t ts Ht Hts IH]; intros w Hlist; [done|].
  cbn [foldl].
  destruct (poll_valid (with_now t w) snap deviceId session rest outT
              Hid Hlist Hout Ht) as [Hj Hs].
  rewrite Hst in Hj, Hs. cbn [String.eqb] in Hj, Hs.
  rewrite app_nil_r in Hj. specialize (Hs eq_refl).
  destruct (IH (pollAt deviceId snap w t)) as [Hj' Hs'].
  { unfold pollAt. by rewrite Hs. }
  split.
  - rewrite Hj'. exact Hj.
  - rewrite Hs'. exact Hs.
Qed.

(** The discovery of SessionManager sends the status Active exactly
    when the session found is Booked or Occupied. *)
Lemma checkExistingSession_writes (w : World num) (deviceId : string)
  (session : Session num) (rest : list (Session num)) :
  storedDeviceId (R:=option (Session num)) w = (Val (Some deviceId), w) ->
  listRecords "sessions" sessions 1 50 (fun _ => true) true (store w)
  = Some (session :: rest) ->
  journal (snd (checkExistingSession cal w)) =
    (journal w ++
     if String.eqb (ses_status session) "Booked"
        || String.eqb (ses_status session) "Occupied"
     then [UpdateSession (ses_id session) (statusPatch "Active")]
     else [])%list.
Proof.
  intros Hdev Hlist. unfold checkExistingSession, hookGetList, positionalOptions.
  cbn [opt_page opt_perPage opt_newestFirst opt_filter default].
  unfold_monad. unfold getList. rewrite Hdev. step. rewrite Hlist. step.
  generalize (String.eqb (ses_status session) "Booked"),
    (String.eqb (ses_status session) "Occupied"),
    (String.eqb (ses_status session) "Active"),
    (String.eqb (ses_status session) "Extended"),
    (String.eqb (ses_status session) "Closed").
  intros bBooked bOccupied bActive bExtended bClosed.
  destruct (ses_in_time session), (ses_out_time session) as [o|]; step.
  all: destruct bBooked, bOccupied, bActive, bExtended, bClosed; step.
  all: rewrite ?update_run; step.
  all: repeat match goal with
         | |- context [if ?b then _ else _] => destruct b; step
         end.
  all: rewrite ?fetch_run; step.
  all: repeat match goal with
         | |- context [if ?b then _ else _] => destruct b; step
         end.
  all: by rewrite ?app_nil_r.
Qed.

End PromoteFacts.

(** C7, as amended: for a device whose open session has not passed its
    out_time, the check of SessionStateManager sends the status Active
    exactly when the session found has a status other than Active (so
    for Booked, Occupied and also Extended), and any number of such
    checks of a session that is already Active sends nothing; the
    discovery of SessionManager, when it finds that session, sends the
    status Active exactly when the session is Booked or Occupied. *)
Theorem C7_promote_to_active {num : Type} {N : JsNum num} (cal : Calendar)
  (w : World num) (snap : SSMState num) (deviceId : string)
  (session : Session num) (rest : list (Session num)) (outT : Z) :
  nonEmpty deviceId = true ->
  listRecords "sessions" sessions 1 1 (openSessionFilter deviceId) true (store w)
  = Some (session :: rest) ->
  ses_out_time session = Some outT -> now w < outT ->
  journal (snd (checkForActiveSessions (Some deviceId) snap w)) =
    (journal w ++
     if String.eqb (ses_status session) "Active" then []
     else [UpdateSession (ses_id session) (statusPatch "Active")])%list
  /\ (ses_status session = "Active" ->
      forall ts, Forall (fun t => t < outT) ts ->
                 journal (foldl (pollAt deviceId snap) w ts) = journal w)
  /\ (storedDeviceId (R:=option (Session num)) w = (Val (Some deviceId), w) ->
      forall rest',
        listRecords "sessions" sessions 1 50 (fun _ => true) true (store w)
        = Some (session :: rest') ->
        journal (snd (checkExistingSession cal w)) =
          (journal w ++
           if String.eqb (ses_status session) "Booked"
              || String.eqb (ses_status session) "Occupied"
           then [UpdateSession (ses_id session) (statusPatch "Active")]
           else [])%list).
Proof.
  intros Hid Hlist Hout Hlt. split; [|split].
  - by apply (poll_valid w snap deviceId session rest outT).
  - intros Hst ts Hts.
    by apply (poll_active_idempotent w snap deviceId session rest outT ts).
  - intros Hdev rest' Hall.
    by apply (checkExistingSession_writes cal w deviceId session rest').
Qed.

(** On an Active session seen at 10:30, half an hour before its end,
    neither check sends anything, however often the first one runs. *)
Lemma C7_promote_to_active_witness :
  journal (snd (checkForActiveSessions (Some "d1") (ssm runningWorld)
                  (runningWorld (num:=Q)))) = []
  /\ journal (foldl (pollAt "d1" (ssm runningWorld)) (runningWorld (num:=Q))
                [utcInstant 2024 1 1 10 31; utcInstant 2024 1 1 10 32]) = []
  /\ journal (snd (checkExistingSession utc (runningWorld (num:=Q)))) = [].
Proof.
  assert (now (runningWorld (num:=Q)) < utcInstant 2024 1 1 11 0) as Hlt
    by (vm_compute; reflexivity).
  destruct (C7_promote_to_active (num:=Q) utc runningWorld (ssm runningWorld) "d1"
              (s1 "Active" (utcInstant 2024 1 1 10 0) (utcInstant 2024 1 1 11 0))
              [] (utcInstant 2024 1 1 11 0) eq_refl eq_refl eq_refl Hlt)
    as (Hpoll & Hiter & Hdisc).
  split; [exact Hpoll|]. split.
  - apply (Hiter eq_refl). repeat constructor.
  - exact (Hdisc eq_refl [] eq_refl).
Defined.

(** C7, as stated, fails for an Extended session: the check of
    SessionStateManager sets it back to Active although it is neither
    Booked nor Occupied. *)
Lemma C7_extended_session_counterexample :
  ses_status (s1 (num:=Q) "Extended" (utcInstant 2024 1 1 10 0)
                (utcInstant 2024 1 1 12 0)) = "Extended"
  /\ listRecords "sessions" sessions 1 1 (openSessionFilter "d1") true
       (store (extendedWorld (num:=Q)))
     = Some [s1 "Extended" (utcInstant 2024 1 1 10 0) (utcInstant 2024 1 1 12 0)]
  /\ now (extendedWorld (num:=Q)) < utcInstant 2024 1 1 12 0
  /\ journal (snd (checkForActiveSessions (Some "d1") (ssm extendedWorld)
                     (extendedWorld (num:=Q))))
     = [UpdateSession "s1" (statusPatch "Active")].
Proof. repeat split; vm_compute; reflexivity. Qed.

(** ** The kiosk lock *)

(** C9, as amended: a session-state change with isActive = false locks
    the terminal whatever the login state (kiosk window, full screen,
    key filter installed, which cancels Ctrl, Alt, Meta combinations and
    Tab); with isActive = true it unlocks the terminal only when the
    handler sees a logged-in user, and otherwise leaves the desktop as
    it is. The native window calls are assumed to succeed. *)
Theorem C9_kiosk_mapping {num : Type} {N : JsNum num} (w : World num)
  (snap : AppState num) (isActive : bool) (sessionData : option (Session num)) :
  os_fails (desktop w) = false ->
  let w' := snd (handleSessionStateChange snap isActive sessionData w) in
  hasActiveSession (app w') = isActive
  /\ (isActive = false ->
      window (desktop w') = kioskWindow (desktop w)
      /\ fullScreen (desktop w') = true
      /\ keyboardHandler (desktop w') = true
      /\ isKioskMode (app w') = true
      /\ forall e, keyBlocked (desktop w') e = keyFilter e)
  /\ (isActive = true -> isLoggedIn snap = true ->
      window (desktop w') = normalWindow
      /\ fullScreen (desktop w') = false
      /\ keyboardHandler (desktop w') = false
      /\ isKioskMode (app w') = false
      /\ forall e, keyBlocked (desktop w') e = false)
  /\ (isActive = true -> isLoggedIn snap = false ->
      desktop w' = desktop w).
Proof.
  intros Hos. unfold handleSessionStateChange, enableKioskMode, disableKioskMode,
    native, nativeIsFullScreen, keyBlocked.
  unfold_monad.
  destruct isActive, (isLoggedIn snap) eqn:Hlog,
    (fullScreen (desktop w)) eqn:Hfs, (keyboardHandler (desktop w)) eqn:Hk;
  repeat (progress (step;
    cbn [os_fails with_window with_fullScreen with_centered with_keyboardHandler
         fullScreen window keyboardHandler screen_width screen_height centered];
    rewrite ?Hos, ?Hfs, ?Hk)).
  all: repeat split; try done.
  all: intros H; discriminate H.
Qed.

(** With no active session the terminal of the example ends locked,
    and the filter cancels Tab. *)
Lemma C9_kiosk_mapping_witness :
  let w' := snd (handleSessionStateChange (app (runningWorld (num:=Q))) false None
                   runningWorld) in
  fullScreen (desktop w') = true
  /\ win_borderless (window (desktop w')) = true
  /\ win_alwaysOnTop (window (desktop w')) = true
  /\ win_maximize (window (desktop w')) = true
  /\ keyBlocked (desktop w')
       {| ctrlKey := false; altKey := false; metaKey := false; key := "Tab" |}
     = true.
Proof.
  destruct (C9_kiosk_mapping (num:=Q) runningWorld (app runningWorld) false
              None eq_refl)
    as (_ & Hlock & _).
  destruct (Hlock eq_refl) as (Hw & Hf & _ & _ & Hkeys).
  cbn zeta. rewrite Hw, Hf, Hkeys. repeat split.
Defined.

(** C9, as stated, fails when no user is logged in: the report of an
    active session leaves the terminal locked. *)
Lemma C9_not_logged_in_counterexample :
  let w : World Q := runningWorld in
  let w' := snd (handleSessionStateChange (app w) true
                   (Some (s1 "Active" (utcInstant 2024 1 1 10 0)
                            (utcInstant 2024 1 1 11 0))) w) in
  isLoggedIn (app w) = false
  /\ hasActiveSession (app w') = true
  /\ desktop w' = lockedDesktop
  /\ fullScreen (desktop w') = true
  /\ keyboardHandler (desktop w') = true.
Proof. repeat split. Qed.

(** ** Auto-login from the device token *)

Section TokenFacts.
Context {num : Type} {N : JsNum num}.
Variable decodePayload : string -> option Claims.
Variable parsesAsJson : string -> bool.
Variable sdkIsValid : Z -> string -> bool.

Lemma validateToken_run {R} (token : string) (w : World num) :
  validateToken (R:=R) decodePayload token w
  = (Val (tokenAccepted decodePayload (now w) token), w).
Proof.
  unfold validateToken, tokenAccepted, decode. unfold_monad.
  destruct (nonEmpty token); step; [|done].
  destruct (splitDots token) as [|a [|b [|c [|e l]]]]; step; try done.
  destruct (decodePayload b) as [payload|]; step; [|done].
  destruct (negb (claim_exp payload =? 0) && (claim_exp payload <? now w / 1000));
    step; done.
Qed.

(** C8, as amended: when the payload of the device token names no user,
    the check returns false and calls nothing upward (it emits no
    effect and sends no request); but a token that is new and passes
    validateToken has by then been saved in the auth store, which is
    not restored. *)
Theorem C8_no_user_id (w : World num) (deviceId lastChecked : string)
  (device : Device) :
  nonEmpty deviceId = true ->
  findDevice (store w) deviceId = Some device ->
  hasUserId decodePayload (dev_token device) = false ->
  let run :=
    checkDeviceTokenAndLogin decodePayload parsesAsJson sdkIsValid
      (Some deviceId) lastChecked w in
  let w' := snd run in
  fst run = Val false
  /\ effects w' = effects w
  /\ journal w' = journal w
  /\ authStore w' =
     if nonEmpty (dev_token device)
        && negb (String.eqb (dev_token device) lastChecked)
        && tokenAccepted decodePayload (now w) (dev_token device)
     then {| auth_token := dev_token device;
             auth_record := parsedClientRecord parsesAsJson device |}
     else authStore w.
Proof.
  intros Hid Hfind Hno. unfold findDevice in Hfind.
  unfold checkDeviceTokenAndLogin, parsedClientRecord. cbn [truthyId default].
  rewrite Hid. unfold_monad. unfold getOne. step. rewrite Hfind. step.
  destruct (nonEmpty (dev_token device)) eqn:Htok; step.
  2:{ destruct (nonEmpty lastChecked); step; done. }
  destruct (String.eqb (dev_token device) lastChecked); step; [done|].
  unfold setLastCheckedToken, modify. step.
  rewrite validateToken_run. step.
  destruct (tokenAccepted decodePayload (now w) (dev_token device)); step;
    [|done].
  unfold authStoreSave, setItem, decode. unfold_monad.
  unfold hasUserId in Hno.
  destruct (negb (isBlank (dev_client_record device))
            && parsesAsJson (dev_client_record device)); step;
    rewrite ?Htok; step.
  all: destruct (sdkIsValid (now w) (dev_token device)); step; rewrite ?Htok; step.
  all: revert Hno;
    destruct (splitDots (dev_token device)) as [|a [|b [|c [|e l]]]]; step;
    try done.
  all: destruct (decodePayload b) as [tokenData|]; step; try done.
  all: intros Hno; rewrite Hno; step; done.
Qed.

End TokenFacts.

(** A token whose payload is the empty object is pushed to the terminal:
    the check fails without calling upward. *)
Lemma C8_no_user_id_witness :
  let run :=
    checkDeviceTokenAndLogin decodeEmptyObject (fun _ => true) (fun _ _ => false)
      (Some "d1") "" (tokenWorld (num:=Q)) in
  fst run = Val false
  /\ List.filter isAutoLogin (effects (snd run)) = [].
Proof.
  destruct (C8_no_user_id (num:=Q) decodeEmptyObject (fun _ => true)
              (fun _ _ => false) tokenWorld "d1" ""
              {| dev_id := "d1"; dev_group := "g1"; dev_status := "Occupied";
                 dev_token := emptyPayloadToken; dev_client_record := "" |}
              eq_refl eq_refl eq_refl)
    as (Hres & Heff & _).
  cbn zeta. split; [exact Hres|]. rewrite Heff. reflexivity.
Defined.

(** C8, as stated, fails on its second half: after the failed check the
    auth store no longer holds the session of before, but the token of
    the device, and the persisted copy of the session is gone. *)
Lemma C8_auth_store_overwritten_counterexample :
  let w : World Q := tokenWorld in
  let run :=
    checkDeviceTokenAndLogin decodeEmptyObject (fun _ => true) (fun _ _ => false)
      (Some "d1") "" w in
  hasUserId decodeEmptyObject emptyPayloadToken = false
  /\ fst run = Val false
  /\ authStore w = {| auth_token := "session-token"; auth_record := Some "u1" |}
  /\ authStore (snd run)
     = {| auth_token := emptyPayloadToken; auth_record := None |}
  /\ authStore (snd run) <> authStore w.
Proof. repeat split. intros H. discriminate H. Qed.

(** * Further properties of the components *)

(** ** The one-second tick: the countdown and the warning *)

Section TickMore.
Context {num : Type} {N : JsNum num}.
Variable cal : Calendar.

(** The minutes left, as the tick computes them from hours and minutes,
    are the whole minutes of the time left. *)
Lemma totalMinutesLeft_eq (diff : Z) :
  let hours := diff / msPerHour in
  let minutes := (diff - hours * msPerHour) / (1000 * 60) in
  hours * 60 + minutes = diff / 60000.
Proof.
  unfold msPerHour. cbv zeta. Z.to_euclidean_division_equations. lia.
Qed.

(** The resolver only writes the device, the group and the cost of the
    component state. *)
Lemma pricedState_keeps st t deviceId d (s : SMState num) :
  let s' := pricedState cal st t deviceId d s in
  sessionId s' = sessionId s /\ inTime s' = inTime s /\ outTime s' = outTime s
  /\ remainingTime s' = remainingTime s
  /\ isSessionActive s' = isSessionActive s /\ loading s' = loading s
  /\ error s' = error s /\ notificationShown s' = notificationShown s.
Proof.
  unfold pricedState. destruct (nonEmpty deviceId); [|done].
  destruct (findDevice st deviceId) as [device|]; [|done].
  destruct (nonEmpty (dev_group device)); [|done].
  destruct (findGroup st (dev_group device)); done.
Qed.

(** The stored device id depends on the local storage alone, and
    reading it changes nothing and never returns early. *)
Lemma storedDeviceId_same {R} (w w2 : World num) :
  localStorage w2 = localStorage w ->
  exists o, storedDeviceId (R:=R) w = (o, w)
    /\ storedDeviceId (R:=R) w2 = (o, w2) /\ forall r, o <> Ret r.
Proof.
  intros Hls.
  unfold storedDeviceId, parsedDeviceId, bind, get, ret, throw. cbv beta.
  rewrite Hls.
  destruct (localStorage w !! "user_login_info") as [[[|c s]|fields]|];
    try (destruct (List.find _ fields) as [[k v]|]; [destruct (nonEmpty v)|]);
    try (eexists; split; [reflexivity|split; [reflexivity|done]]);
    cbv beta iota; rewrite ?Hls;
    destruct (localStorage w !! "device_info") as [[[|c' s']|fields']|];
    try (destruct (List.find _ fields') as [[k' v']|]; [destruct (nonEmpty v')|]);
    eexists; (split; [reflexivity|split; [reflexivity|done]]).
Qed.

Lemma storedDeviceId_reads {R} (w : World num) :
  exists o,
    (forall w2 : World num, localStorage w2 = localStorage w ->
       storedDeviceId (R:=R) w2 = (o, w2))
    /\ forall r, o <> Ret r.
Proof.
  destruct (storedDeviceId_same (R:=R) w w eq_refl) as (o & Ho & _ & Hret).
  exists o. split; [|done]. intros w2 Hls.
  destruct (storedDeviceId_same (R:=R) w w2 Hls) as (o' & Ho' & Hw2 & _).
  rewrite Ho in Ho'. by injection Ho' as ->.
Qed.

Lemma storedDeviceId_local {R R'} (w w2 : World num) (r : option string) :
  storedDeviceId (R:=R) w = (Val r, w) ->
  localStorage w2 = localStorage w ->
  storedDeviceId (R:=R') w2 = (Val r, w2).
Proof.
  unfold storedDeviceId, parsedDeviceId, bind, get, ret, throw.
  intros H Hls. cbv beta in *. rewrite !Hls.
  destruct (localStorage w !! "user_login_info") as [[[|c s]|fields]|];
    try done;
    try (destruct (List.find _ fields) as [[k v]|]; [destruct (nonEmpty v)|]);
    try (injection H as <-; done);
    cbv beta iota in *; rewrite ?Hls;
    destruct (localStorage w !! "device_info") as [[[|c' s']|fields']|];
    try done;
    try (destruct (List.find _ fields') as [[k' v']|]; [destruct (nonEmpty v')|]);
    try (injection H as <-; done).
Qed.

(** X1. While the out time lies ahead, a tick shows the time left as
    hours, minutes below 60 and seconds below 60, and these are the
    whole seconds of the time left: the display is never more than one
    second behind. *)
Theorem tick_remaining_time (w : World num) (endT : Z) :
  outTime (sm w) = Some (Instant endT) -> now w < endT ->
  exists h m s,
    remainingTime (sm (snd (tick cal w))) = (h, m, s)
    /\ 0 <= h /\ 0 <= m < 60 /\ 0 <= s < 60
    /\ (h * 3600 + m * 60 + s) * 1000 <= endT - now w
       < (h * 3600 + m * 60 + s + 1) * 1000.
Proof.
  intros Hout Hlt. unfold tick, updateRemainingTime.
  rewrite (bind_val _ _ w (sm w) w) by reflexivity.
  rewrite Hout. cbn [getTime]. unfold_monad. step.
  assert ((endT - now w <=? 0) = false) as -> by (apply Z.leb_gt; lia).
  step.
  do 3 eexists. split.
  { destruct (isSessionActive (sm w) && truthyId (sessionId (sm w))); step;
      [|reflexivity].
    repeat match goal with
           | |- context [if ?b then _ else _] => destruct b; step
           end; reflexivity. }
  unfold msPerHour. Z.to_euclidean_division_equations. lia.
Qed.

(** X2. While a tracked session runs, a tick shows the warning exactly
    when between 1 and 5 whole minutes are left and the flag is not
    set; the flag is cleared while more than 5 minutes are left, set
    from 5 minutes down to 1, and kept in the last minute. The tick
    sends no request and arms no timer. *)
Theorem tick_warning (w : World num) (sid : string) (endT : Z) :
  isSessionActive (sm w) = true ->
  sessionId (sm w) = Some sid -> nonEmpty sid = true ->
  outTime (sm w) = Some (Instant endT) -> now w < endT ->
  let minutes := (endT - now w) / 60000 in
  let w' := snd (tick cal w) in
  effects w' =
    (effects w ++
     if (1 <=? minutes) && (minutes <=? 5) && negb (notificationShown (sm w))
     then [Notification
             ("Your session will end in " ++ showZ minutes
              ++ " minutes. Please save your work.") true]
     else [])%list
  /\ notificationShown (sm w') =
     (if 5 <? minutes then false
      else if 1 <=? minutes then true else notificationShown (sm w))
  /\ journal w' = journal w /\ store w' = store w /\ timers w' = timers w.
Proof.
  intros Hact Hsid Hne Hout Hlt minutes w'. subst w' minutes.
  unfold tick, updateRemainingTime.
  rewrite (bind_val _ _ w (sm w) w) by reflexivity.
  rewrite Hout, Hact, Hsid. cbn [getTime truthyId andb]. rewrite Hne.
  unfold_monad. step.
  assert ((endT - now w <=? 0) = false) as -> by (apply Z.leb_gt; lia).
  step. rewrite (totalMinutesLeft_eq (endT - now w)).
  set (m := (endT - now w) / 60000).
  assert (0 <= m) as Hm by (subst m; apply Z.div_pos; lia).
  destruct (notificationShown (sm w)) eqn:Hflag;
    destruct (Z.leb_spec 1 m), (Z.leb_spec m 5), (Z.ltb_spec 5 m),
      (Z.ltb_spec 0 m); try lia; step; rewrite ?Hflag, ?app_nil_r; done.
Qed.

(** X3. When the log of a carried-over closure is rejected, the session
    has been closed in the store, but the device is not released and
    the component stays active. A user who has seen no notification yet
    is told both that the session has ended and that the update
    failed. *)
Theorem carried_over_log_rejected (w : World num) (sid : string) (endT : Z)
  (dev : Device) :
  isSessionActive (sm w) = true ->
  sessionId (sm w) = Some sid -> nonEmpty sid = true ->
  outTime (sm w) = Some (Instant endT) ->
  endT <= now w -> earlierDay cal endT (now w) ->
  deviceInfo (sm w) = Some dev -> nonEmpty (dev_id dev) = true ->
  collection_ok (store w) "session_logs" = false ->
  let c := priced cal (store w) (now w) (dev_id dev)
             (hoursBetween (newDate (inTime (sm w))) (Instant endT)) in
  let p := closedPatch (finalCostOr0 c) (discountAmountOr0 c) (discountRateOr0 c) in
  let w' := snd (tick cal w) in
  journal w' =
    (journal w ++
     [UpdateSession sid p;
      CreateSessionLog
        {| log_session_id := sid; log_type := "Closed";
           log_session_amount := finalCostOr0 c |}])%list
  /\ store w' = patchSessions sid p (store w)
  /\ isSessionActive (sm w') = true
  /\ effects w' =
     (effects w ++
      if notificationShown (sm w) then []
      else [Notification
              "Your session has ended. The system will log you out in 5 seconds."
              true;
            Notification
              "Your session has ended, but there was an error updating the session status."
              true])%list.
Proof.
  intros Hact Hsid Hne Hout Hle Hday Hdev Hdid Hlogs c p w'.
  subst w' p c. unfold tick, updateRemainingTime.
  rewrite (bind_val _ _ w (sm w) w) by reflexivity.
  rewrite Hout, Hact, Hsid, Hdev, Hdid.
  cbn [getTime truthyId default newDate andb]. rewrite Hne.
  unfold_monad. step.
  assert ((endT - now w <=? 0) = true) as -> by (apply Z.leb_le; lia).
  rewrite (isYesterday_earlier _ _ _ Hday). step. cbn [andb].
  destruct (notificationShown (sm w)); cbn [negb]; step;
    rewrite fetch_run; step; rewrite update_run; step;
    unfold createSessionLog, appendLog; step;
    rewrite ?collection_ok_patchSessions, ?Hlogs; step;
    rewrite ?(proj1 (proj2 (proj2 (proj2 (proj2 (pricedState_keeps _ _ _ _ _)))))); step;
    rewrite ?Hact;
    (split; [rewrite <- !app_assoc; reflexivity|]);
    (split; [reflexivity|]); (split; [reflexivity|]);
    rewrite <- ?app_assoc, ?app_nil_r; reflexivity.
Qed.

(** X4. A carried-over closure by a component that has not loaded the
    device prices nothing anew: it writes the session cost of the
    component state, without discount, and releases the device that the
    local storage names, or no device when it names none. *)
Theorem carried_over_without_device_info (w : World num) (sid : string)
  (endT : Z) (stored : option string) :
  isSessionActive (sm w) = true ->
  sessionId (sm w) = Some sid -> nonEmpty sid = true ->
  outTime (sm w) = Some (Instant endT) ->
  endT <= now w -> earlierDay cal endT (now w) ->
  deviceInfo (sm w) = None ->
  storedDeviceId (R:=unit) w = (Val stored, w) ->
  collection_ok (store w) "session_logs" = true ->
  let cost := orZero (sessionCost (sm w)) in
  let w' := snd (tick cal w) in
  journal w' =
    (journal w ++
     [UpdateSession sid (closedPatch cost (ofZ 0) (ofZ 0));
      CreateSessionLog
        {| log_session_id := sid; log_type := "Closed";
           log_session_amount := cost |}]
     ++ match stored with
        | Some deviceId => [UpdateDevice deviceId releasePatch]
        | None => []
        end)%list
  /\ isSessionActive (sm w') = false
  /\ deviceInfo (sm w') = None.
Proof.
  intros Hact Hsid Hne Hout Hle Hday Hdev Hstored Hlogs cost w'.
  subst w' cost. unfold tick, updateRemainingTime.
  rewrite (bind_val _ _ w (sm w) w) by reflexivity.
  rewrite Hout, Hact, Hsid, Hdev.
  cbn [getTime truthyId default newDate andb]. rewrite Hne.
  unfold_monad. step.
  assert ((endT - now w <=? 0) = true) as -> by (apply Z.leb_le; lia).
  rewrite (isYesterday_earlier _ _ _ Hday). step. cbn [andb].
  destruct (notificationShown (sm w)); cbn [negb]; step;
    match goal with
    | |- context [storedDeviceId ?w2] =>
        rewrite (storedDeviceId_local (R:=unit) (R':=unit) w w2 stored Hstored)
          by reflexivity
    end; step; rewrite update_run; step;
    unfold createSessionLog, updateDeviceRecord; step;
    rewrite ?collection_ok_patchSessions, ?Hlogs; step;
    destruct stored as [deviceId|]; step;
    try destruct (findDevice _ _); step;
    rewrite <- ?app_assoc; repeat split; try done.
Qed.

End TickMore.

(** Four and a half minutes before the end the display reads 0:04:30. *)
Lemma tick_remaining_time_witness :
  remainingTime (sm (snd (tick utc (endingSoonWorld (num:=Q))))) = (0, 4, 30).
Proof.
  destruct (tick_remaining_time (num:=Q) utc endingSoonWorld
              (utcInstant 2024 1 1 11 0) eq_refl)
    as (h & m & s & Hr & Hh & Hm & Hs & Hb); [vm_compute; reflexivity|].
  rewrite Hr.
  change (utcInstant 2024 1 1 11 0 - now (endingSoonWorld (num:=Q)))
    with 270000 in Hb.
  assert (h = 0 /\ m = 4 /\ s = 30) as (-> & -> & ->) by lia.
  reflexivity.
Defined.

(** Four and a half minutes before the end the warning names 4 minutes
    and the flag is set. *)
Lemma tick_warning_witness :
  let w : World Q := endingSoonWorld in
  let w' := snd (tick utc w) in
  effects w' =
    [Notification "Your session will end in 4 minutes. Please save your work."
       true]
  /\ notificationShown (sm w') = true.
Proof.
  destruct (tick_warning (num:=Q) utc endingSoonWorld "s1"
              (utcInstant 2024 1 1 11 0) eq_refl eq_refl eq_refl eq_refl)
    as (He & Hn & _); [vm_compute; reflexivity|].
  cbv zeta. rewrite He, Hn. split; vm_compute; reflexivity.
Defined.

(** The carried-over session when the log collection is unreachable. *)
Lemma carried_over_log_rejected_witness :
  let w : World Q := withUnreachable "session_logs" carriedOverWorld in
  let w' := snd (tick utc w) in
  length (journal w') = 2%nat
  /\ isSessionActive (sm w') = true
  /\ length (effects w') = 2%nat.
Proof.
  assert (earlierDay utc (utcInstant 2024 1 1 23 0)
            (now (withUnreachable "session_logs" (carriedOverWorld (num:=Q)))))
    as Hday
    by (right; split; [|right; split]; vm_compute; reflexivity).
  assert (utcInstant 2024 1 1 23 0
          <= now (withUnreachable "session_logs" (carriedOverWorld (num:=Q))))
    as Hle by (vm_compute; discriminate).
  destruct (carried_over_log_rejected (num:=Q) utc
              (withUnreachable "session_logs" carriedOverWorld) "s1"
              (utcInstant 2024 1 1 23 0) d1
              eq_refl eq_refl eq_refl eq_refl Hle Hday eq_refl eq_refl eq_refl)
    as (Hj & _ & Ha & He).
  cbv zeta. rewrite Hj, Ha, He. repeat split.
Defined.

(** The carried-over session seen by a component without device info:
    the cost of the state, 100, is written, and [d1] of the local
    storage is released. *)
Lemma carried_over_without_device_info_witness :
  let w : World Q :=
    with_sm (with_deviceInfo None (sm carriedOverWorld)) carriedOverWorld in
  journal (snd (tick utc w))
  = [UpdateSession "s1" (closedPatch (orZero (sessionCost (sm w))) 0%Q 0%Q);
     CreateSessionLog
       {| log_session_id := "s1"; log_type := "Closed";
          log_session_amount := orZero (sessionCost (sm w)) |};
     UpdateDevice "d1" releasePatch].
Proof.
  assert (earlierDay utc (utcInstant 2024 1 1 23 0)
            (now (with_sm (with_deviceInfo None (sm carriedOverWorld))
                    (carriedOverWorld (num:=Q)))))
    as Hday
    by (right; split; [|right; split]; vm_compute; reflexivity).
  assert (utcInstant 2024 1 1 23 0
          <= now (with_sm (with_deviceInfo None (sm carriedOverWorld))
                    (carriedOverWorld (num:=Q))))
    as Hle by (vm_compute; discriminate).
  destruct (carried_over_without_device_info (num:=Q) utc
              (with_sm (with_deviceInfo None (sm carriedOverWorld))
                 carriedOverWorld) "s1"
              (utcInstant 2024 1 1 23 0) (Some "d1")
              eq_refl eq_refl eq_refl eq_refl Hle Hday eq_refl eq_refl eq_refl)
    as (Hj & _).
  exact Hj.
Defined.

(** ** Extension and the logout armed at expiry *)

Section ExtendEdges.
Context {num : Type} {N : JsNum num}.
Variable cal : Calendar.

(** X5. When the log of an extension is rejected, the component reports
    an error and keeps the old out time, although the session in the
    store has been extended by one hour and has the status Extended. *)
Theorem extend_log_rejected (w : World num) (sid : string) (T U : Z)
  (dev : Device) (s : Session num) :
  sessionId (sm w) = Some sid -> nonEmpty sid = true ->
  inTime (sm w) = Some (Instant T) ->
  outTime (sm w) = Some (Instant U) ->
  deviceInfo (sm w) = Some dev -> nonEmpty (dev_id dev) = true ->
  findSession (store w) sid = Some s ->
  collection_ok (store w) "session_logs" = false ->
  let w' := snd (extendSession cal (sm w) w) in
  outTime (sm w') = Some (Instant U)
  /\ error (sm w') = Some "Failed to extend session"
  /\ loading (sm w') = false
  /\ exists s', findSession (store w') sid = Some s'
       /\ ses_out_time s' = Some (U + 60 * 60 * 1000)
       /\ ses_status s' = "Extended".
Proof.
  intros Hsid Hne Hin Hout Hdev Hdid Hs Hlogs w'. subst w'.
  unfold extendSession. rewrite Hsid, Hin, Hout, Hdev, Hdid.
  cbn [truthyId default newDate dateAdd hoursBetween getTime option_map].
  rewrite Hne. unfold_monad. step.
  rewrite fetch_run. step. rewrite update_run. step.
  unfold createSessionLog, appendLog. step.
  rewrite collection_ok_patchSessions, Hlogs. step.
  rewrite (proj1 (proj2 (proj2 (pricedState_keeps _ _ _ _ _ _)))). step.
  rewrite Hout. split; [done|]. split; [done|]. split; [done|].
  rewrite findSession_patchSessions, Hs. eexists. split; [reflexivity|].
  split; reflexivity.
Qed.

(** X6. The logout armed at expiry is local: it clears the persisted
    login, the client-app flag and the auth store with its persisted
    copy, asks for the kiosk lock and arms a reload after one second;
    it sends no request, so the session in the store stays as it
    is. *)
Theorem logout_callback (w : World num) :
  let w' := snd (runCallback AutoLogout w) in
  localStorage w' =
    delete "pocketbase_auth"
      (delete "client_app_login" (delete "user_login_info" (localStorage w)))
  /\ authStore w' = {| auth_token := ""; auth_record := None |}
  /\ journal w' = journal w /\ store w' = store w
  /\ effects w' =
     (effects w ++
      [Notification "You have been logged out due to session expiration." true]
      ++ (if neutralino w then [SetFullScreen] else [])
      ++ [KioskEvent "session-ended" true])%list
  /\ timers w' = (timers w ++ [(1000, ReloadPage)])%list
  /\ sm w' = sm w.
Proof.
  unfold runCallback, autoLogout. unfold_monad. step.
  destruct (neutralino w); step; rewrite <- ?app_assoc; repeat split; done.
Qed.

End ExtendEdges.

(** The running session when the log collection is unreachable: the
    component still shows 11:00 while the store says 12:00. *)
Lemma extend_log_rejected_witness :
  let w : World Q := withUnreachable "session_logs" runningWorld in
  let w' := snd (extendSession utc (sm w) w) in
  outTime (sm w') = Some (Instant (utcInstant 2024 1 1 11 0))
  /\ exists s', findSession (store w') "s1" = Some s'
       /\ ses_out_time s' = Some (utcInstant 2024 1 1 12 0)
       /\ ses_status s' = "Extended".
Proof.
  destruct (extend_log_rejected (num:=Q) utc
              (withUnreachable "session_logs" runningWorld) "s1"
              (utcInstant 2024 1 1 10 0) (utcInstant 2024 1 1 11 0) d1
              (s1 "Active" (utcInstant 2024 1 1 10 0) (utcInstant 2024 1 1 11 0))
              eq_refl eq_refl eq_refl eq_refl eq_refl eq_refl eq_refl eq_refl)
    as (Ho & _ & _ & s' & Hs & Hout & Hst).
  split; [exact Ho|]. exists s'. split; [exact Hs|]. split; [exact Hout|exact Hst].
Defined.

(** ** More on the pricing resolver *)



(** There the sum of finalCost and discountAmount is not baseCost: the
    two differ in the last place. *)
Example resolver_sum_rounds_binary64 :
  match fst (fetchDeviceGroupAndCalculateCost (R:=unit) utc "d1"
               (Some (PrimFloat.div 64 60)) (pricingWorld 20 0)) with
  | Val (Cost c) =>
      PrimFloat.eqb (PrimFloat.add (finalCost c) (discountAmount c))
        (baseCost c)
  | _ => true
  end = false.
Proof. vm_compute. reflexivity. Qed.

(** X8. A happy hour in range that carries neither a positive
    percentage nor a positive fixed rate ends the search: no discount
    is applied, whatever the happy hours after it. *)
Theorem first_window_in_range_decides (cal : Calendar) (R : Type)
  (w : World Q) (deviceId : string) (group : Group Q) (h : HappyHour Q)
  (d : option Q) :
  nonEmpty deviceId = true ->
  rateGroupOf (store w) deviceId = Some group ->
  ~ (grp_price group == 0)%Q ->
  matchedWindow cal (store w) (now w) (grp_id group) = Some h ->
  (hh_discount_percentage h <= 0)%Q -> (hh_fixed_rate h <= 0)%Q ->
  fst (fetchDeviceGroupAndCalculateCost (R:=R) cal deviceId d w)
  = Val (Cost (noDiscount (grp_price group * validDuration d)%Q)).
Proof.
  intros Hid Hg Hr Hm Hp Hf. rewrite fetch_run. cbn [fst].
  apply Q_truthy in Hr.
  rewrite (priced_matched cal _ _ _ _ group h) by done.
  unfold applyDiscount.
  assert (forall q : Q, (q <= 0)%Q -> gt0 q = false) as Hgt.
  { intros q Hq. destruct (gt0 q) eqn:E; [|done]. apply Q_gt0 in E.
    exfalso. by apply (Qlt_not_le _ _ E). }
  rewrite (Hgt _ Hp), (Hgt _ Hf), !andb_false_r. reflexivity.
Qed.

(** An empty happy hour of Monday morning hides the 20 percent one that
    follows it. *)
Lemma first_window_in_range_decides_witness :
  let w : World Q :=
    exampleWorld mondayMorning
      (exampleStore [mondayWindow 0 0; mondayWindow 20 0] []) freshSM in
  fst (fetchDeviceGroupAndCalculateCost (R:=unit) utc "d1" (Some 2%Q) w)
  = Val (Cost (noDiscount (grp_price (g1 (num:=Q)) * validDuration (Some 2%Q))%Q)).
Proof.
  assert (~ (grp_price (g1 (num:=Q)) == 0)%Q) as Hr by (intros E; discriminate E).
  assert (hh_discount_percentage (mondayWindow (num:=Q) 0 0) <= 0)%Q as Hp
    by (vm_compute; discriminate).
  assert (hh_fixed_rate (mondayWindow (num:=Q) 0 0) <= 0)%Q as Hf
    by (vm_compute; discriminate).
  exact (first_window_in_range_decides utc unit
           (exampleWorld mondayMorning
              (exampleStore [mondayWindow 0 0; mondayWindow 20 0] []) freshSM)
           "d1" g1 (mondayWindow 0 0) (Some 2%Q)
           eq_refl eq_refl Hr eq_refl Hp Hf).
Defined.

(** ** The discovery of an existing session *)

Section DiscoveryMore.
Context {num : Type} {N : JsNum num}.
Variable cal : Calendar.

(** The list request of the discovery: the whole collection, newest
    first. *)
Lemma newest_first (st : Store num) (older : list (Session num))
  (s : Session num) :
  collection_ok st "sessions" = true ->
  sessions st = (older ++ [s])%list ->
  listRecords "sessions" sessions 1 50 (fun _ => true) true st
  = Some (s :: take 49 (rev older)).
Proof.
  intros Hok Hs. unfold listRecords. rewrite Hok, Hs.
  assert (forall l : list (Session num), List.filter (fun _ => true) l = l) as ->.
  { induction l as [|a l IH]; [done|]. simpl. by rewrite IH. }
  rewrite rev_app_distr. reflexivity.
Qed.

(** X9. The discovery of SessionManager adopts the newest session of
    the whole collection, whatever its device and status: the filter it
    passes is not received by the hook. The component tracks the id of
    that session, and is not active when the session is Closed. *)
Theorem discovery_adopts_newest (w : World num) (deviceId : string)
  (older : list (Session num)) (s : Session num) :
  storedDeviceId (R:=option (Session num)) w = (Val (Some deviceId), w) ->
  collection_ok (store w) "sessions" = true ->
  sessions (store w) = (older ++ [s])%list ->
  let run := checkExistingSession cal w in
  fst run = Val (Some s)
  /\ sessionId (sm (snd run)) = Some (ses_id s)
  /\ (ses_status s = "Closed" -> isSessionActive (sm (snd run)) = false).
Proof.
  intros Hdev Hok Hs.
  pose proof (newest_first _ _ _ Hok Hs) as Hlist.
  unfold checkExistingSession, hookGetList, positionalOptions.
  cbn [opt_page opt_perPage opt_newestFirst opt_filter default].
  unfold_monad. unfold getList. rewrite Hdev. step. rewrite Hlist. step.
  split; [|split].
  3:{ intros ->. cbn [String.eqb Ascii.eqb Bool.eqb orb].
      destruct (ses_in_time s), (ses_out_time s) as [o|]; step.
      all: repeat match goal with
             | |- context [if ?b then _ else _] => destruct b; step
             end.
      all: rewrite ?fetch_run; step.
      all: repeat match goal with
             | |- context [if ?b then _ else _] => destruct b; step
             end.
      all: rewrite
             ?(proj1 (proj2 (proj2 (proj2 (proj2 (pricedState_keeps _ _ _ _ _ _))))));
           step; done. }
  all: generalize (String.eqb (ses_status s) "Booked"),
    (String.eqb (ses_status s) "Occupied"),
    (String.eqb (ses_status s) "Active"),
    (String.eqb (ses_status s) "Extended"),
    (String.eqb (ses_status s) "Closed").
  all: intros bBooked bOccupied bActive bExtended bClosed.
  all: destruct (ses_in_time s), (ses_out_time s) as [o|]; step.
  all: destruct bBooked, bOccupied, bActive, bExtended, bClosed; step.
  all: rewrite ?update_run; step.
  all: repeat match goal with
         | |- context [if ?b then _ else _] => destruct b; step
         end.
  all: rewrite ?fetch_run; step.
  all: repeat match goal with
         | |- context [if ?b then _ else _] => destruct b; step
         end.
  all: rewrite ?(proj1 (pricedState_keeps _ _ _ _ _ _)); step; done.
Qed.

(** X10. With no device id in the local storage (or an item that does
    not parse), with a rejected list request, or with an empty
    collection, the discovery returns null and leaves everything as it
    is: a failure is not told apart from the absence of a session. *)
Theorem discovery_finds_nothing (w : World num) :
  (forall id, fst (storedDeviceId (R:=option (Session num)) w) <> Val (Some id))
  \/ collection_ok (store w) "sessions" = false
  \/ sessions (store w) = [] ->
  checkExistingSession cal w = (Val None, w).
Proof.
  intros H.
  destruct (storedDeviceId_reads (R:=option (Session num)) w) as (o & Ho & Hret).
  unfold checkExistingSession, hookGetList, positionalOptions.
  cbn [opt_page opt_perPage opt_newestFirst opt_filter default].
  unfold_monad. unfold getList. rewrite (Ho w eq_refl) in *. cbn [fst] in H. step.
  destruct o as [[id|]|r|]; step; try done; [|by destruct (Hret r)].
  destruct H as [H|[H|H]]; [by destruct (H id)| |].
  - unfold listRecords. rewrite H. step. done.
  - unfold listRecords. rewrite H. destruct (collection_ok _ _); step; done.
Qed.

End DiscoveryMore.

(** On terminal [d1], whose session [s1] is running, the discovery
    adopts the closed session [s2] of terminal [d2]. *)
Lemma discovery_adopts_newest_witness :
  let run := checkExistingSession utc (twoSessionsWorld (num:=Q)) in
  fst run = Val (Some s2)
  /\ sessionId (sm (snd run)) = Some "s2"
  /\ isSessionActive (sm (snd run)) = false.
Proof.
  destruct (discovery_adopts_newest (num:=Q) utc twoSessionsWorld "d1"
              [s1 "Active" (utcInstant 2024 1 1 10 0) (utcInstant 2024 1 1 11 0)]
              s2 eq_refl eq_refl eq_refl)
    as (Hr & Hid & Hact).
  split; [exact Hr|]. split; [exact Hid|exact (Hact eq_refl)].
Defined.

(** With an unreachable sessions collection the discovery of the
    running session returns null. *)
Lemma discovery_finds_nothing_witness :
  let w : World Q := withUnreachable "sessions" runningWorld in
  checkExistingSession utc w = (Val None, w).
Proof.
  apply (discovery_finds_nothing (num:=Q) utc
           (withUnreachable "sessions" runningWorld)).
  right. left. reflexivity.
Defined.

(** ** The 30-second check of SessionStateManager *)

Section PollMore.
Context {num : Type} {N : JsNum num}.

(** X11. Every check with a device id ends with the checking flag cleared
    and tells the parent exactly what it returns and stores: the session
    found when it reports an active session, no session otherwise; a
    session it reports is an open session of the device in the store. *)
Theorem poll_reports_consistently (w : World num) (snap : SSMState num)
  (deviceId : string) :
  nonEmpty deviceId = true ->
  let run := checkForActiveSessions (Some deviceId) snap w in
  let w' := snd run in
  exists b : bool,
    fst run = Val (Some b)
    /\ sessionActive (ssm w') = b
    /\ isChecking (ssm w') = false
    /\ last (effects w')
       = Some (SessionStateChange b (option_map ses_id (sessionData (ssm w'))))
    /\ (b = false -> sessionData (ssm w') = None)
    /\ (b = true ->
        exists s, sessionData (ssm w') = Some s
          /\ In s (sessions (store w))
          /\ openSessionFilter deviceId s = true).
Proof.
  intros Hid. unfold checkForActiveSessions. cbn [truthyId default].
  rewrite Hid. unfold_monad. unfold getList. step.
  destruct (listRecords _ _ _ _ _ _ _) as [[|s rest]|] eqn:Hlist; step.
  - exists false. rewrite last_snoc. repeat split; try done;
      try (intros E; discriminate E).
  - apply listRecords_head in Hlist as (_ & Hin & Hopen).
    destruct (ses_out_time s) as [outT|]; step.
    + destruct (now w <? outT); step.
      * destruct (String.eqb (ses_status s) "Active"); step;
          [|unfold updateSessionRecord; destruct (findSession _ _); step];
          exists true; rewrite last_snoc; repeat split; try done;
          try (intros E; discriminate E); try (intros _; by exists s).
      * destruct (isClientApp snap); step;
          [destruct (String.eqb (ses_status s) "Closed"); step;
           [|unfold updateSessionRecord; destruct (findSession _ _); step]|];
          exists false; rewrite last_snoc; repeat split; try done;
          try (intros E; discriminate E).
    + exists true. rewrite last_snoc. repeat split; try done;
        try (intros E; discriminate E); try (intros _; by exists s).
  - exists false. rewrite last_snoc. repeat split; try done;
      try (intros E; discriminate E).
Qed.

(** X12. A check sends at most one request, and only one that sets the
    status of a session of the store to Active or Closed: it never
    writes a cost, a log or a device. *)
Theorem poll_writes_status_only (w : World num) (snap : SSMState num)
  (deviceId : option string) :
  let w' := snd (checkForActiveSessions deviceId snap w) in
  exists l, journal w' = (journal w ++ l)%list
    /\ (l = []
        \/ exists s, In s (sessions (store w))
             /\ (l = [UpdateSession (ses_id s) (statusPatch "Active")]
                 \/ l = [UpdateSession (ses_id s) (statusPatch "Closed")]))
    /\ devices (store w') = devices (store w)
    /\ session_logs (store w') = session_logs (store w).
Proof.
  unfold checkForActiveSessions.
  destruct (truthyId deviceId) eqn:Hid; unfold_monad; unfold getList; step.
  2:{ exists []. rewrite app_nil_r. repeat split; try done. by left. }
  destruct (listRecords _ _ _ _ _ _ _) as [[|s rest]|] eqn:Hlist; step.
  1,3: exists []; rewrite app_nil_r; repeat split; try done; by left.
  apply listRecords_head in Hlist as (_ & Hin & _).
  destruct (ses_out_time s) as [outT|]; step.
  2:{ exists []. rewrite app_nil_r. repeat split; try done. by left. }
  destruct (now w <? outT); step.
  - destruct (String.eqb (ses_status s) "Active"); step.
    { exists []. rewrite app_nil_r. repeat split; try done. by left. }
    unfold updateSessionRecord. destruct (findSession _ _); step.
    all: eexists; split; [reflexivity|]; split; [right; exists s; split; [done|by left]|].
    all: unfold patchSessions; destruct (collection_ok _ _); done.
  - destruct (isClientApp snap); step.
    2:{ exists []. rewrite app_nil_r. repeat split; try done. by left. }
    destruct (String.eqb (ses_status s) "Closed"); step.
    { exists []. rewrite app_nil_r. repeat split; try done. by left. }
    unfold updateSessionRecord. destruct (findSession _ _); step.
    all: eexists; split; [reflexivity|]; split; [right; exists s; split; [done|by right]|].
    all: unfold patchSessions; destruct (collection_ok _ _); done.
Qed.

(** X13. A rejected session query is reported as "no active session", and
    the handler of App answers that report by locking the terminal. *)
Theorem poll_failure_locks (w : World num) (snap : SSMState num)
  (appSnap : AppState num) (deviceId : string) :
  nonEmpty deviceId = true ->
  collection_ok (store w) "sessions" = false ->
  os_fails (desktop w) = false ->
  let run := checkForActiveSessions (Some deviceId) snap w in
  let w1 := snd run in
  let w2 := snd (handleSessionStateChange appSnap false None w1) in
  fst run = Val (Some false)
  /\ effects w1 = (effects w ++ [SessionStateChange false None])%list
  /\ journal w2 = journal w
  /\ fullScreen (desktop w2) = true
  /\ window (desktop w2) = kioskWindow (desktop w)
  /\ (forall e, keyBlocked (desktop w2) e = keyFilter e).
Proof.
  intros Hid Hfail Hos. unfold checkForActiveSessions. cbn [truthyId default].
  rewrite Hid. unfold_monad. unfold getList, listRecords. step. rewrite Hfail. step.
  unfold handleSessionStateChange, enableKioskMode, native, nativeIsFullScreen,
    keyBlocked. unfold_monad.
  destruct (keyboardHandler (desktop w)) eqn:Hk;
  repeat (progress (step;
    cbn [os_fails with_window with_fullScreen with_centered with_keyboardHandler
         fullScreen window keyboardHandler screen_width screen_height centered];
    rewrite ?Hos, ?Hk)); repeat split; done.
Qed.

End PollMore.

(** The check of the running session reports it as active. *)
Lemma poll_reports_consistently_witness :
  let run :=
    checkForActiveSessions (Some "d1") (ssm runningWorld)
      (runningWorld (num:=Q)) in
  exists b : bool,
    fst run = Val (Some b) /\ sessionActive (ssm (snd run)) = b
    /\ isChecking (ssm (snd run)) = false.
Proof.
  destruct (poll_reports_consistently (num:=Q) runningWorld (ssm runningWorld)
              "d1" eq_refl)
    as (b & Hr & Ha & Hc & _).
  exists b. split; [exact Hr|]. split; [exact Ha|exact Hc].
Defined.

(** With an unreachable sessions collection the locked terminal of the
    running session stays locked after the check and its report. *)
Lemma poll_failure_locks_witness :
  let w : World Q := withUnreachable "sessions" runningWorld in
  let run := checkForActiveSessions (Some "d1") (ssm w) w in
  let w2 := snd (handleSessionStateChange (app w) false None (snd run)) in
  fst run = Val (Some false)
  /\ journal w2 = []
  /\ fullScreen (desktop w2) = true.
Proof.
  destruct (poll_failure_locks (num:=Q)
              (withUnreachable "sessions" runningWorld)
              (ssm (withUnreachable "sessions" runningWorld))
              (app (withUnreachable "sessions" runningWorld)) "d1"
              eq_refl eq_refl eq_refl)
    as (Hr & _ & Hj & Hf & _).
  split; [exact Hr|]. split; [exact Hj|exact Hf].
Defined.

(** ** More on the auto-login from the device token *)

Section TokenMore.
Context {num : Type} {N : JsNum num}.
Variable decodePayload : string -> option Claims.
Variable parsesAsJson : string -> bool.
Variable sdkIsValid : Z -> string -> bool.

(** The monitor never writes to the store, and after a check that
    found the device the last checked token is the token of the
    device. *)
Lemma token_check_frame (w : World num) (deviceId : string) (device : Device) :
  nonEmpty deviceId = true ->
  findDevice (store w) deviceId = Some device ->
  let w' := snd (checkDeviceTokenAndLogin decodePayload parsesAsJson sdkIsValid
      (Some deviceId) (lastCheckedToken w) w) in
  store w' = store w /\ journal w' = journal w
  /\ lastCheckedToken w' = dev_token device.
Proof.
  intros Hid Hfind. unfold findDevice in Hfind.
  unfold checkDeviceTokenAndLogin. cbn [truthyId default].
  rewrite Hid. unfold_monad. unfold getOne. step. rewrite Hfind. step.
  destruct (nonEmpty (dev_token device)) eqn:Htok; step.
  2:{ unfold nonEmpty in Htok. apply negb_false_iff, String.eqb_eq in Htok.
      rewrite Htok. destruct (nonEmpty (lastCheckedToken w)) eqn:E; step; [done|].
      unfold nonEmpty in E. apply negb_false_iff, String.eqb_eq in E.
      by rewrite E. }
  destruct (String.eqb_spec (dev_token device) (lastCheckedToken w)) as [E|E];
    step; [by rewrite E|].
  unfold setLastCheckedToken, modify. step.
  rewrite validateToken_run. step.
  destruct (tokenAccepted decodePayload (now w) (dev_token device)); step;
    [|done].
  unfold authStoreSave, setItem, decode. unfold_monad.
  destruct (negb (isBlank (dev_client_record device))
            && parsesAsJson (dev_client_record device)); step;
    rewrite ?Htok; step.
  all: destruct (sdkIsValid (now w) (dev_token device)); step; rewrite ?Htok; step.
  all: destruct (splitDots (dev_token device)) as [|a [|b [|c [|e l]]]]; step;
    try done.
  all: destruct (decodePayload b) as [tokenData|]; step; try done.
  all: destruct (nonEmpty (userIdClaim tokenData)); step; try done.
  all: unfold getOne, onAutoLogin; unfold_monad; step.
  all: destruct (findRecord "clients" _ _ _ _) as [u|]; step; rewrite ?Htok; step;
    try done.
  all: destruct (findRecord "users" _ _ _ _) as [u'|]; step; done.
Qed.

(** X14. A check that follows another one on the same store does nothing:
    a token is handled once, also when the first check logged the user
    in. *)
Theorem token_handled_once (w : World num) (deviceId : string)
  (device : Device) :
  nonEmpty deviceId = true ->
  findDevice (store w) deviceId = Some device ->
  let w1 := snd (checkDeviceTokenAndLogin decodePayload parsesAsJson sdkIsValid
      (Some deviceId) (lastCheckedToken w) w) in
  checkDeviceTokenAndLogin decodePayload parsesAsJson sdkIsValid
      (Some deviceId) (lastCheckedToken w1) w1 = (Val false, w1).
Proof.
  intros Hid Hfind w1.
  destruct (token_check_frame w deviceId device Hid Hfind) as (Hst & _ & Hlast).
  fold w1 in Hst, Hlast. rewrite Hlast.
  unfold findDevice in Hfind. rewrite <- Hst in Hfind.
  unfold checkDeviceTokenAndLogin. cbn [truthyId default].
  rewrite Hid. unfold_monad. unfold getOne. step. rewrite Hfind. step.
  rewrite String.eqb_refl. cbn [negb]. rewrite andb_false_r. step.
  destruct (nonEmpty (dev_token device)); step; done.
Qed.

(** X15. A new token that validateToken rejects is remembered as checked and
    reaches neither the auth store nor the local storage; nothing is
    reported upward. *)
Theorem token_rejected (w : World num) (deviceId lastChecked : string)
  (device : Device) :
  nonEmpty deviceId = true ->
  findDevice (store w) deviceId = Some device ->
  nonEmpty (dev_token device) = true ->
  dev_token device <> lastChecked ->
  tokenAccepted decodePayload (now w) (dev_token device) = false ->
  checkDeviceTokenAndLogin decodePayload parsesAsJson sdkIsValid
      (Some deviceId) lastChecked w
  = (Val false, with_lastCheckedToken (dev_token device) w).
Proof.
  intros Hid Hfind Htok Hnew Hrej. unfold findDevice in Hfind.
  unfold checkDeviceTokenAndLogin. cbn [truthyId default].
  rewrite Hid. unfold_monad. unfold getOne. step. rewrite Hfind. step.
  rewrite Htok. apply String.eqb_neq in Hnew. rewrite Hnew. step.
  unfold setLastCheckedToken, modify. step.
  rewrite validateToken_run. step. rewrite Hrej. step. done.
Qed.

(** X16. A new, accepted token whose payload names a user of the clients
    collection logs that user in: the callback is called once, with the
    id of the user, the display name and the device id, and the auth
    store holds the token. *)
Theorem token_logs_client_in (w : World num) (deviceId lastChecked : string)
  (device : Device) (a b c : string) (tokenData : Claims) (user : User) :
  nonEmpty deviceId = true ->
  findDevice (store w) deviceId = Some device ->
  nonEmpty (dev_token device) = true ->
  dev_token device <> lastChecked ->
  tokenAccepted decodePayload (now w) (dev_token device) = true ->
  splitDots (dev_token device) = [a; b; c] ->
  decodePayload b = Some tokenData ->
  nonEmpty (userIdClaim tokenData) = true ->
  findRecord "clients" clients usr_id (userIdClaim tokenData) (store w)
  = Some user ->
  let run := checkDeviceTokenAndLogin decodePayload parsesAsJson sdkIsValid
      (Some deviceId) lastChecked w in
  let w' := snd run in
  fst run = Val true
  /\ effects w' =
     (effects w ++ [AutoLogin (usr_id user) (displayName user) deviceId])%list
  /\ auth_token (authStore w') = dev_token device
  /\ lastCheckedToken w' = dev_token device
  /\ journal w' = journal w.
Proof.
  intros Hid Hfind Htok Hnew Hacc Hsplit Hdec Huid Huser.
  unfold findDevice in Hfind.
  unfold checkDeviceTokenAndLogin. cbn [truthyId default].
  rewrite Hid. unfold_monad. unfold getOne. step. rewrite Hfind. step.
  rewrite Htok. apply String.eqb_neq in Hnew. rewrite Hnew. step.
  unfold setLastCheckedToken, modify. step.
  rewrite validateToken_run. step. rewrite Hacc. step.
  unfold authStoreSave, setItem, decode. unfold_monad.
  destruct (negb (isBlank (dev_client_record device))
            && parsesAsJson (dev_client_record device)); step;
    rewrite ?Htok; step.
  all: destruct (sdkIsValid (now w) (dev_token device)); step; rewrite ?Htok; step.
  all: rewrite Hsplit; step; rewrite Hdec; step; rewrite Huid; step.
  all: unfold getOne, onAutoLogin; unfold_monad; step; rewrite Huser; step.
  all: rewrite ?Htok; step; done.
Qed.

(** X17. A user found in the users collection only is logged in when the
    SDK accepts the saved token, and is not when it does not: the
    manual path looks in the clients collection alone. *)
Theorem token_users_fallback (w : World num) (deviceId lastChecked : string)
  (device : Device) (a b c : string) (tokenData : Claims) (user : User) :
  nonEmpty deviceId = true ->
  findDevice (store w) deviceId = Some device ->
  nonEmpty (dev_token device) = true ->
  dev_token device <> lastChecked ->
  tokenAccepted decodePayload (now w) (dev_token device) = true ->
  splitDots (dev_token device) = [a; b; c] ->
  decodePayload b = Some tokenData ->
  nonEmpty (userIdClaim tokenData) = true ->
  findRecord "clients" clients usr_id (userIdClaim tokenData) (store w) = None ->
  findRecord "users" users usr_id (userIdClaim tokenData) (store w) = Some user ->
  let run := checkDeviceTokenAndLogin decodePayload parsesAsJson sdkIsValid
      (Some deviceId) lastChecked w in
  let w' := snd run in
  if sdkIsValid (now w) (dev_token device) then
    fst run = Val true
    /\ effects w' =
       (effects w ++ [AutoLogin (usr_id user) (displayName user) deviceId])%list
  else fst run = Val false /\ effects w' = effects w.
Proof.
  intros Hid Hfind Htok Hnew Hacc Hsplit Hdec Huid Hclient Huser.
  unfold findDevice in Hfind.
  unfold checkDeviceTokenAndLogin. cbn [truthyId default].
  rewrite Hid. unfold_monad. unfold getOne. step. rewrite Hfind. step.
  rewrite Htok. apply String.eqb_neq in Hnew. rewrite Hnew. step.
  unfold setLastCheckedToken, modify. step.
  rewrite validateToken_run. step. rewrite Hacc. step.
  unfold authStoreSave, setItem, decode. unfold_monad.
  destruct (negb (isBlank (dev_client_record device))
            && parsesAsJson (dev_client_record device)); step;
    rewrite ?Htok; step.
  all: destruct (sdkIsValid (now w) (dev_token device)); step; rewrite ?Htok; step.
  all: rewrite Hsplit; step; rewrite Hdec; step; rewrite Huid; step.
  all: unfold getOne, onAutoLogin; unfold_monad; step; rewrite Hclient; step.
  all: rewrite ?Huser; step; done.
Qed.

End TokenMore.

(** The part of an address before the at sign is empty exactly when the
    address is empty or begins with the at sign. *)
Lemma beforeAt_empty (s : string) :
  beforeAt s = "" <-> s = "" \/ exists rest, s = String "@" rest.
Proof.
  destruct s as [|c s]; simpl.
  - split; [by left|done].
  - destruct (Ascii.eqb_spec c "@"%char) as [->|Hc].
    + split; [intros _; right; by eexists|done].
    + split; [done|]. intros [H|[rest H]]; [done|]. injection H as -> _. done.
Qed.

(** X18. The display name of a user is never empty, except for a user
    without username whose e-mail address begins with the at sign. *)
Theorem displayName_empty (u : User) :
  displayName u = ""
  <-> usr_username u = "" /\ exists rest, usr_email u = String "@" rest.
Proof.
  unfold displayName, nonEmpty.
  destruct (String.eqb_spec (usr_username u) "") as [Hu|Hu]; cbn [negb].
  - destruct (String.eqb_spec (usr_email u) "") as [He|He]; cbn [negb].
    + split; [done|]. intros [_ [rest H]]. congruence.
    + rewrite beforeAt_empty. split.
      * intros [H|H]; [done|by split].
      * intros [_ H]. by right.
  - split; [done|]. by intros [H _].
Qed.

(** The check of the token world, run twice: the second run does
    nothing. *)
Lemma token_handled_once_witness :
  let check :=
    checkDeviceTokenAndLogin (num:=Q) decodeEmptyObject (fun _ => true)
      (fun _ _ => false) (Some "d1") in
  let w1 := snd (check (lastCheckedToken tokenWorld) tokenWorld) in
  check (lastCheckedToken w1) w1 = (Val false, w1).
Proof.
  exact (token_handled_once (num:=Q) decodeEmptyObject (fun _ => true)
           (fun _ _ => false) tokenWorld "d1"
           {| dev_id := "d1"; dev_group := "g1"; dev_status := "Occupied";
              dev_token := emptyPayloadToken; dev_client_record := "" |}
           eq_refl eq_refl).
Defined.

(** A token whose payload cannot be decoded is rejected, and only
    remembered. *)
Lemma token_rejected_witness :
  checkDeviceTokenAndLogin (num:=Q) (fun _ => None) (fun _ => true)
    (fun _ _ => false) (Some "d1") "" tokenWorld
  = (Val false, with_lastCheckedToken emptyPayloadToken tokenWorld).
Proof.
  assert (emptyPayloadToken <> "") as Hnew by discriminate.
  exact (token_rejected (num:=Q) (fun _ => None) (fun _ => true)
           (fun _ _ => false) tokenWorld "d1" ""
           {| dev_id := "d1"; dev_group := "g1"; dev_status := "Occupied";
              dev_token := emptyPayloadToken; dev_client_record := "" |}
           eq_refl eq_refl eq_refl Hnew eq_refl).
Defined.

(** The token of client [u1] logs the client in under the name taken
    from the e-mail address. *)
Lemma token_logs_client_in_witness :
  let run :=
    checkDeviceTokenAndLogin (num:=Q) decodeUser1 (fun _ => true)
      (fun _ _ => true) (Some "d1") "" (userTokenWorld [u1] []) in
  fst run = Val true
  /\ effects (snd run) = [AutoLogin "u1" "ann" "d1"]
  /\ auth_token (authStore (snd run)) = userToken.
Proof.
  assert (dev_token d1WithToken <> "") as Hnew by discriminate.
  destruct (token_logs_client_in (num:=Q) decodeUser1 (fun _ => true)
              (fun _ _ => true) (userTokenWorld [u1] []) "d1" "" d1WithToken
              "header" "payload" "signature"
              {| claim_id := "u1"; claim_sub := ""; claim_user_id := "";
                 claim_userId := ""; claim_exp := 0 |}
              u1 eq_refl eq_refl eq_refl Hnew eq_refl eq_refl eq_refl eq_refl
              eq_refl)
    as (Hr & He & Ha & _).
  split; [exact Hr|]. split; [exact He|exact Ha].
Defined.

(** The same token when [u1] is a user and not a client, and the SDK
    does not accept the token: nobody is logged in. *)
Lemma token_users_fallback_witness :
  let run :=
    checkDeviceTokenAndLogin (num:=Q) decodeUser1 (fun _ => true)
      (fun _ _ => false) (Some "d1") "" (userTokenWorld [] [u1]) in
  fst run = Val false /\ effects (snd run) = [].
Proof.
  assert (dev_token d1WithToken <> "") as Hnew by discriminate.
  exact (token_users_fallback (num:=Q) decodeUser1 (fun _ => true)
           (fun _ _ => false) (userTokenWorld [] [u1]) "d1" "" d1WithToken
           "header" "payload" "signature"
           {| claim_id := "u1"; claim_sub := ""; claim_user_id := "";
              claim_userId := ""; claim_exp := 0 |}
           u1 eq_refl eq_refl eq_refl Hnew eq_refl eq_refl eq_refl eq_refl
           eq_refl eq_refl).
Defined.

(** ** More on the kiosk lock *)

Section KioskMore.
Context {num : Type} {N : JsNum num}.

(** X19. Locking and unlocking are idempotent, and when the native
    calls succeed unlocking absorbs a lock that precedes it and locking
    after unlocking gives the locked desktop (centred): the terminal is
    in the state of the last call. *)
Theorem kiosk_last_call_wins (w : World num) :
  let lock (w : World num) := snd (enableKioskMode (R:=unit) w) in
  let unlock (w : World num) := snd (disableKioskMode (R:=unit) w) in
  lock (lock w) = lock w
  /\ unlock (unlock w) = unlock w
  /\ (os_fails (desktop w) = false -> unlock (lock w) = unlock w)
  /\ (os_fails (desktop w) = false ->
      desktop (lock (unlock w))
      = with_centered true (desktop (lock w))).
Proof.
  cbv zeta.
  destruct w as [t st ls auth neu [sw sh win fs cen osf kh] j e tm s ss lt
                   [li km has asd]].
  destruct osf, fs, kh;
    unfold enableKioskMode, disableKioskMode, native, nativeIsFullScreen;
    unfold_monad;
    repeat (progress (step;
      cbn [os_fails with_window with_fullScreen with_centered
           with_keyboardHandler fullScreen window keyboardHandler
           screen_width screen_height centered kioskWindow]));
    rewrite ?insert_insert_eq; repeat split; try done;
    intros E; discriminate E.
Qed.

(** X20. When the native window calls are rejected, locking changes
    nothing on the desktop (the key filter is not installed either) and
    records that the kiosk mode is off; unlocking changes nothing at
    all. *)
Theorem kiosk_native_failure (w : World num) :
  os_fails (desktop w) = true ->
  enableKioskMode (R:=unit) w
  = (Val tt, with_app (with_isKioskMode false (app w)) w)
  /\ disableKioskMode (R:=unit) w = (Val tt, w).
Proof.
  intros Hos.
  unfold enableKioskMode, disableKioskMode, native, nativeIsFullScreen.
  unfold_monad. rewrite Hos. by step.
Qed.

End KioskMore.

(** On a terminal whose native calls are rejected, unlocking the locked
    desktop leaves it locked. *)
Lemma kiosk_native_failure_witness :
  let w : World Q := withFailingOs runningWorld in
  desktop (snd (disableKioskMode (R:=unit) w)) = desktop w
  /\ fullScreen (desktop w) = true.
Proof.
  destruct (kiosk_native_failure (num:=Q) (withFailingOs runningWorld) eq_refl)
    as (_ & Hd).
  cbv zeta. rewrite Hd. split; reflexivity.
Defined.

(** ** The realtime data *)

Section RealtimeFacts.
Context {A : Type} (idOf : A -> string).

(** X21. The events of the realtime hook on its data: an update keeps
    the ids in their order, is dropped when no item has the id of the
    record, and leaves the record in place of every item of that id; a
    delete removes every item of that id and nothing else; a create
    puts the record first, also when an item of that id is present,
    and a delete undoes it when the id is new. *)
Theorem realtime_event_laws (record : A) (prevData : list A) :
  map idOf (onRealtimeEvent idOf "update" record prevData) = map idOf prevData
  /\ (existsb (hasId idOf (idOf record)) prevData = false ->
      onRealtimeEvent idOf "update" record prevData = prevData)
  /\ (forall item, In item (onRealtimeEvent idOf "update" record prevData) ->
      idOf item = idOf record -> item = record)
  /\ existsb (hasId idOf (idOf record))
       (onRealtimeEvent idOf "delete" record prevData) = false
  /\ (forall item, idOf item <> idOf record ->
      In item (onRealtimeEvent idOf "delete" record prevData) <-> In item prevData)
  /\ head (onRealtimeEvent idOf "create" record prevData) = Some record
  /\ (existsb (hasId idOf (idOf record)) prevData = false ->
      onRealtimeEvent idOf "delete" record
        (onRealtimeEvent idOf "create" record prevData) = prevData).
Proof.
  unfold onRealtimeEvent, hasId. cbn [String.eqb Ascii.eqb Bool.eqb].
  split; [|split; [|split; [|split; [|split; [|split]]]]].
  - induction prevData as [|a l IH]; [done|]. simpl.
    destruct (String.eqb_spec (idOf a) (idOf record)) as [E|E];
      by rewrite IH, ?E.
  - induction prevData as [|a l IH]; [done|]. simpl.
    intros H. apply orb_false_iff in H as [Ha Hl]. rewrite Ha. by rewrite IH.
  - intros item Hin Hid. apply in_map_iff in Hin as (x & Hx & _).
    destruct (String.eqb_spec (idOf x) (idOf record)) as [E|E]; [done|].
    subst x. by destruct E.
  - induction prevData as [|a l IH]; [done|]. simpl.
    destruct (String.eqb (idOf a) (idOf record)) eqn:E; simpl; [done|].
    by rewrite E.
  - intros item Hne. rewrite filter_In. split; [by intros [H _]|].
    intros H. split; [done|]. apply negb_true_iff. by apply String.eqb_neq.
  - done.
  - intros H. simpl. rewrite String.eqb_refl. simpl.
    induction prevData as [|a l IH]; [done|]. simpl in *.
    apply orb_false_iff in H as [Ha Hl]. rewrite Ha. simpl. by rewrite IH.
Qed.

End RealtimeFacts.

Section RealtimeSession.
Context {num : Type} {N : JsNum num}.
Variable cal : Calendar.

(** The times and the active flag of SessionManager follow the first
    item of the realtime data. *)
Lemma onSessionData_head (w : World num) (snap : SMState num)
  (s : Session num) (rest : list (Session num)) :
  let w' := snd (onSessionData snap (s :: rest) w) in
  inTime (sm w') = Some (parseDate (ses_in_time s))
  /\ outTime (sm w') = Some (parseDate (ses_out_time s))
  /\ isSessionActive (sm w') = String.eqb (ses_status s) "Active"
  /\ sessionId (sm w') = sessionId (sm w)
  /\ notificationShown (sm w') = notificationShown (sm w)
  /\ journal w' = journal w /\ store w' = store w /\ effects w' = effects w
  /\ timers w' = timers w.
Proof.
  unfold onSessionData, getOne. unfold_monad. step.
  destruct (nonEmpty (ses_device s) && isNone (deviceInfo snap)); step;
    [destruct (findRecord _ _ _ _ _); step|]; repeat split; done.
Qed.

(** X22. A create event of the subscription is not matched against the
    session the component tracks: the session created, of whatever
    device, becomes the first item of the data, and the component takes
    its times and is active exactly when its status is Active, while it
    keeps the session id it tracked. *)
Theorem realtime_create_takes_over (w : World num) (snap : SMState num)
  (record : Session num) (prevData : list (Session num)) :
  let data := onRealtimeEvent ses_id "create" record prevData in
  let w' := snd (onSessionData snap data w) in
  inTime (sm w') = Some (parseDate (ses_in_time record))
  /\ outTime (sm w') = Some (parseDate (ses_out_time record))
  /\ isSessionActive (sm w') = String.eqb (ses_status record) "Active"
  /\ sessionId (sm w') = sessionId (sm w).
Proof.
  cbv zeta. unfold onRealtimeEvent. cbn [String.eqb Ascii.eqb Bool.eqb].
  destruct (onSessionData_head w snap record prevData)
    as (H1 & H2 & H3 & H4 & _).
  done.
Qed.

(** X23. An update event for the session at the head of the data whose
    status is not Active (an extension writes Extended) makes the
    component take the times of the record and mark the session as not
    active; a tick then sends nothing, shows nothing and arms nothing,
    so the end of that session is not handled by this component. *)
Theorem realtime_update_not_active (w : World num) (snap : SMState num)
  (record s0 : Session num) (rest : list (Session num)) :
  ses_id s0 = ses_id record ->
  String.eqb (ses_status record) "Active" = false ->
  let data := onRealtimeEvent ses_id "update" record (s0 :: rest) in
  let w' := snd (onSessionData snap data w) in
  isSessionActive (sm w') = false
  /\ inTime (sm w') = Some (parseDate (ses_in_time record))
  /\ outTime (sm w') = Some (parseDate (ses_out_time record))
  /\ journal (snd (tick cal w')) = journal w
  /\ effects (snd (tick cal w')) = effects w
  /\ timers (snd (tick cal w')) = timers w.
Proof.
  intros Hid Hst. cbv zeta. unfold onRealtimeEvent.
  cbn [String.eqb Ascii.eqb Bool.eqb map]. rewrite Hid, String.eqb_refl.
  match goal with
  | |- context [onSessionData ?snap (?r :: ?l) ?w0] =>
      destruct (onSessionData_head w0 snap r l)
        as (Hi & Ho & Ha & _ & _ & Hj & _ & He & Ht);
      set (w2 := snd (onSessionData snap (r :: l) w0)) in *
  end.
  rewrite Hst in Ha.
  destruct (tick_inactive cal w2 Ha) as (Hj' & _ & He' & Ht').
  rewrite Hj', He', Ht'. by repeat split.
Qed.

End RealtimeSession.

(** The running session, seen at 12:01, after the update event of an
    extension to 12:00: the component is not active, and its tick
    closes nothing. *)
Lemma realtime_update_not_active_witness :
  let w : World Q := with_now (utcInstant 2024 1 1 12 1) runningWorld in
  let record : Session Q :=
    s1 "Extended" (utcInstant 2024 1 1 10 0) (utcInstant 2024 1 1 12 0) in
  let s0 : Session Q :=
    s1 "Active" (utcInstant 2024 1 1 10 0) (utcInstant 2024 1 1 11 0) in
  let data := onRealtimeEvent ses_id "update" record [s0] in
  let w' := snd (onSessionData (sm runningWorld) data w) in
  isSessionActive (sm w') = false
  /\ outTime (sm w') = Some (parseDate (ses_out_time record))
  /\ journal (snd (tick utc w')) = journal w.
Proof.
  pose proof (realtime_update_not_active (num:=Q) utc
                (with_now (utcInstant 2024 1 1 12 1) runningWorld)
                (sm runningWorld)
                (s1 "Extended" (utcInstant 2024 1 1 10 0)
                   (utcInstant 2024 1 1 12 0))
                (s1 "Active" (utcInstant 2024 1 1 10 0)
                   (utcInstant 2024 1 1 11 0))
                [] eq_refl eq_refl) as H.
  cbv zeta in *. destruct H as (Ha & _ & Ho & Hj & _).
  split; [exact Ha|]. split; [exact Ho|exact Hj].
Defined.

(** ** The creation of a session *)

Section CreationFacts.
Context {num : Type} {N : JsNum num}.
Variable cal : Calendar.
Variable newId : Store num -> string.

(** X24. With a device id in the local storage and a reachable sessions
    collection, createSession stores one new session: Active, on that
    device, from now to one hour later, 60 minutes long, with the
    amounts the resolver gives for one hour and nothing paid; the
    component tracks it, and one log entry of type Create is sent. *)
Theorem createSession_creates (w : World num) (deviceId : string) :
  storedDeviceId (R:=option (Session num)) w = (Val (Some deviceId), w) ->
  nonEmpty deviceId = true ->
  collection_ok (store w) "sessions" = true ->
  let c := priced cal (store w) (now w) deviceId (Some (ofZ 1)) in
  let run := createSession cal newId w in
  let w' := snd run in
  exists s,
    fst run = Val (Some s)
    /\ sessions (store w') = (sessions (store w) ++ [s])%list
    /\ ses_device s = deviceId /\ ses_status s = "Active"
    /\ ses_in_time s = Some (now w)
    /\ ses_out_time s = Some (now w + 60 * 60 * 1000)
    /\ ses_duration s = ofZ 60
    /\ ses_session_total s = finalCostOr0 c
    /\ ses_total_amount s = finalCostOr0 c
    /\ ses_discount_amount s = discountAmountOr0 c
    /\ ses_discount_rate s = discountRateOr0 c
    /\ ses_amount_paid s = ofZ 0
    /\ sessionId (sm w') = Some (ses_id s)
    /\ inTime (sm w') = Some (Instant (now w))
    /\ outTime (sm w') = Some (Instant (now w + 60 * 60 * 1000))
    /\ isSessionActive (sm w') = true /\ loading (sm w') = false
    /\ journal w' =
       (journal w ++
        [CreateSessionLog
           {| log_session_id := ses_id s; log_type := "Create";
              log_session_amount := ofZ 0 |}])%list.
Proof.
  intros Hdev Hid Hok c run w'. subst w' run c.
  unfold createSession, create, createSessionRecord, insertSession.
  unfold_monad. step.
  rewrite (storedDeviceId_local (R:=option (Session num))
             (R':=option (Session num)) w _ (Some deviceId) Hdev) by reflexivity.
  step. unfold getOne. step.
  destruct (findRecord "devices" devices dev_id deviceId (store w)); step;
    rewrite Hid; step; rewrite fetch_run; step; rewrite Hok; step;
    cbn [createdSession ses_in_time ses_out_time]; step;
    unfold createSessionLog, appendLog; step;
    match goal with
    | |- context [collection_ok ?st "session_logs"] =>
        destruct (collection_ok st "session_logs")
    end; step;
    eexists; (split; [reflexivity|]); cbn [createdSession ses_device ses_status
      ses_in_time ses_out_time ses_duration ses_session_total ses_total_amount
      ses_discount_amount ses_discount_rate ses_amount_paid ses_id
      withDeviceAndCost newSessionData new_device new_status new_in_time
      new_out_time new_duration new_session_total new_total_amount
      new_discount_amount new_discount_rate new_amount_paid];
    repeat split; try done.
Qed.

(** X25. When the sessions collection rejects the creation,
    createSession returns null and reports the failure: no session is
    stored, no log is sent, the component tracks no new session, and
    the loading flag is cleared. *)
Theorem createSession_fails_softly (w : World num) :
  collection_ok (store w) "sessions" = false ->
  let run := createSession cal newId w in
  let w' := snd run in
  fst run = Val None
  /\ store w' = store w /\ journal w' = journal w
  /\ error (sm w')
     = Some "Failed to create session: Failed to create session - no session data returned"
  /\ loading (sm w') = false
  /\ sessionId (sm w') = sessionId (sm w)
  /\ isSessionActive (sm w') = isSessionActive (sm w).
Proof.
  intros Hok. cbv zeta.
  unfold createSession, create, createSessionRecord, insertSession.
  unfold_monad. step.
  destruct (storedDeviceId_reads (R:=option (Session num)) w) as (o & Ho & Hret).
  rewrite Ho by reflexivity.
  destruct o as [[id|]|r|]; step; [| | by destruct (Hret r) |].
  - unfold getOne. step.
    destruct (findRecord "devices" devices dev_id id (store w)); step;
      destruct (nonEmpty id); step; rewrite ?fetch_run; step; rewrite Hok; step;
      rewrite ?(proj1 (pricedState_keeps _ _ _ _ _ _)),
        ?(proj1 (proj2 (proj2 (proj2 (proj2 (pricedState_keeps _ _ _ _ _ _))))));
      step; repeat split; done.
  - unfold getList. step.
    destruct (listRecords _ _ _ _ _ _ _) as [[|d l]|]; step;
      try destruct (nonEmpty (dev_id d)); step; rewrite ?fetch_run; step;
      rewrite Hok; step;
      rewrite ?(proj1 (pricedState_keeps _ _ _ _ _ _)),
        ?(proj1 (proj2 (proj2 (proj2 (proj2 (pricedState_keeps _ _ _ _ _ _))))));
      step; repeat split; done.
  - rewrite Hok. step. repeat split; done.
Qed.

(** X26. When no device can be determined (no device id is stored and
    no Available device is found), the session is created all the same,
    without device and with zero amounts, and the component becomes
    active. *)
Theorem createSession_without_device (w : World num) :
  (forall id, fst (storedDeviceId (R:=option (Session num)) w) <> Val (Some id)) ->
  List.filter availableDevice (devices (store w)) = [] ->
  collection_ok (store w) "sessions" = true ->
  let run := createSession cal newId w in
  let w' := snd run in
  exists s,
    fst run = Val (Some s)
    /\ sessions (store w') = (sessions (store w) ++ [s])%list
    /\ ses_device s = "" /\ ses_status s = "Active"
    /\ ses_session_total s = ofZ 0 /\ ses_total_amount s = ofZ 0
    /\ ses_out_time s = Some (now w + 60 * 60 * 1000)
    /\ deviceInfo (sm w') = deviceInfo (sm w)
    /\ isSessionActive (sm w') = true.
Proof.
  intros Hno Hav Hok. cbv zeta.
  unfold createSession, create, createSessionRecord, insertSession.
  unfold_monad. step.
  destruct (storedDeviceId_reads (R:=option (Session num)) w) as (o & Ho & Hret).
  rewrite (Ho w eq_refl) in Hno. cbn [fst] in Hno.
  rewrite Ho by reflexivity.
  destruct o as [[id|]|r|]; step;
    [by destruct (Hno id)| |by destruct (Hret r)|].
  - unfold getList, listRecords. step. rewrite Hav.
    destruct (collection_ok (store w) "devices"); cbn [take drop Nat.mul Nat.sub]; step;
      rewrite Hok; step;
      cbn [createdSession ses_in_time ses_out_time]; step;
      unfold createSessionLog, appendLog; step;
      match goal with
      | |- context [collection_ok ?st "session_logs"] =>
          destruct (collection_ok st "session_logs")
      end; step; eexists; (split; [reflexivity|]);
      cbn [createdSession ses_device ses_status ses_in_time ses_out_time
           ses_session_total ses_total_amount newSessionData new_device
           new_status new_in_time new_out_time new_session_total
           new_total_amount];
      repeat split; done.
  - rewrite Hok. step. cbn [createdSession ses_in_time ses_out_time]; step.
    unfold createSessionLog, appendLog; step.
    match goal with
    | |- context [collection_ok ?st "session_logs"] =>
        destruct (collection_ok st "session_logs")
    end; step; eexists; (split; [reflexivity|]);
      cbn [createdSession ses_device ses_status ses_in_time ses_out_time
           ses_session_total ses_total_amount newSessionData new_device
           new_status new_in_time new_out_time new_session_total
           new_total_amount];
      repeat split; done.
Qed.

End CreationFacts.

(** On Monday morning inside the 20 percent happy hour, terminal [d1]
    gets a session of one hour at 80. *)
Lemma createSession_creates_witness :
  let w : World Q := pricingWorld 20 0 in
  let run := createSession utc (fun _ => "s9") w in
  exists s,
    fst run = Val (Some s)
    /\ sessions (store (snd run)) = [s]
    /\ ses_device s = "d1" /\ ses_id s = "s9"
    /\ (ses_session_total s == 80)%Q.
Proof.
  destruct (createSession_creates (num:=Q) utc (fun _ => "s9")
              (pricingWorld 20 0) "d1" eq_refl eq_refl eq_refl)
    as (s & Hr & Hs & Hd & _ & _ & _ & _ & Ht & _ & _ & _ & _ & Hid & _).
  exists s. split; [exact Hr|]. split; [exact Hs|]. split; [exact Hd|].
  split.
  - cbv zeta in Hr. vm_compute in Hr. injection Hr as <-. reflexivity.
  - rewrite Ht. vm_compute. reflexivity.
Defined.

(** With an unreachable sessions collection nothing is created. *)
Lemma createSession_fails_softly_witness :
  let w : World Q := withUnreachable "sessions" (pricingWorld 20 0) in
  let run := createSession utc (fun _ => "s9") w in
  fst run = Val None /\ store (snd run) = store w.
Proof.
  destruct (createSession_fails_softly (num:=Q) utc (fun _ => "s9")
              (withUnreachable "sessions" (pricingWorld 20 0)) eq_refl)
    as (Hr & Hs & _).
  split; [exact Hr|exact Hs].
Defined.

(** With an empty local storage and the occupied terminal [d1] only, a
    session without device is created. *)
Lemma createSession_without_device_witness :
  let w : World Q := withEmptyStorage (pricingWorld 20 0) in
  let run := createSession utc (fun _ => "s9") w in
  exists s,
    fst run = Val (Some s) /\ ses_device s = ""
    /\ isSessionActive (sm (snd run)) = true.
Proof.
  assert (forall id,
             fst (storedDeviceId (R:=option (Session Q))
                    (withEmptyStorage (pricingWorld 20 0)))
             <> Val (Some id)) as Hno
    by (intros id; vm_compute; discriminate).
  destruct (createSession_without_device (num:=Q) utc (fun _ => "s9")
              (withEmptyStorage (pricingWorld 20 0)) Hno eq_refl eq_refl)
    as (s & Hr & _ & Hd & _ & _ & _ & _ & _ & Ha).
  exists s. split; [exact Hr|]. split; [exact Hd|exact Ha].
Defined.

Ltac unfold_app :=
  unfold clearLogin, storeLoginInfo, setIsLoggedIn, setUsername, setUserId;
  unfold callA, tryCatchA, bindA, retA, lift, setShell;
  unfold enableKioskMode, disableKioskMode, native, nativeIsFullScreen,
    getList, updateSessionRecord, createSessionLog, updateDeviceRecord;
  unfold_monad.

Ltac stepA :=
  repeat progress
    (cbv beta iota zeta;
     cbn [world shell with_world with_shell app_username app_userId
          with_app_username with_app_userId
          with_isLoggedIn os_fails with_window with_fullScreen with_centered
          with_keyboardHandler fullScreen window keyboardHandler screen_width
          screen_height centered];
     proj).

(** ** App: login and logout *)

Section AppFacts.
Context {num : Type} {N : JsNum num}.

(** Locking and unlocking always complete, and touch only the desktop,
    the kiosk flag and (for unlocking) the stored window size. *)
Lemma enableKioskMode_frame {R} (w : World num) :
  exists w', enableKioskMode (R:=R) w = (Val tt, w')
    /\ journal w' = journal w /\ store w' = store w /\ effects w' = effects w
    /\ timers w' = timers w /\ localStorage w' = localStorage w
    /\ authStore w' = authStore w /\ sm w' = sm w
    /\ isLoggedIn (app w') = isLoggedIn (app w)
    /\ hasActiveSession (app w') = hasActiveSession (app w)
    /\ activeSessionData (app w') = activeSessionData (app w)
    /\ (os_fails (desktop w) = false ->
        fullScreen (desktop w') = true /\ keyboardHandler (desktop w') = true
        /\ window (desktop w') = kioskWindow (desktop w)
        /\ isKioskMode (app w') = true)
    /\ (os_fails (desktop w) = true -> desktop w' = desktop w).
Proof.
  unfold enableKioskMode, native, nativeIsFullScreen. unfold_monad.
  destruct (os_fails (desktop w)) eqn:Hos, (keyboardHandler (desktop w)) eqn:Hk;
    repeat (progress (step;
      cbn [os_fails with_window with_fullScreen with_centered
           with_keyboardHandler fullScreen window keyboardHandler
           screen_width screen_height centered];
      rewrite ?Hos, ?Hk));
    eexists; (split; [reflexivity|]); repeat split; try done;
    intros E; discriminate E.
Qed.

Lemma disableKioskMode_frame {R} (w : World num) :
  exists w', disableKioskMode (R:=R) w = (Val tt, w')
    /\ journal w' = journal w /\ store w' = store w /\ effects w' = effects w
    /\ timers w' = timers w
    /\ (forall k, k <> "window_size" -> localStorage w' !! k = localStorage w !! k)
    /\ authStore w' = authStore w /\ sm w' = sm w
    /\ isLoggedIn (app w') = isLoggedIn (app w)
    /\ hasActiveSession (app w') = hasActiveSession (app w)
    /\ activeSessionData (app w') = activeSessionData (app w)
    /\ (os_fails (desktop w) = false ->
        fullScreen (desktop w') = false /\ keyboardHandler (desktop w') = false
        /\ window (desktop w') = normalWindow
        /\ isKioskMode (app w') = false)
    /\ (os_fails (desktop w) = true -> desktop w' = desktop w).
Proof.
  unfold disableKioskMode, native, nativeIsFullScreen. unfold_monad.
  destruct (os_fails (desktop w)) eqn:Hos, (keyboardHandler (desktop w)) eqn:Hk,
    (fullScreen (desktop w)) eqn:Hfs;
    repeat (progress (step;
      cbn [os_fails with_window with_fullScreen with_centered
           with_keyboardHandler fullScreen window keyboardHandler
           screen_width screen_height centered];
      rewrite ?Hos, ?Hk, ?Hfs));
    eexists; (split; [reflexivity|]); repeat split; try done;
    try (intros E; discriminate E);
    intros k Hk'; step; try (rewrite lookup_insert_ne; [|congruence]); done.
Qed.

(** The block that closes and releases always completes and touches the
    store and the journal only. *)
Lemma closeAndRelease_frame (a : AppWorld num) (deviceId : string) :
  exists a', closeAndRelease deviceId a = (Val tt, a')
    /\ shell a' = shell a
    /\ localStorage (world a') = localStorage (world a)
    /\ authStore (world a') = authStore (world a)
    /\ effects (world a') = effects (world a)
    /\ timers (world a') = timers (world a)
    /\ app (world a') = app (world a)
    /\ desktop (world a') = desktop (world a)
    /\ sm (world a') = sm (world a).
Proof.
  unfold closeAndRelease. unfold_app. stepA.
  destruct (listRecords _ _ _ _ _ _ _) as [[|ses rest]|]; stepA.
  all: try (destruct (findSession _ _); stepA).
  all: try (match goal with
            | |- context [collection_ok ?st "session_logs"] =>
                destruct (collection_ok st "session_logs"); stepA
            end).
  all: try (destruct (findDevice _ _); stepA).
  all: eexists; (split; [reflexivity|]); repeat split; done.
Qed.

(** X27. Whatever happens on the way (no stored login, an item that
    does not parse, a rejected request), the Logout button ends with
    the user logged out: the login state, the name and the user id are
    cleared, the auth store and its persisted copy are empty, the
    stored login is removed, and the kiosk lock is requested by an
    event. The client-app flag is removed too, except when the stored
    login does not parse: the handler of that error leaves the flag as
    it is. *)
Theorem logout_always_logs_out (a : AppWorld num) :
  let a' := snd (logoutOnClick a) in
  let w' := world a' in
  isLoggedIn (app w') = false
  /\ app_username (shell a') = "" /\ app_userId (shell a') = None
  /\ authStore w' = {| auth_token := ""; auth_record := None |}
  /\ localStorage w' !! "user_login_info" = None
  /\ localStorage w' !! "pocketbase_auth" = None
  /\ (exists reason, In (KioskEvent reason true) (effects w'))
  /\ match localStorage (world a) !! "user_login_info" with
     | Some (JText (String _ _)) =>
         localStorage w' !! "client_app_login"
         = localStorage (world a) !! "client_app_login"
     | _ => localStorage w' !! "client_app_login" = None
     end.
Proof.
  cbv zeta. destruct (logoutOnClick a) as [o a'] eqn:Hrun. cbn [snd].
  revert Hrun. unfold logoutOnClick, parsedDeviceId.
  unfold callA at 1. unfold tryCatchA at 1. unfold bindA at 1 2.
  unfold lift at 1 2, get. stepA.
  destruct (localStorage (world a) !! "user_login_info")
    as [[[|c s]|fields]|] eqn:Hitem.
  2:{ unfold_app. stepA. intros [= <- <-]. stepA.
      repeat split; try done; try by simplify_map_eq.
      eexists. apply in_app_iff. right. by left. }
  all: try (destruct (List.find _ fields) as [[k v]|];
            [destruct (nonEmpty v)|]).
  all: unfold ret, throw; stepA.
  all: unfold bindA at 1.
  all: first
         [ match goal with
           | |- context [closeAndRelease ?d ?a0] =>
               destruct (closeAndRelease_frame a0 d)
                 as (a1 & -> & Hsh & Hls & Hau & Hef & Htm & Hap & Hde & Hsm)
           end
         | unfold retA at 1 ].
  all: unfold clearLogin, setIsLoggedIn, setUsername, setUserId;
       unfold tryCatchA, bindA, retA, lift, setShell;
       unfold setApp, authStoreClear, removeItem, emit; unfold_monad; stepA.
  all: match goal with
       | |- context [enableKioskMode ?w0] =>
           destruct (enableKioskMode_frame (R:=unit) w0)
             as (w2 & -> & _ & _ & He2 & _ & Hl2 & Ha2 & _ & Hi2 & _)
       end; stepA.
  all: intros [= <- <-]; stepA.
  all: rewrite ?Hl2, ?He2, ?Ha2, ?Hi2; stepA.
  all: repeat split; try done; try by simplify_map_eq.
  all: try (eexists; rewrite in_app_iff; right; by left).
Qed.


(** What handleLogin stores is what the Logout button reads. *)
Lemma parsed_loginInfo {R} (username userId deviceId : string) :
  parsedDeviceId (num:=num) (R:=R) (Some (loginInfo username userId deviceId))
  = ret (if nonEmpty deviceId then Some deviceId else None).
Proof. reflexivity. Qed.

(** The requests of the block that closes and releases, and the store
    they leave. *)
Lemma closeAndRelease_run (a : AppWorld num) (deviceId : string) :
  exists a', closeAndRelease deviceId a = (Val tt, a')
  /\ journal (world a')
    = (journal (world a) ++
       match listRecords "sessions" sessions 1 1 (openSessionFilter deviceId)
               true (store (world a)) with
       | None => []
       | Some [] => [UpdateDevice deviceId releasePatch]
       | Some (s :: _) =>
           UpdateSession (ses_id s) (logoutPatch (orZero (ses_session_total s)))
           :: CreateSessionLog (logoutEntry s)
           :: (if collection_ok (store (world a)) "session_logs"
               then [UpdateDevice deviceId releasePatch] else [])
       end)%list
  /\ store (world a')
     = match listRecords "sessions" sessions 1 1 (openSessionFilter deviceId)
               true (store (world a)) with
       | None => store (world a)
       | Some [] => patchDevices deviceId releasePatch (store (world a))
       | Some (s :: _) =>
           let closed :=
             patchSessions (ses_id s)
               (logoutPatch (orZero (ses_session_total s))) (store (world a)) in
           if collection_ok (store (world a)) "session_logs"
           then patchDevices deviceId releasePatch
                  (appendLog (logoutEntry s) closed)
           else appendLog (logoutEntry s) closed
       end.
Proof.
  unfold closeAndRelease. unfold_app. stepA.
  destruct (listRecords _ _ _ _ _ _ _) as [[|ses rest]|] eqn:Hlist; stepA.
  - destruct (findDevice _ _); stepA;
      (eexists; split; [reflexivity|]; by stepA).
  - destruct (listed_session_found _ _ _ _ _ _ _ _ Hlist eq_refl) as [s' Hfound].
    rewrite Hfound. stepA.
    rewrite collection_ok_patchSessions.
    destruct (collection_ok (store (world a)) "session_logs") eqn:Hok; stepA.
    + destruct (findDevice _ _); stepA;
        (eexists; split; [reflexivity|]; stepA;
         by rewrite <- ?app_assoc).
    + eexists; split; [reflexivity|]; stepA. by rewrite <- ?app_assoc.
  - eexists; split; [reflexivity|]; stepA. by rewrite app_nil_r.
Qed.

(** X28. The Logout button, with the login of a device stored: it
    closes the newest open session of the device as paid at its
    recorded total, without discount, logs the closure and releases the
    device; with no open session it only releases the device; when the
    session query is rejected it sends nothing; and when the log is
    rejected the device is not released. The store is the one these
    requests give. *)
Theorem logout_closes_and_releases (a : AppWorld num)
  (username userId deviceId : string) :
  localStorage (world a) !! "user_login_info"
    = Some (loginInfo username userId deviceId) ->
  nonEmpty deviceId = true ->
  let w := world a in
  let w' := world (snd (logoutOnClick a)) in
  let close (s : Session num) :=
    UpdateSession (ses_id s) (logoutPatch (orZero (ses_session_total s))) in
  journal w'
  = (journal w ++
     match listRecords "sessions" sessions 1 1 (openSessionFilter deviceId) true
             (store w) with
     | None => []
     | Some [] => [UpdateDevice deviceId releasePatch]
     | Some (s :: _) =>
         close s :: CreateSessionLog (logoutEntry s)
         :: (if collection_ok (store w) "session_logs"
             then [UpdateDevice deviceId releasePatch] else [])
     end)%list
  /\ store w'
     = match listRecords "sessions" sessions 1 1 (openSessionFilter deviceId) true
               (store w) with
       | None => store w
       | Some [] => patchDevices deviceId releasePatch (store w)
       | Some (s :: _) =>
           let closed :=
             patchSessions (ses_id s)
               (logoutPatch (orZero (ses_session_total s))) (store w) in
           if collection_ok (store w) "session_logs"
           then patchDevices deviceId releasePatch
                  (appendLog (logoutEntry s) closed)
           else appendLog (logoutEntry s) closed
       end.
Proof.
  intros Hitem Hne. cbv zeta.
  destruct (logoutOnClick a) as [o a'] eqn:Hrun. cbn [snd].
  revert Hrun. unfold logoutOnClick.
  unfold callA at 1. unfold tryCatchA at 1. unfold bindA at 1 2.
  unfold lift at 1 2, get. stepA. rewrite Hitem, parsed_loginInfo, Hne.
  unfold ret; stepA. unfold bindA at 1.
  match goal with
  | |- context [closeAndRelease ?d ?a0] =>
      destruct (closeAndRelease_run a0 d) as (a1 & -> & Hj1 & Hs1)
  end.
  unfold clearLogin, setIsLoggedIn, setUsername, setUserId;
    unfold tryCatchA, bindA, retA, lift, setShell;
    unfold setApp, authStoreClear, removeItem, emit; unfold_monad; stepA.
  match goal with
  | |- context [enableKioskMode ?w0] =>
      destruct (enableKioskMode_frame (R:=unit) w0)
        as (w2 & -> & Hj2 & Hs2 & _)
  end; stepA.
  intros [= <- <-]; stepA. rewrite Hj2, Hs2. stepA. by rewrite Hj1, Hs1.
Qed.


Ltac unfold_handlers :=
  unfold clearLogin, storeLoginInfo, setIsLoggedIn, setUsername, setUserId;
  unfold callA, tryCatchA, bindA, retA, lift, setShell;
  unfold getList;
  unfold setHasActiveSession, setActiveSessionData, setApp;
  unfold bind, get, modify, ret, return_, throw.

Ltac kiosk_frame :=
  match goal with
  | |- context [enableKioskMode ?w0] =>
      destruct (enableKioskMode_frame (R:=unit) w0)
        as (w2 & -> & Hj & Hs & He & Ht & Hl & Ha & Hsm & Hli & Hha & Had
              & Hlock & _);
      destruct Hlock as (Hfs & Hkh & Hwin & Hkm); [done|]
  | |- context [disableKioskMode ?w0] =>
      destruct (disableKioskMode_frame (R:=unit) w0)
        as (w2 & -> & Hj & Hs & He & Ht & Hl & Ha & Hsm & Hli & Hha & Had
              & Hlock & _);
      destruct Hlock as (Hfs & Hkh & Hwin & Hkm); [done|]
  end.

Ltac kiosk_done :=
  intros [= <- <-]; stepA;
  repeat match goal with
         | H : _ = _ |- _ => rewrite H
         | H : forall k : string, _ -> _ = _ |- _ => rewrite H by done
         end;
  stepA; repeat split; try done; try by simplify_map_eq.

(** X29. After handleLogin the user is logged in and the login is
    stored with the device id of App, else that of the user. When the
    native calls succeed, the terminal is locked exactly when that
    device id is known, the session query succeeds and finds no open
    session, and the login is not a client-app login; the kiosk flag
    and the key filter agree with the lock. An open session found is
    recorded as the active session. The login sends no write
    request. *)
Theorem login_lock_decision (snapDeviceId : option string) (user : LoginUser)
  (a : AppWorld num) :
  os_fails (desktop (world a)) = false ->
  let d := orText (default "" snapDeviceId) (lu_deviceId user) in
  let clientApp :=
    match localStorage (world a) !! "client_app_login" with
    | Some (JText v) => String.eqb v "true"
    | _ => false
    end in
  let found :=
    if nonEmpty d
    then listRecords "sessions" sessions 1 1 (openSessionFilter d) true
           (store (world a))
    else None in
  let a' := snd (handleLogin snapDeviceId user a) in
  let w' := world a' in
  isLoggedIn (app w') = true
  /\ app_username (shell a') = lu_username user
  /\ app_userId (shell a') = Some (lu_id user)
  /\ localStorage w' !! "user_login_info"
     = Some (loginInfo (lu_username user) (lu_id user) d)
  /\ fullScreen (desktop w')
     = match found with Some [] => negb clientApp | _ => false end
  /\ isKioskMode (app w') = fullScreen (desktop w')
  /\ keyboardHandler (desktop w') = fullScreen (desktop w')
  /\ hasActiveSession (app w')
     = match found with
       | Some (_ :: _) => true
       | _ => hasActiveSession (app (world a))
       end
  /\ journal w' = journal (world a) /\ store w' = store (world a).
Proof.
  intros Hos. cbv zeta.
  destruct (handleLogin snapDeviceId user a) as [o a'] eqn:Hrun. cbn [snd].
  revert Hrun. unfold handleLogin. unfold_handlers. stepA.
  rewrite lookup_insert_ne by done.
  destruct (nonEmpty (orText _ _)) eqn:Hd; stepA.
  2:{ kiosk_frame. kiosk_done. }
  destruct (listRecords _ _ _ _ _ _ _) as [[|s rest]|]; stepA.
  - destruct (localStorage (world a) !! "client_app_login") as [[v|?]|];
      [destruct (String.eqb v "true")| |]; kiosk_frame; kiosk_done.
  - kiosk_frame. stepA. kiosk_done.
  - destruct (localStorage (world a) !! "client_app_login") as [[v|?]|];
      [destruct (String.eqb v "true")| |]; kiosk_frame; kiosk_done.
Qed.

(** X30. After handleAutoLogin the user is logged in and the login is
    stored with the device id handed over. When the native calls
    succeed, the terminal is locked exactly when that device id is
    known and the session query succeeds and finds no open session,
    whether or not the login is a client-app login; an open session
    found is recorded as the active session. The auto-login sends no
    write request. *)
Theorem auto_login_lock_decision (userData : LoginUser) (a : AppWorld num) :
  os_fails (desktop (world a)) = false ->
  let d := lu_deviceId userData in
  let found :=
    if nonEmpty d
    then listRecords "sessions" sessions 1 1 (openSessionFilter d) true
           (store (world a))
    else None in
  let a' := snd (handleAutoLogin userData a) in
  let w' := world a' in
  isLoggedIn (app w') = true
  /\ app_username (shell a') = lu_username userData
  /\ app_userId (shell a') = Some (lu_id userData)
  /\ localStorage w' !! "user_login_info"
     = Some (loginInfo (lu_username userData) (lu_id userData) d)
  /\ fullScreen (desktop w')
     = match found with Some [] => true | _ => false end
  /\ isKioskMode (app w') = fullScreen (desktop w')
  /\ keyboardHandler (desktop w') = fullScreen (desktop w')
  /\ hasActiveSession (app w')
     = match found with
       | Some (_ :: _) => true
       | _ => hasActiveSession (app (world a))
       end
  /\ journal w' = journal (world a) /\ store w' = store (world a).
Proof.
  intros Hos. cbv zeta.
  destruct (handleAutoLogin userData a) as [o a'] eqn:Hrun. cbn [snd].
  revert Hrun. unfold handleAutoLogin. unfold_handlers. stepA.
  destruct (nonEmpty (lu_deviceId userData)) eqn:Hd; stepA.
  2:{ kiosk_frame. kiosk_done. }
  destruct (listRecords _ _ _ _ _ _ _) as [[|s rest]|]; stepA;
    kiosk_frame; stepA; kiosk_done.
Qed.

End AppFacts.

(** Ann logs in on terminal [d1] while session [s1] runs, and presses
    Logout: the session is closed, the closure is logged and the device
    is released. *)
Lemma logout_closes_and_releases_witness :
  let a : AppWorld Q := snd (handleLogin None ann (appOf runningWorld)) in
  journal (world (snd (logoutOnClick a)))
  = [UpdateSession "s1" (logoutPatch 0%Q);
     CreateSessionLog
       {| log_session_id := "s1"; log_type := "Closed";
          log_session_amount := 0%Q |};
     UpdateDevice "d1" releasePatch].
Proof.
  destruct (logout_closes_and_releases (num:=Q)
              (snd (handleLogin None ann (appOf runningWorld)))
              "ann" "u1" "d1")
    as (Hj & _); [vm_compute; reflexivity|reflexivity|].
  cbv zeta. rewrite Hj. vm_compute. reflexivity.
Defined.

(** Ann logs in on terminal [d1], which has no open session, and the
    login is not a client-app login: the terminal stays locked. *)
Lemma login_lock_decision_witness :
  let a : AppWorld Q := appOf (withEmptyStorage (pricingWorld 20 0)) in
  let a' := snd (handleLogin None ann a) in
  isLoggedIn (app (world a')) = true
  /\ app_username (shell a') = "ann"
  /\ fullScreen (desktop (world a')) = true.
Proof.
  destruct (login_lock_decision (num:=Q) None ann
              (appOf (withEmptyStorage (pricingWorld 20 0))) eq_refl)
    as (Hl & Hu & _ & _ & Hf & _).
  split; [exact Hl|]. split; [exact Hu|]. cbv zeta. rewrite Hf. reflexivity.
Defined.

(** The auto-login of Ann on terminal [d1] while session [s1] runs: the
    terminal is unlocked and the session is recorded. *)
Lemma auto_login_lock_decision_witness :
  let a' := snd (handleAutoLogin ann (appOf (runningWorld (num:=Q)))) in
  fullScreen (desktop (world a')) = false
  /\ hasActiveSession (app (world a')) = true.
Proof.
  destruct (auto_login_lock_decision (num:=Q) ann (appOf runningWorld) eq_refl)
    as (_ & _ & _ & _ & Hf & _ & _ & Hh & _).
  cbv zeta. rewrite Hf, Hh. split; reflexivity.
Defined.
